(** * form-builder: the WebSocket hub, the client reconnect logic and the
      analytics aggregator

    Shallow embedding of
    - package [websocket] (backend/websocket/hub.go): [Hub], [Client],
      [Hub.Run], [Hub.BroadcastToForm], [Hub.BroadcastGeneral],
      [HandleWebSocket], [Client.readPump], [Client.writePump];
    - [class WebSocketClient] of the frontend (lib/websocket.ts);
    - backend/controllers/response.go: [calculateAnalytics] and the
      functions it calls, [SubmitResponse], [GetResponses],
      [validateResponse] and [isValidEmail], with backend/models/form.go;
    - backend/controllers/form.go: [UpdateForm], [DeleteForm] and
      [PublishForm].

    Go panics are modelled by the [Panic] result of the [Outcome] monad;
    pointers to [Client] values are addresses into a heap. *)

From Stdlib Require Import ZArith QArith Qround String List Floats.
From stdpp Require Import gmap strings list fin_maps.

Local Open Scope string_scope.
Local Open Scope Z_scope.

(** ** Results of Go code that may panic *)

Inductive Outcome (A : Type) : Type :=
  | Ok (a : A)
  | Panic (msg : string).
Arguments Ok {A} a.
Arguments Panic {A} msg.

#[global] Instance Outcome_ret : MRet Outcome := @Ok.
#[global] Instance Outcome_bind : MBind Outcome :=
  fun A B f m => match m with Ok a => f a | Panic msg => Panic msg end.

Definition is_Ok {A} (m : Outcome A) : bool :=
  match m with Ok _ => true | Panic _ => false end.

(** ** Package websocket (hub.go) *)

Module Hub.

(** A [[]byte] message. *)
Abbreviation bytes := (list Byte.byte).

(** The address of a [Client] value: [*Client]. *)
Abbreviation addr := positive.

(** A buffered Go channel of messages, as the hub sees it between two of
    its own statements: the buffered messages (oldest first), the capacity
    and whether the channel has been closed. *)
Record Chan : Type := mkChan {
  buf : list bytes;
  cap : nat;
  closed : bool
}.

(** [make(chan []byte, n)] *)
Definition make_chan (n : nat) : Chan :=
  {| buf := []; cap := n; closed := false |}.

Definition chan_full (ch : Chan) : bool := (cap ch <=? length (buf ch))%nat.

(** [close(ch)]: closing a closed channel panics. *)
Definition chan_close (ch : Chan) : Outcome Chan :=
  if closed ch then Panic "close of closed channel"
  else Ok {| buf := buf ch; cap := cap ch; closed := true |}.

(** [select { case ch <- m: ... default: ... }]: the non-blocking send.
    The boolean tells which branch was taken ([true]: the send). A send on
    a closed channel panics, also inside a [select]. With a buffer of
    positive capacity the send proceeds exactly when the buffer has room. *)
Definition chan_try_send (m : bytes) (ch : Chan) : Outcome (Chan * bool) :=
  if closed ch then Panic "send on closed channel"
  else if chan_full ch then Ok (ch, false)
  else Ok ({| buf := buf ch ++ [m]; cap := cap ch; closed := false |}, true).

(** [type Client struct]: the transport [Conn] and the back pointer [Hub]
    play no part in routing and are left out. *)
Record Client : Type := mkClient {
  Send : Chan;
  FormID : string
}.

Definition set_Send (ch : Chan) (cl : Client) : Client :=
  {| Send := ch; FormID := FormID cl |}.

Definition set_FormID (f : string) (cl : Client) : Client :=
  {| Send := Send cl; FormID := f |}.

(** The dynamic value of a message's [Data interface{}]. *)
#[local] Unset Elimination Schemes.
Inductive Data : Type :=
  | DNil
  | DString (s : string)
  | DInt (z : Z)
  | DMap (kv : list (string * Data)).
#[local] Set Elimination Schemes.

(** [type Message struct] *)
Record Message : Type := mkMessage {
  msg_Type : string;
  msg_FormID : string;
  msg_Data : Data;
  msg_EventID : string
}.

(** The [Client] values in memory and the hub's registry
    [Clients map[*Client]bool]. *)
Record State : Type := mkState {
  heap : gmap addr Client;
  Clients : gmap addr bool
}.

(** [NewHub()] with no client allocated yet. *)
Definition NewHub : State := {| heap := ∅; Clients := ∅ |}.

Definition set_client (c : addr) (cl : Client) (σ : State) : State :=
  {| heap := <[c := cl]> (heap σ); Clients := Clients σ |}.

(** [h.Clients[client] = true] *)
Definition registry_insert (c : addr) (σ : State) : State :=
  {| heap := heap σ; Clients := <[c := true]> (Clients σ) |}.

(** [delete(h.Clients, client)] *)
Definition registry_delete (c : addr) (σ : State) : State :=
  {| heap := heap σ; Clients := delete c (Clients σ) |}.

(** Dereferencing [client]. *)
Definition deref (c : addr) (σ : State) : Outcome Client :=
  match heap σ !! c with
  | Some cl => Ok cl
  | None => Panic "invalid memory address or nil pointer dereference"
  end.

(** [close(client.Send)] *)
Definition close_Send (c : addr) (σ : State) : Outcome State :=
  cl ← deref c σ;
  ch ← chan_close (Send cl);
  Ok (set_client c (set_Send ch cl) σ).

(** The statement shared by the two fan-out loops:
    [select { case client.Send <- message: default: close(client.Send);
    delete(h.Clients, client) }]. *)
Definition send_or_evict (message : bytes) (c : addr) (σ : State) : Outcome State :=
  cl ← deref c σ;
  '(ch, sent) ← chan_try_send message (Send cl);
  if (sent : bool) then Ok (set_client c (set_Send ch cl) σ)
  else σ' ← close_Send c σ; Ok (registry_delete c σ').

(** [for client := range h.Clients { body }], the keys being produced in
    the order [order], which Go leaves unspecified. A key deleted before it
    is reached is not produced. *)
Fixpoint range_Clients (body : addr -> State -> Outcome State)
    (order : list addr) (σ : State) : Outcome State :=
  match order with
  | [] => Ok σ
  | c :: rest =>
      σ' ← (if decide (is_Some (Clients σ !! c)) then body c σ else Ok σ);
      range_Clients body rest σ'
  end.

(** A request received by [Run] on one of the hub's three channels. *)
Inductive Request : Type :=
  | ReqRegister (client : addr)
  | ReqUnregister (client : addr)
  | ReqBroadcast (message : bytes).

(** The [case client := <-h.Unregister] branch of [Run]. *)
Definition Run_unregister (c : addr) (σ : State) : Outcome State :=
  match Clients σ !! c with
  | Some _ => close_Send c (registry_delete c σ)
  | None => Ok σ
  end.

(** The [case message := <-h.Broadcast] branch of [Run]. *)
Definition Run_broadcast (order : list addr) (message : bytes) (σ : State)
    : Outcome State :=
  range_Clients (send_or_evict message) order σ.

(** One turn of the [for { select { ... } }] loop of [Hub.Run]. *)
Definition Run_step (order : list addr) (req : Request) (σ : State)
    : Outcome State :=
  match req with
  | ReqRegister c => Ok (registry_insert c σ)
  | ReqUnregister c => Run_unregister c σ
  | ReqBroadcast message => Run_broadcast order message σ
  end.

(** [Run] fed with the requests [reqs] in arrival order; [orders] gives the
    iteration order of each turn. *)
Fixpoint Run (orders : list (list addr)) (reqs : list Request) (σ : State)
    : Outcome State :=
  match reqs with
  | [] => Ok σ
  | req :: reqs' =>
      σ' ← Run_step (hd [] orders) req σ;
      Run (tl orders) reqs' σ'
  end.

Section Encoding.

(** [json.Marshal] and [json.Unmarshal] of a [Message] (encoding/json). *)
Variable json_Marshal : Message -> option bytes.
Variable json_Unmarshal : bytes -> option Message.

(** The body of the loop of [BroadcastToForm]. *)
Definition BroadcastToForm_body (formID : string) (jsonData : bytes)
    (c : addr) (σ : State) : Outcome State :=
  cl ← deref c σ;
  if (String.eqb (FormID cl) "" || String.eqb (FormID cl) formID)%bool
  then send_or_evict jsonData c σ
  else Ok σ.

(** [func (h *Hub) BroadcastToForm(formID, messageType string, data interface{})] *)
Definition BroadcastToForm (order : list addr) (formID messageType : string)
    (data : Data) (σ : State) : Outcome State :=
  let message :=
    {| msg_Type := messageType; msg_FormID := formID; msg_Data := data;
       msg_EventID := "" |} in
  match json_Marshal message with
  | None => Ok σ
  | Some jsonData => range_Clients (BroadcastToForm_body formID jsonData) order σ
  end.

(** [func (h *Hub) BroadcastGeneral(messageType string, data interface{})]:
    the request it sends on [h.Broadcast], if any. *)
Definition BroadcastGeneral (messageType : string) (data : Data) : option Request :=
  let message :=
    {| msg_Type := messageType; msg_FormID := ""; msg_Data := data;
       msg_EventID := "" |} in
  match json_Marshal message with
  | None => None
  | Some jsonData => Some (ReqBroadcast jsonData)
  end.

(** [HandleWebSocket] up to the start of the two pumps: the client is
    allocated at the fresh address [c], registered through [Run], and the
    greeting is queued if there is room. [ts] is [time.Now().Unix()]. *)
Definition HandleWebSocket (c : addr) (ts : Z) (σ : State) : Outcome State :=
  let client := {| Send := make_chan 256; FormID := "" |} in
  let σ1 := set_client c client σ in
  σ2 ← Run_step [] (ReqRegister c) σ1;
  let greeting :=
    {| msg_Type := "ws_greeting"; msg_FormID := "";
       msg_Data := DMap [("message", DString "connected"); ("ts", DInt ts)];
       msg_EventID := "" |} in
  match json_Marshal greeting with
  | Some b =>
      cl ← deref c σ2;
      '(ch, _) ← chan_try_send b (Send cl);
      Ok (set_client c (set_Send ch cl) σ2)
  | None => Ok σ2
  end.

(** The [switch msg.Type] of [readPump], run for client [c]. *)
Definition readPump_dispatch (c : addr) (msg : Message) (σ : State)
    : Outcome State :=
  if String.eqb (msg_Type msg) "subscribe_form" then
    match msg_Data msg with
    | DString formIDStr =>
        cl ← deref c σ; Ok (set_client c (set_FormID formIDStr cl) σ)
    | _ => Ok σ
    end
  else if String.eqb (msg_Type msg) "ping" then
    let pong :=
      {| msg_Type := "pong"; msg_FormID := ""; msg_Data := DString "pong";
         msg_EventID := "" |} in
    match json_Marshal pong with
    | Some b =>
        cl ← deref c σ;
        '(ch, _) ← chan_try_send b (Send cl);
        Ok (set_client c (set_Send ch cl) σ)
    | None => Ok σ
    end
  else Ok σ.

(** One turn of the read loop of [readPump] on a frame that was read
    without error: frames that are not text frames and frames that do not
    decode are skipped. *)
Definition readPump_frame (c : addr) (isText : bool) (payload : bytes)
    (σ : State) : Outcome State :=
  if isText then
    match json_Unmarshal payload with
    | Some msg => readPump_dispatch c msg σ
    | None => Ok σ
    end
  else Ok σ.

End Encoding.

(** The deferred cleanup of [readPump]: [c.Hub.Unregister <- c]. *)
Definition readPump_exit (c : addr) (σ : State) : Outcome State :=
  Run_step [] (ReqUnregister c) σ.

(** *** Goroutines

    [Hub.Run] runs on the goroutine started for it; [BroadcastToForm] is
    called by the request handlers ([SubmitResponse], [updateAnalytics]) and
    runs on theirs. A [Prog] is what is left to run of one goroutine, one
    statement at a time: each [Atomic] step is one statement on the shared
    state and yields the rest. *)
#[local] Unset Elimination Schemes.
Inductive Prog : Type :=
  | Done
  | Atomic (stmt : State -> Outcome (State * Prog)).
#[local] Set Elimination Schemes.

(** One goroutine running alone, to its end. *)
Fixpoint run_alone (p : Prog) (σ : State) : Outcome State :=
  match p with
  | Done => Ok σ
  | Atomic stmt =>
      match stmt σ with
      | Ok (σ', rest) => run_alone rest σ'
      | Panic msg => Panic msg
      end
  end.

(** Two goroutines under the schedule [sched]: [true] lets the first take
    its next statement, [false] the second; a goroutine that has ended
    skips its turn, and when the schedule is used up the first runs to its
    end and then the second. A panic in either ends the program. *)
Fixpoint interleave (sched : list bool) (p q : Prog) (σ : State)
    : Outcome State :=
  match sched with
  | [] => σ' ← run_alone p σ; run_alone q σ'
  | true :: sched' =>
      match p with
      | Done => interleave sched' p q σ
      | Atomic stmt =>
          match stmt σ with
          | Ok (σ', rest) => interleave sched' rest q σ'
          | Panic msg => Panic msg
          end
      end
  | false :: sched' =>
      match q with
      | Done => interleave sched' p q σ
      | Atomic stmt =>
          match stmt σ with
          | Ok (σ', rest) => interleave sched' p rest σ'
          | Panic msg => Panic msg
          end
      end
  end.

(** The first [n] statements of a goroutine: the state they leave and
    what is left to run. *)
Fixpoint run_steps (n : nat) (p : Prog) (σ : State) : Outcome (State * Prog) :=
  match n, p with
  | S n', Atomic stmt =>
      match stmt σ with
      | Ok (σ', rest) => run_steps n' rest σ'
      | Panic msg => Panic msg
      end
  | _, _ => Ok (σ, p)
  end.

(** The [case client := <-h.Unregister] branch of [Run], statement by
    statement: the lookup, the [delete] and the [close]. *)
Definition unregister_prog (c : addr) : Prog :=
  Atomic (fun σ =>
    match Clients σ !! c with
    | Some _ =>
        Ok (σ, Atomic (fun σ =>
          Ok (registry_delete c σ, Atomic (fun σ =>
            σ' ← close_Send c σ; Ok (σ', Done)))))
    | None => Ok (σ, Done)
    end).

(** The body of the loop of [BroadcastToForm] for the client [c],
    statement by statement: the test with the [select], the [close] and
    the [delete]. *)
Definition broadcast_body_prog (formID : string) (jsonData : bytes) (c : addr)
    : Prog :=
  Atomic (fun σ =>
    cl ← deref c σ;
    if (String.eqb (FormID cl) "" || String.eqb (FormID cl) formID)%bool then
      '(ch, sent) ← chan_try_send jsonData (Send cl);
      if (sent : bool) then Ok (set_client c (set_Send ch cl) σ, Done)
      else
        Ok (σ, Atomic (fun σ =>
          σ' ← close_Send c σ;
          Ok (σ', Atomic (fun σ => Ok (registry_delete c σ, Done)))))
    else Ok (σ, Done)).

(** [p] and then [q], on one goroutine. *)
Fixpoint andThen (p q : Prog) : Prog :=
  match p with
  | Done => q
  | Atomic stmt =>
      Atomic (fun σ =>
        match stmt σ with
        | Ok (σ', rest) => Ok (σ', andThen rest q)
        | Panic msg => Panic msg
        end)
  end.

(** [for client := range h.Clients { body }], statement by statement;
    producing the next key is a step of its own. *)
Fixpoint range_prog (body : addr -> Prog) (order : list addr) : Prog :=
  match order with
  | [] => Done
  | c :: rest =>
      Atomic (fun σ =>
        if decide (is_Some (Clients σ !! c))
        then Ok (σ, andThen (body c) (range_prog body rest))
        else Ok (σ, range_prog body rest))
  end.

(** The loop of [BroadcastToForm] once the message is serialised. *)
Definition BroadcastToForm_prog (order : list addr) (formID : string)
    (jsonData : bytes) : Prog :=
  range_prog (broadcast_body_prog formID jsonData) order.

(** *** Vocabulary of the statements about the hub *)

(** The client after a successful [client.Send <- m]. *)
Definition delivered (m : bytes) (cl : Client) : Client :=
  set_Send {| buf := buf (Send cl) ++ [m]; cap := cap (Send cl); closed := false |} cl.

(** The client after [close(client.Send)]. *)
Definition evicted (cl : Client) : Client :=
  set_Send {| buf := buf (Send cl); cap := cap (Send cl); closed := true |} cl.

(** The test of [BroadcastToForm]:
    [client.FormID == "" || client.FormID == formID]. *)
Definition selects_form (formID : string) (cl : Client) : bool :=
  (String.eqb (FormID cl) "" || String.eqb (FormID cl) formID)%bool.

(** What one fan-out does to one selected or unselected client whose
    channel is open, and whether the client stays registered. *)
Definition fanout_client (sel : Client -> bool) (m : bytes) (cl : Client)
    : Client * bool :=
  if sel cl then
    if chan_full (Send cl) then (evicted cl, false) else (delivered m cl, true)
  else (cl, true).

(** The loop body of a fan-out that selects clients with [sel]. *)
Definition fanout (sel : Client -> bool) (m : bytes) (c : addr) (σ : State)
    : Outcome State :=
  cl ← deref c σ; if sel cl then send_or_evict m c σ else Ok σ.

(** Between [σ] and [σ'] the message [m] was appended to the queue of [c]. *)
Definition received (σ σ' : State) (m : bytes) (c : addr) : Prop :=
  exists cl cl', heap σ !! c = Some cl /\ heap σ' !! c = Some cl' /\
    buf (Send cl') = (buf (Send cl) ++ [m])%list.

(** [c] is registered and its topic is [formID]. *)
Definition subscribed_to (formID : string) (c : addr) (σ : State) : Prop :=
  exists b cl, Clients σ !! c = Some b /\ heap σ !! c = Some cl /\
    FormID cl = formID.

(** [σ'] agrees with [σ] on the client at [c] and on its registry entry. *)
Definition same_at (c : addr) (σ σ' : State) : Prop :=
  heap σ' !! c = heap σ !! c /\ Clients σ' !! c = Clients σ !! c.

(** The receive [case message, ok := <-c.Send] of [writePump] when a
    message is buffered: the oldest message leaves the queue. *)
Definition writePump_recv (c : addr) (σ : State) : State :=
  match heap σ !! c with
  | Some cl =>
      match buf (Send cl) with
      | _ :: rest =>
          set_client c
            (set_Send {| buf := rest; cap := cap (Send cl);
                         closed := closed (Send cl) |} cl) σ
      | [] => σ
      end
  | None => σ
  end.

(** Every registered client is allocated and its [Send] channel is open.
    This is how an operation that has run to its end leaves the hub; it does
    not hold between the [close] and the [delete] of an eviction, which are
    two statements. *)
Definition registered_open (σ : State) : Prop :=
  forall c b, Clients σ !! c = Some b ->
    exists cl, heap σ !! c = Some cl /\ closed (Send cl) = false.

(** [order] lists the keys of the registry, each once. *)
Definition iteration_order (order : list addr) (σ : State) : Prop :=
  NoDup order /\ forall c, c ∈ order <-> is_Some (Clients σ !! c).

(** The two conditions as boolean checks. *)
Definition registered_openb (σ : State) : bool :=
  bool_decide (map_Forall (fun c (_ : bool) =>
    from_option (fun cl => negb (closed (Send cl))) false (heap σ !! c) = true)
    (Clients σ)).

Definition iteration_orderb (order : list addr) (σ : State) : bool :=
  bool_decide (NoDup order) &&
  bool_decide (list_to_set order = (dom (Clients σ) : gset addr)).

(** *** Concrete data for the examples *)

(** A stand-in for [json.Marshal]: the type and the topic of the message. *)
Definition example_Marshal (msg : Message) : option bytes :=
  Some (list_byte_of_string (msg_Type msg ++ ":" ++ msg_FormID msg)).

(** Four registered clients: 1 and 2 on topic A, the queue of 2 being full,
    3 on topic B, and 4 without a topic. *)
Definition example_state : State :=
  {| heap :=
       <[1%positive := {| Send := make_chan 256; FormID := "A" |}]>
       (<[2%positive := {| Send := {| buf := replicate 256 (list_byte_of_string "queued"); cap := 256;
                                      closed := false |};
                           FormID := "A" |}]>
       (<[3%positive := {| Send := make_chan 256; FormID := "B" |}]>
       (<[4%positive := {| Send := make_chan 256; FormID := "" |}]> ∅)));
     Clients :=
       <[1%positive := true]> (<[2%positive := true]>
       (<[3%positive := true]> (<[4%positive := true]> ∅))) |}.

(** One registered client on topic A whose queue is full. *)
Definition slow_consumer_state : State :=
  {| heap :=
       <[1%positive := {| Send := {| buf := replicate 256 (list_byte_of_string "queued"); cap := 256;
                                      closed := false |};
                           FormID := "A" |}]> ∅;
     Clients := <[1%positive := true]> ∅ |}.

End Hub.

(** ** The browser client (frontend/src/lib/websocket.ts) *)

Module WebSocketClient.

(** [WebSocket.readyState] *)
Inductive ReadyState : Type := CONNECTING | OPEN | CLOSING | CLOSED.

(** What the client does to the outside: events passed to the registered
    listeners by [emit], and timers and sockets it creates. Listeners are
    taken not to call back into the client. *)
Inductive Effect : Type :=
  | Emit (event : string)
  | SetTimeoutConnect (delay : Z)
  | NewWebSocket
  | SocketClose.

(** The fields of [class WebSocketClient]; [socket] holds the ready state
    of [this.socket] when it is not [null], [pingInterval] whether the ping
    timer is set, and [effects] the effects so far, latest first. *)
Record WSClient : Type := mkWSClient {
  socket : option ReadyState;
  reconnectInterval : Z;
  maxReconnectAttempts : Z;
  reconnectAttempts : Z;
  isConnected : bool;
  connectionError : option string;
  pingInterval : bool;
  effects : list Effect
}.

(** [new WebSocketClient()] *)
Definition wsClient : WSClient :=
  {| socket := None; reconnectInterval := 5000; maxReconnectAttempts := 5;
     reconnectAttempts := 0; isConnected := false; connectionError := None;
     pingInterval := false; effects := [] |}.

(** [connect()]; [throws] tells whether [new WebSocket(...)] throws. *)
Definition connect (throws : bool) (w : WSClient) : WSClient :=
  match socket w with
  | Some OPEN => w
  | _ =>
      if throws then
        {| socket := socket w; reconnectInterval := reconnectInterval w;
           maxReconnectAttempts := maxReconnectAttempts w;
           reconnectAttempts := reconnectAttempts w;
           isConnected := isConnected w;
           connectionError := Some "Failed to create connection";
           pingInterval := pingInterval w; effects := effects w |}
      else
        {| socket := Some CONNECTING; reconnectInterval := reconnectInterval w;
           maxReconnectAttempts := maxReconnectAttempts w;
           reconnectAttempts := reconnectAttempts w;
           isConnected := isConnected w;
           connectionError := connectionError w;
           pingInterval := pingInterval w;
           effects := NewWebSocket :: effects w |}
  end.

(** The [onopen] handler, with [startPingInterval]. *)
Definition onopen (w : WSClient) : WSClient :=
  {| socket := socket w; reconnectInterval := reconnectInterval w;
     maxReconnectAttempts := maxReconnectAttempts w;
     reconnectAttempts := 0;
     isConnected := true;
     connectionError := None;
     pingInterval := true;
     effects := Emit "connected" :: effects w |}.

(** [handleReconnect()] *)
Definition handleReconnect (w : WSClient) : WSClient :=
  if reconnectAttempts w >=? maxReconnectAttempts w then
    {| socket := socket w; reconnectInterval := reconnectInterval w;
       maxReconnectAttempts := maxReconnectAttempts w;
       reconnectAttempts := reconnectAttempts w;
       isConnected := isConnected w;
       connectionError := connectionError w;
       pingInterval := pingInterval w;
       effects := Emit "max_reconnect_attempts_reached" :: effects w |}
  else
    {| socket := None; reconnectInterval := reconnectInterval w;
       maxReconnectAttempts := maxReconnectAttempts w;
       reconnectAttempts := reconnectAttempts w + 1;
       isConnected := isConnected w;
       connectionError := connectionError w;
       pingInterval := pingInterval w;
       effects := SetTimeoutConnect (reconnectInterval w) :: effects w |}.

(** The [onclose] handler, with [stopPingInterval]. *)
Definition onclose (code : Z) (w : WSClient) : WSClient :=
  let w1 :=
    {| socket := socket w; reconnectInterval := reconnectInterval w;
       maxReconnectAttempts := maxReconnectAttempts w;
       reconnectAttempts := reconnectAttempts w;
       isConnected := false;
       connectionError := connectionError w;
       pingInterval := false;
       effects := Emit "disconnected" :: effects w |} in
  if code =? 1000 then w1 else handleReconnect w1.

(** The [onerror] handler. *)
Definition onerror (w : WSClient) : WSClient :=
  {| socket := socket w; reconnectInterval := reconnectInterval w;
     maxReconnectAttempts := maxReconnectAttempts w;
     reconnectAttempts := reconnectAttempts w;
     isConnected := isConnected w;
     connectionError := Some "Connection failed";
     pingInterval := pingInterval w;
     effects := Emit "error" :: effects w |}.

(** [disconnect()] *)
Definition disconnect (w : WSClient) : WSClient :=
  {| socket := None; reconnectInterval := reconnectInterval w;
     maxReconnectAttempts := maxReconnectAttempts w;
     reconnectAttempts := reconnectAttempts w;
     isConnected := false;
     connectionError := connectionError w;
     pingInterval := false;
     effects := match socket w with
                | Some _ => SocketClose :: effects w
                | None => effects w
                end |}.

(** The browser moves the ready state of [this.socket]. *)
Definition set_readyState (r : ReadyState) (w : WSClient) : WSClient :=
  {| socket := match socket w with Some _ => Some r | None => None end;
     reconnectInterval := reconnectInterval w;
     maxReconnectAttempts := maxReconnectAttempts w;
     reconnectAttempts := reconnectAttempts w;
     isConnected := isConnected w;
     connectionError := connectionError w;
     pingInterval := pingInterval w; effects := effects w |}.

(** What can happen to the client: calls of its public methods, a
    reconnect timer that fires, and the events of a socket it created;
    [current] tells whether that socket is still [this.socket]. *)
Inductive Event : Type :=
  | CallConnect (throws : bool)
  | CallDisconnect
  | TimerFires (throws : bool)
  | SocketOpen (current : bool)
  | SocketError
  | SocketCloseEvent (current : bool) (code : Z).

Definition step (e : Event) (w : WSClient) : WSClient :=
  match e with
  | CallConnect throws => connect throws w
  | CallDisconnect => disconnect w
  | TimerFires throws => connect throws w
  | SocketOpen current => onopen (if current then set_readyState OPEN w else w)
  | SocketError => onerror w
  | SocketCloseEvent current code =>
      onclose code (if current then set_readyState CLOSED w else w)
  end.

(** The client after the events [evs], the first of the list first. *)
Definition run (evs : list Event) (w : WSClient) : WSClient :=
  fold_left (fun w e => step e w) evs w.

Definition is_open_event (e : Event) : bool :=
  match e with SocketOpen _ => true | _ => false end.

(** The number of reconnections scheduled so far. *)
Definition scheduled (w : WSClient) : nat :=
  length (List.filter
            (fun e => match e with SetTimeoutConnect _ => true | _ => false end)
            (effects w)).

(** The counter stays between 0 and the maximum, which is never changed. *)
Definition bounded (w : WSClient) : Prop :=
  maxReconnectAttempts w = 5 /\ 0 <= reconnectAttempts w <= 5.

End WebSocketClient.

(** ** The analytics aggregator (backend/controllers/response.go) *)

Module Analytics.

(** The [float64] operations the aggregator uses: conversion from an
    integer, the four operations, equality and the conversion [int(x)]. *)
Class Float64 (F : Type) : Type := {
  f_of_Z : Z -> F;
  f_add : F -> F -> F;
  f_sub : F -> F -> F;
  f_mul : F -> F -> F;
  f_div : F -> F -> F;
  f_eqb : F -> F -> bool;
  f_to_int : F -> Z
}.

(** [int(x)] on IEEE 754 binary64: truncation towards zero; where the
    value is not finite the result is the one of amd64. *)
Definition float_to_int (x : float) : Z :=
  match Prim2SF x with
  | S754_zero _ => 0
  | S754_finite s m e =>
      let a := if 0 <=? e then Z.pos m * 2 ^ e else Z.pos m / 2 ^ (- e) in
      if s then - a else a
  | _ => - 2 ^ 63
  end.

(** IEEE 754 binary64, as Go's [float64]. *)
#[global] Instance Float64_float : Float64 float := {|
  f_of_Z := fun z => SF2Prim (binary_normalize prec emax z 0 false);
  f_add := PrimFloat.add;
  f_sub := PrimFloat.sub;
  f_mul := PrimFloat.mul;
  f_div := PrimFloat.div;
  f_eqb := PrimFloat.eqb;
  f_to_int := float_to_int
|}.

(** Exact rational arithmetic: [float64] without rounding. *)
#[global] Instance Float64_Q : Float64 Q := {|
  f_of_Z := inject_Z;
  f_add := Qplus;
  f_sub := Qminus;
  f_mul := Qmult;
  f_div := Qdiv;
  f_eqb := Qeq_bool;
  f_to_int := fun q => if Qle_bool 0 q then Qfloor q else Qceiling q
|}.

(** [models.FieldType] and its constants. *)
Abbreviation FieldType := string.
Definition FieldTypeText : FieldType := "text".
Definition FieldTypeTextarea : FieldType := "textarea".
Definition FieldTypeEmail : FieldType := "email".
Definition FieldTypeNumber : FieldType := "number".
Definition FieldTypeMultipleChoice : FieldType := "multiple_choice".
Definition FieldTypeCheckbox : FieldType := "checkbox".
Definition FieldTypeRating : FieldType := "rating".
Definition FieldTypeDate : FieldType := "date".

(** [models.FormField], with the fields the aggregator reads. *)
Record FormField : Type := mkFormField {
  ID : string;
  Type_ : FieldType;
  Label : string;
  Required : bool
}.

(** [primitive.ObjectID], in hexadecimal. *)
Abbreviation ObjectID := string.

(** An instant: milliseconds since the Unix epoch, the resolution of the
    [created_at] the store keeps. *)
Abbreviation Time := Z.

(** [24 * time.Hour] *)
Definition day : Z := 86400000.

(** What the aggregator asks of [time.Time] in the server's location:
    [startOfDay t] is
    [time.Date(t.Year(), t.Month(), t.Day(), 0, 0, 0, 0, t.Location())]
    and [addDays n t] is [t.AddDate(0, 0, n)]. *)
Record Location : Type := mkLocation {
  startOfDay : Time -> Time;
  addDays : Z -> Time -> Time
}.

(** A location at a constant offset (in milliseconds, east of UTC). *)
Definition fixedZone (offset : Z) : Location :=
  {| startOfDay := fun t => (t + offset) / day * day - offset;
     addDays := fun n t => t + n * day |}.

Definition UTC : Location := fixedZone 0.

(** A location whose offset from UTC changes once: [before] up to the
    instant [change] and [after] from it on (in milliseconds, east of UTC).
    [abs] turns a wall-clock reading into an instant as [time.Date] does:
    with the offset in force at the reading taken as an instant, or, where
    the instant this gives lies on the other side of the change, with the
    offset in force at that instant. *)
Definition changingZone (change : Time) (before after : Z) : Location :=
  let offset t := if t <? change then before else after in
  let abs wall :=
    let utc := wall - offset wall in
    if Bool.eqb (utc <? change) (wall <? change) then utc
    else wall - offset utc in
  {| startOfDay := fun t => abs ((t + offset t) / day * day);
     addDays := fun n t => abs (t + offset t + n * day) |}.

(** [America/New_York] around the end of daylight saving time in 2026: four
    hours behind UTC until 1 November 2026, 06:00 UTC, five hours from then
    on. *)
Definition newYork_2026 : Location :=
  changingZone 1793512800000 (-4 * 3600000) (-5 * 3600000).

(** In [loc], each of the six days before the day of [now] lasts 24
    hours: there is no change of offset in the window. *)
Definition whole_days (loc : Location) (now : Time) : Prop :=
  forall i, 0 <= i < 6 ->
    startOfDay loc (addDays loc (- (i + 1)) now) + day =
    startOfDay loc (addDays loc (- i) now).

(** One entry of [response_trends]; [date] is the start of the day, which
    the source prints as [2006-01-02]. *)
Record TrendEntry : Type := mkTrendEntry {
  date : Time;
  count : Z
}.

Section Aggregator.

Context {F : Type} {Float64_F : Float64 F}.

(** A stored answer: the dynamic value of an [interface{}] decoded from
    the store, or built by the aggregator ([VInt], a Go [int]). *)
#[local] Unset Elimination Schemes.
Inductive Value : Type :=
  | VNil
  | VString (s : string)
  | VInt32 (z : Z)
  | VInt64 (z : Z)
  | VDouble (x : F)
  | VBool (b : bool)
  | VArray (l : list Value)
  | VInt (z : Z).
#[local] Set Elimination Schemes.

(** [models.FormResponse], with the fields the aggregator reads. *)
Record FormResponse : Type := mkFormResponse {
  FormID : ObjectID;
  Responses : gmap string Value;
  CreatedAt : Time
}.

(** The [responses] collection. *)
Abbreviation Collection := (list FormResponse).

(** [CountDocuments(ctx, filter)] *)
Definition CountDocuments (db : Collection) (flt : FormResponse -> bool) : Z :=
  Z.of_nat (length (List.filter flt db)).

(** [Find(ctx, filter)] followed by [cursor.All]. *)
Definition Find (db : Collection) (flt : FormResponse -> bool) : Collection :=
  List.filter flt db.

(** [bson.M{"form_id": formID}] *)
Definition of_form (formID : ObjectID) (r : FormResponse) : bool :=
  String.eqb (FormID r) formID.

(** [bson.M{"form_id": formID, "created_at": bson.M{"$gte": since}}] *)
Definition of_form_since (formID : ObjectID) (since : Time) (r : FormResponse)
    : bool :=
  of_form formID r && (since <=? CreatedAt r).

(** [bson.M{"form_id": formID,
            "created_at": bson.M{"$gte": startOfDay, "$lt": endOfDay}}] *)
Definition of_form_between (formID : ObjectID) (startOfDay endOfDay : Time)
    (r : FormResponse) : bool :=
  of_form formID r && (startOfDay <=? CreatedAt r) && (CreatedAt r <? endOfDay).

Definition nil_or_empty (v : Value) : bool :=
  match v with
  | VNil => true
  | VString s => String.eqb s ""
  | _ => false
  end.

(** [bson.M{"$exists": true, "$nin": []interface{}{nil, ""}}] on one value:
    on an array [$nin] looks at the elements as well. *)
Definition exists_nin_nil_empty (o : option Value) : bool :=
  match o with
  | None => false
  | Some (VArray l) => forallb (fun v => negb (nil_or_empty v)) l
  | Some v => negb (nil_or_empty v)
  end.

(** [bson.M{"form_id": formID, "responses." + field.ID: ...}] *)
Definition of_form_answered (formID : ObjectID) (fieldID : string)
    (r : FormResponse) : bool :=
  of_form formID r && exists_nin_nil_empty (Responses r !! fieldID).

(** [calculateResponseTrends]; [now] is its [time.Now()]. *)
Definition calculateResponseTrends (loc : Location) (now : Time)
    (db : Collection) (formID : ObjectID) : list TrendEntry :=
  map (fun i =>
         let date := addDays loc (- i) now in
         let startOfDay := startOfDay loc date in
         let endOfDay := startOfDay + day in
         {| date := startOfDay;
            count := CountDocuments db (of_form_between formID startOfDay endOfDay) |})
      [6; 5; 4; 3; 2; 1; 0].

(** [!exists || value == nil || value == ""] negated: the required field
    is completed in the response. *)
Definition completed (r : FormResponse) (fieldID : string) : bool :=
  match Responses r !! fieldID with
  | Some v => negb (nil_or_empty v)
  | None => false
  end.

(** The [requiredFields] of [calculateCompletionMetrics]. *)
Definition requiredFields (fields : list FormField) : list string :=
  map ID (List.filter Required fields).

(** [isComplete] after the inner loop. *)
Definition isComplete (fields : list FormField) (r : FormResponse) : bool :=
  forallb (completed r) (requiredFields fields).

(** The loop over the responses: [completedResponses] and
    [totalCompletionTime] at its end. *)
Definition completion_loop (fields : list FormField) (responses : Collection)
    : Z * F :=
  fold_left
    (fun acc r =>
       let completedResponses :=
         if isComplete fields r then acc.1 + 1 else acc.1 in
       let estimatedTime :=
         f_mul (f_of_Z (Z.of_nat (size (Responses r)))) (f_of_Z 10) in
       (completedResponses, f_add acc.2 estimatedTime))
    responses (0, f_of_Z 0).

(** [calculateCompletionMetrics]: the completion rate and the average
    completion time. *)
Definition calculateCompletionMetrics (db : Collection) (formID : ObjectID)
    (fields : list FormField) : F * F :=
  let responses := Find db (of_form formID) in
  if (length responses =? 0)%nat then (f_of_Z 0, f_of_Z 0)
  else
    let '(completedResponses, totalCompletionTime) :=
      completion_loop fields responses in
    let n := f_of_Z (Z.of_nat (length responses)) in
    (f_mul (f_div (f_of_Z completedResponses) n) (f_of_Z 100),
     f_div totalCompletionTime n).

(** One entry of [common_responses]. *)
Record CommonResponse : Type := mkCommonResponse {
  value : Value;
  cr_count : Z;
  percentage : F
}.

(** The [fiber.Map] built by [calculateEnhancedFieldAnalytics]; the key
    [average_rating] is present only for some rating fields. *)
Record FieldAnalytics : Type := mkFieldAnalytics {
  field_id : string;
  field_label : string;
  field_type : FieldType;
  response_rate : F;
  skip_rate : F;
  unique_responses : Z;
  common_responses : list CommonResponse;
  average_rating : option F
}.

(** *** The store's aggregation operators *)

(** The number behind a numeric value. *)
Definition numeric (v : Value) : option F :=
  match v with
  | VInt32 z | VInt64 z | VInt z => Some (f_of_Z z)
  | VDouble x => Some x
  | _ => None
  end.

(** Equality of values as [$group] sees it: numbers compare by value. *)
Fixpoint value_eqb (a b : Value) : bool :=
  match a, b with
  | VNil, VNil => true
  | VString s, VString t => String.eqb s t
  | VBool x, VBool y => Bool.eqb x y
  | VArray l, VArray l' =>
      (fix all2 (l l' : list Value) : bool :=
         match l, l' with
         | [], [] => true
         | x :: xs, y :: ys => value_eqb x y && all2 xs ys
         | _, _ => false
         end) l l'
  | VDouble x, VDouble y => f_eqb x y
  | VDouble x, (VInt32 z | VInt64 z | VInt z)
  | (VInt32 z | VInt64 z | VInt z), VDouble x => f_eqb x (f_of_Z z)
  | (VInt32 z | VInt64 z | VInt z), (VInt32 z' | VInt64 z' | VInt z') => z =? z'
  | _, _ => false
  end.

(** [{"$group": {"_id": "$value", "count": {"$sum": 1}}}]: the groups in
    the order in which their values are first met. *)
Fixpoint bump (v : Value) (groups : list (Value * Z)) : list (Value * Z) :=
  match groups with
  | [] => [(v, 1)]
  | (w, n) :: rest =>
      if value_eqb v w then (w, n + 1) :: rest else (w, n) :: bump v rest
  end.

Definition group_count (values : list Value) : list (Value * Z) :=
  fold_left (fun groups v => bump v groups) values [].

(** [{"$sort": {"count": -1}}]: groups of equal count keep their order. *)
Fixpoint insert_desc (g : Value * Z) (sorted : list (Value * Z))
    : list (Value * Z) :=
  match sorted with
  | [] => [g]
  | h :: rest => if h.2 <=? g.2 then g :: h :: rest else h :: insert_desc g rest
  end.

Definition sort_desc (groups : list (Value * Z)) : list (Value * Z) :=
  fold_right insert_desc [] groups.

(** The values of the field in the responses selected by [$match]. *)
Definition answers (db : Collection) (formID : ObjectID) (fieldID : string)
    : list Value :=
  omap (fun r => Responses r !! fieldID)
       (List.filter (of_form_answered formID fieldID) db).

(** The pipeline [$match], [$project], [$group], [$sort], [$limit]. *)
Definition aggregate_top (db : Collection) (formID : ObjectID)
    (fieldID : string) (limit : nat) : list (Value * Z) :=
  firstn limit (sort_desc (group_count (answers db formID fieldID))).

(** [{"$avg": ...}]: the mean of the numeric values, none if there is no
    numeric value. *)
Definition avg (values : list Value) : option F :=
  let nums := omap numeric values in
  match nums with
  | [] => None
  | _ => Some (f_div (fold_left f_add nums (f_of_Z 0))
                     (f_of_Z (Z.of_nat (length nums))))
  end.

(** *** [calculateEnhancedFieldAnalytics] *)

(** [count.(int32)]: the assertion panics on a count the store returns as
    a 64-bit integer. *)
Definition assert_int32 (n : Z) : Outcome Z :=
  if n <? 2 ^ 31 then Ok n
  else Panic "interface conversion: interface {} is int64, not int32".

(** The loop that fills [distribution]. *)
Definition distribution (ratings : list Value) : gmap Z Z :=
  fold_left
    (fun d rating =>
       match rating with
       | VInt32 r => <[r := default 0 (d !! r) + 1]> d
       | VDouble r => <[f_to_int r := default 0 (d !! f_to_int r) + 1]> d
       | _ => d
       end)
    ratings ∅.

(** The loop [for rating := 1; rating <= 5; rating++]. *)
Definition rating_buckets (ratings : list Value) : list CommonResponse :=
  let distribution := distribution ratings in
  flat_map
    (fun rating =>
       let count := default 0 (distribution !! rating) in
       if 0 <? count then
         [{| value := VInt rating; cr_count := count;
             percentage :=
               f_mul (f_div (f_of_Z count) (f_of_Z (Z.of_nat (length ratings))))
                     (f_of_Z 100) |}]
       else [])
    [1; 2; 3; 4; 5].

(** The truncation of long text answers. *)
Definition truncate (str : string) : string :=
  if (50 <? String.length str)%nat then substring 0 47 str +:+ "..." else str.

(** The loop over [choiceResults]. *)
Fixpoint choice_responses (fieldResponseCount : Z) (results : list (Value * Z))
    : Outcome (list CommonResponse) :=
  match results with
  | [] => Ok []
  | (id, n) :: rest =>
      match id with
      | VNil => choice_responses fieldResponseCount rest
      | _ =>
          n32 ← assert_int32 n;
          let percentage :=
            f_mul (f_div (f_of_Z n32) (f_of_Z fieldResponseCount)) (f_of_Z 100) in
          tl ← choice_responses fieldResponseCount rest;
          Ok ({| value := id; cr_count := n; percentage := percentage |} :: tl)
      end
  end.

(** The loop over [textResults]. *)
Fixpoint text_responses (fieldResponseCount : Z) (results : list (Value * Z))
    : Outcome (list CommonResponse) :=
  match results with
  | [] => Ok []
  | (id, n) :: rest =>
      match id with
      | VNil => text_responses fieldResponseCount rest
      | _ =>
          n32 ← assert_int32 n;
          let percentage :=
            f_mul (f_div (f_of_Z n32) (f_of_Z fieldResponseCount)) (f_of_Z 100) in
          let valueStr :=
            match id with VString str => truncate str | _ => "" end in
          tl ← text_responses fieldResponseCount rest;
          Ok ({| value := VString valueStr; cr_count := n;
                 percentage := percentage |} :: tl)
      end
  end.

Definition calculateEnhancedFieldAnalytics (db : Collection)
    (formID : ObjectID) (field : FormField) (totalResponses : Z)
    : Outcome FieldAnalytics :=
  let fieldResponseCount :=
    CountDocuments db (of_form_answered formID (ID field)) in
  let responseRate :=
    if 0 <? totalResponses
    then f_mul (f_div (f_of_Z fieldResponseCount) (f_of_Z totalResponses))
               (f_of_Z 100)
    else f_of_Z 0 in
  let skipRate :=
    if 0 <? totalResponses then f_sub (f_of_Z 100) responseRate
    else f_of_Z 100 in
  let result unique common average :=
    {| field_id := ID field; field_label := Label field;
       field_type := Type_ field;
       response_rate := responseRate; skip_rate := skipRate;
       unique_responses := unique; common_responses := common;
       average_rating := average |} in
  if String.eqb (Type_ field) FieldTypeMultipleChoice
     || String.eqb (Type_ field) FieldTypeCheckbox then
    let choiceResults := aggregate_top db formID (ID field) 10 in
    commonResponses ← choice_responses fieldResponseCount choiceResults;
    Ok (result (Z.of_nat (length choiceResults)) commonResponses None)
  else if String.eqb (Type_ field) FieldTypeRating then
    let ratings := answers db formID (ID field) in
    match ratings with
    | [] => Ok (result 0 [] None)
    | _ => Ok (result 0 (rating_buckets ratings) (avg ratings))
    end
  else if String.eqb (Type_ field) FieldTypeText
          || String.eqb (Type_ field) FieldTypeTextarea
          || String.eqb (Type_ field) FieldTypeEmail then
    let textResults := aggregate_top db formID (ID field) 5 in
    commonResponses ← text_responses fieldResponseCount textResults;
    Ok (result (Z.of_nat (length textResults)) commonResponses None)
  else Ok (result 0 [] None).

(** *** [calculateAnalytics] *)

(** The [fiber.Map] stored in [FormAnalytics.FieldAnalytics]. *)
Record Summary : Type := mkSummary {
  total_responses : Z;
  completion_rate : F;
  average_completion_time : F;
  response_trends : list TrendEntry;
  field_analytics : list FieldAnalytics
}.

(** [models.FormAnalytics] *)
Record FormAnalytics : Type := mkFormAnalytics {
  fa_FormID : ObjectID;
  TotalResponses : Z;
  ResponsesLast24h : Z;
  ResponsesLastWeek : Z;
  ResponsesLastMonth : Z;
  FieldAnalytics_ : Summary;
  UpdatedAt : Time
}.

(** The loop over [fields]. *)
Fixpoint fields_loop (db : Collection) (formID : ObjectID)
    (fields : list FormField) (total : Z) : Outcome (list FieldAnalytics) :=
  match fields with
  | [] => Ok []
  | field :: rest =>
      analytics ← calculateEnhancedFieldAnalytics db formID field total;
      tl ← fields_loop db formID rest total;
      Ok (analytics :: tl)
  end.

(** The four counting queries at the head of [calculateAnalytics], each on
    the store as it is when the query runs: [db0] for the total, then
    [db1], [db2] and [db3] for the last day, the last 7 days and the last
    30 days. *)
Definition count_windows (now : Time) (formID : ObjectID)
    (db0 db1 db2 db3 : Collection) : Z * Z * Z * Z :=
  let last24h := now - day in
  let lastWeek := now - 7 * day in
  let lastMonth := now - 30 * day in
  let total := CountDocuments db0 (of_form formID) in
  let count24h := CountDocuments db1 (of_form_since formID last24h) in
  let countWeek := CountDocuments db2 (of_form_since formID lastWeek) in
  let countMonth := CountDocuments db3 (of_form_since formID lastMonth) in
  (total, count24h, countWeek, countMonth).

(** [calculateAnalytics]; [now] is its own [time.Now()] and [now'] the one
    of [calculateResponseTrends]. The store is taken to answer every
    query, and to be the same [db] at every query of the call; what the
    counts are when responses arrive during the call is in
    [count_windows], and [calculateEnhancedFieldAnalytics] has the total
    that was read first as a parameter. *)
Definition calculateAnalytics (loc : Location) (now now' : Time)
    (db : Collection) (formID : ObjectID) (fields : list FormField)
    : Outcome FormAnalytics :=
  let last24h := now - day in
  let lastWeek := now - 7 * day in
  let lastMonth := now - 30 * day in
  let total := CountDocuments db (of_form formID) in
  let count24h := CountDocuments db (of_form_since formID last24h) in
  let countWeek := CountDocuments db (of_form_since formID lastWeek) in
  let countMonth := CountDocuments db (of_form_since formID lastMonth) in
  let responseTrends := calculateResponseTrends loc now' db formID in
  let '(completionRate, avgTime) := calculateCompletionMetrics db formID fields in
  fieldAnalytics ← fields_loop db formID fields total;
  Ok {| fa_FormID := formID;
        TotalResponses := total;
        ResponsesLast24h := count24h;
        ResponsesLastWeek := countWeek;
        ResponsesLastMonth := countMonth;
        FieldAnalytics_ :=
          {| total_responses := total;
             completion_rate := completionRate;
             average_completion_time := avgTime;
             response_trends := responseTrends;
             field_analytics := fieldAnalytics |};
        UpdatedAt := now |}.

End Aggregator.

(** *** Vocabulary of the statements about the aggregator *)

Definition sum_counts (trends : list TrendEntry) : Z :=
  fold_right Z.add 0 (map count trends).

(** The entry of the day that starts [k] days after [first]. *)
Definition day_entry {F} (db : list (@FormResponse F)) (formID : ObjectID)
    (first : Time) (k : nat) : TrendEntry :=
  {| date := first + Z.of_nat k * day;
     count := CountDocuments db
                (of_form_between formID (first + Z.of_nat k * day)
                   (first + Z.of_nat k * day + day)) |}.

(** The number of complete responses among [responses]. *)
Definition count_complete {F} (fields : list FormField)
    (responses : list (@FormResponse F)) : Z :=
  Z.of_nat (length (List.filter (isComplete fields) responses)).

(** *** Concrete data for the examples *)

(** A form with one required rating field. *)
Definition rating_field : FormField :=
  {| ID := "q1"; Type_ := FieldTypeRating; Label := "Rating"; Required := true |}.

(** A response to form [f1] that rates [x] at the instant [t]. *)
Definition rated (x : float) (t : Time) : @FormResponse float :=
  {| FormID := "f1"; Responses := {["q1" := VDouble x]}; CreatedAt := t |}.

(** The ratings 5, 5, 3 and 1, submitted in that order on 1, 2 and
    3 November 2025 (UTC). *)
Definition ratings_5531 : list (@FormResponse float) :=
  [rated 5 1761991200000; rated 5 1762077600000; rated 3 1762081200000;
   rated 1 1762164000000].

(** 3 November 2025, 11:40 UTC. *)
Definition example_now : Time := 1762170000000.

(** The same data in exact arithmetic, with one response that leaves the
    required field empty. *)
Definition rated_Q (x : Q) (t : Time) : @FormResponse Q :=
  {| FormID := "f1"; Responses := {["q1" := VDouble x]}; CreatedAt := t |}.





(** A text field, and a response to form [f1] that answers it. *)
Definition comment_field : FormField :=
  {| ID := "q2"; Type_ := FieldTypeText; Label := "Comment"; Required := false |}.

Definition commented (s : string) (t : Time) : @FormResponse Q :=
  {| FormID := "f1"; Responses := {["q2" := VString s]}; CreatedAt := t |}.

End Analytics.

(** ** The write loop of a connection (hub.go, [writePump]) *)

Module WritePump.
Import Hub.

(** A frame written with [c.Conn.WriteMessage]. *)
Inductive Frame : Type :=
  | TextMessage (data : bytes)
  | PingMessage
  | CloseMessage.

(** The connection as the write loop uses it: the frames written so far,
    oldest first, and whether [c.Conn.Close()] has been called. *)
Record Conn : Type := mkConn {
  written : list Frame;
  conn_closed : bool
}.

(** Which case the [select] of the loop takes in one turn, and whether the
    [WriteMessage] of that turn succeeds. *)
Inductive Turn : Type :=
  | FromSend (write_ok : bool)
  | FromTicker (write_ok : bool).

(** [WriteMessage(...)], which writes nothing when it fails. *)
Definition WriteMessage (f : Frame) (write_ok : bool) (conn : Conn) : Conn :=
  {| written := if write_ok then written conn ++ [f] else written conn;
     conn_closed := conn_closed conn |}.

(** The deferred [c.Conn.Close()]. *)
Definition Close (conn : Conn) : Conn :=
  {| written := written conn; conn_closed := true |}.

(** One turn of the loop of [writePump]: the channel and the connection
    after it, and whether the loop goes on. There is no result when the
    case cannot be taken: a receive from an open, empty channel blocks. *)
Definition writePump_turn (t : Turn) (ch : Chan) (conn : Conn)
    : option (Chan * Conn * bool) :=
  match t with
  | FromSend write_ok =>
      match buf ch with
      | message :: rest =>
          let ch' := {| buf := rest; cap := cap ch; closed := closed ch |} in
          if write_ok
          then Some (ch', WriteMessage (TextMessage message) true conn, true)
          else Some (ch', Close conn, false)
      | [] =>
          if closed ch
          then Some (ch, Close (WriteMessage CloseMessage write_ok conn), false)
          else None
      end
  | FromTicker write_ok =>
      if write_ok then Some (ch, WriteMessage PingMessage true conn, true)
      else Some (ch, Close conn, false)
  end.

(** [writePump] over the turns [turns], with nothing sent on the channel
    meanwhile; the boolean tells whether the loop is still running. *)
Fixpoint writePump (turns : list Turn) (ch : Chan) (conn : Conn)
    : Chan * Conn * bool :=
  match turns with
  | [] => (ch, conn, true)
  | t :: rest =>
      match writePump_turn t ch conn with
      | None => writePump rest ch conn
      | Some (ch', conn', true) => writePump rest ch' conn'
      | Some (ch', conn', false) => (ch', conn', false)
      end
  end.

Definition write_succeeds (t : Turn) : bool :=
  match t with FromSend ok | FromTicker ok => ok end.

Definition from_send (t : Turn) : bool :=
  match t with FromSend _ => true | FromTicker _ => false end.

(** The frames other than keepalive pings. *)
Definition not_ping (f : Frame) : bool :=
  match f with PingMessage => false | _ => true end.

End WritePump.

(** ** The request handlers (backend/controllers/response.go, form.go) *)

Module Controllers.
Import Analytics.

(** The byte ['@']. *)
Definition at_sign : Ascii.ascii := Ascii.ascii_of_nat 64.

(** [countChar]: the loop ranges over the runes of [s]; a rune is ['@']
    exactly where the byte is, so bytes are counted. *)
Fixpoint countChar (s : string) (c : Ascii.ascii) : Z :=
  match s with
  | EmptyString => 0
  | String char rest => (if Ascii.eqb char c then 1 else 0) + countChar rest c
  end.

(** [isValidEmail] *)
Definition isValidEmail (email : string) : bool :=
  (3 <? String.length email)%nat &&
  (String.length email <? 255)%nat &&
  negb (match String.get 0 email with
        | Some a => Ascii.eqb a at_sign
        | None => false
        end) &&
  negb (match String.get (String.length email - 1) email with
        | Some a => Ascii.eqb a at_sign
        | None => false
        end) &&
  (countChar email at_sign =? 1).

(** The comparison [<] of [float64]. *)
Class Float64Order (F : Type) : Type := {
  f_ltb : F -> F -> bool
}.

#[global] Instance Float64Order_float : Float64Order float :=
  {| f_ltb := PrimFloat.ltb |}.

#[global] Instance Float64Order_Q : Float64Order Q :=
  {| f_ltb := fun x y => negb (Qle_bool y x) |}.

(** [primitive.ObjectIDFromHex]: 24 hexadecimal digits of either case; the
    identifier is kept in the lower case that [Hex()] prints. *)
Definition is_hex_digit (a : Ascii.ascii) : bool :=
  let n := Ascii.nat_of_ascii a in
  ((48 <=? n) && (n <=? 57) || (97 <=? n) && (n <=? 102) ||
   (65 <=? n) && (n <=? 70))%nat.

Definition lower_hex (a : Ascii.ascii) : Ascii.ascii :=
  let n := Ascii.nat_of_ascii a in
  if ((65 <=? n) && (n <=? 70))%nat then Ascii.ascii_of_nat (n + 32) else a.

Definition ObjectIDFromHex (s : string) : option ObjectID :=
  if (String.length s =? 24)%nat && forallb is_hex_digit (list_ascii_of_string s)
  then Some (string_of_list_ascii (map lower_hex (list_ascii_of_string s)))
  else None.

(** [strconv.ParseBool] *)
Definition ParseBool (str : string) : option bool :=
  if existsb (String.eqb str) ["1"; "t"; "T"; "TRUE"; "true"; "True"]
  then Some true
  else if existsb (String.eqb str) ["0"; "f"; "F"; "FALSE"; "false"; "False"]
  then Some false
  else None.

(** A Go [int] or [int64] after an operation that may overflow. *)
Definition int64 (z : Z) : Z := (z + 2 ^ 63) mod 2 ^ 64 - 2 ^ 63.

(** A call of a method of the hub made by a handler; the payload is left
    out. *)
Inductive HubCall : Type :=
  | CallBroadcastToForm (formID messageType : string)
  | CallBroadcastGeneral (messageType : string).

Section Handlers.

Context {F : Type} {Float64_F : Float64 F} {Float64Order_F : Float64Order F}.

(** [models.ValidationRule] *)
Record ValidationRule : Type := mkValidationRule {
  v_Required : bool;
  MinLength : Z;
  MaxLength : Z;
  Pattern : string;
  Min : F;
  Max : F
}.

(** [models.FormField] with its [Validation], which [validateResponse]
    reads; [base] holds the components that the aggregator reads too. *)
Record FormFieldV : Type := mkFormFieldV {
  base : FormField;
  Validation : ValidationRule
}.

(** The body of the loop of [validateResponse]: the error it returns for
    one field, if any. *)
Definition validate_field (responses : gmap string (@Value F)) (fv : FormFieldV)
    : option string :=
  let field := base fv in
  let value := responses !! ID field in
  if Required field &&
     match value with None => true | Some v => nil_or_empty v end
  then Some ("Field '" +:+ Label field +:+ "' is required")
  else
    match value with
    | None | Some VNil => None
    | Some value =>
        if String.eqb (Type_ field) FieldTypeEmail then
          match value with
          | VString str =>
              if negb (String.eqb str "") && negb (isValidEmail str)
              then Some ("Invalid email format for field '" +:+ Label field +:+ "'")
              else None
          | _ => None
          end
        else if String.eqb (Type_ field) FieldTypeNumber then
          match value with
          | VDouble num =>
              if negb (f_eqb (Min (Validation fv)) (f_of_Z 0)) &&
                 f_ltb num (Min (Validation fv))
              then Some ("Value too low for field '" +:+ Label field +:+ "'")
              else if negb (f_eqb (Max (Validation fv)) (f_of_Z 0)) &&
                      f_ltb (Max (Validation fv)) num
              then Some ("Value too high for field '" +:+ Label field +:+ "'")
              else None
          | _ => None
          end
        else if String.eqb (Type_ field) FieldTypeText
                || String.eqb (Type_ field) FieldTypeTextarea then
          match value with
          | VString str =>
              let len := Z.of_nat (String.length str) in
              if (0 <? MinLength (Validation fv)) &&
                 (len <? MinLength (Validation fv))
              then Some ("Text too short for field '" +:+ Label field +:+ "'")
              else if (0 <? MaxLength (Validation fv)) &&
                      (MaxLength (Validation fv) <? len)
              then Some ("Text too long for field '" +:+ Label field +:+ "'")
              else None
          | _ => None
          end
        else if String.eqb (Type_ field) FieldTypeRating then
          match value with
          | VDouble num =>
              if f_ltb num (f_of_Z 1) || f_ltb (f_of_Z 5) num
              then Some ("Rating must be between 1 and 5 for field '"
                         +:+ Label field +:+ "'")
              else None
          | _ => None
          end
        else None
    end.

(** [validateResponse]: the first error, or none ([nil]). *)
Fixpoint validateResponse (responses : gmap string (@Value F))
    (fields : list FormFieldV) : option string :=
  match fields with
  | [] => None
  | field :: rest =>
      match validate_field responses field with
      | Some err => Some err
      | None => validateResponse responses rest
      end
  end.

(** [models.Form] *)
Record Form : Type := mkForm {
  form_ID : ObjectID;
  Title : string;
  Description : string;
  Fields : list FormFieldV;
  IsPublished : bool;
  ShareToken : string;
  form_CreatedAt : Time;
  form_UpdatedAt : Time
}.

(** The two collections. *)
Record Store : Type := mkStore {
  forms : list Form;
  responses : list (@FormResponse F)
}.

(** [models.SubmitResponseRequest]: [Responses] is [nil] when the body has
    no such key; the metadata is left out. *)
Record SubmitResponseRequest : Type := mkSubmitResponseRequest {
  req_Responses : option (gmap string (@Value F))
}.

(** [bson.M{"_id": objectID}] and
    [bson.M{"_id": objectID, "is_published": true}] on forms. *)
Definition has_id (objectID : ObjectID) (f : Form) : bool :=
  String.eqb (form_ID f) objectID.

Definition published_with_id (objectID : ObjectID) (f : Form) : bool :=
  has_id objectID f && IsPublished f.

(** [SubmitResponse]: the status, the store afterwards and the calls made
    to the hub, the second one from the goroutine of [updateAnalytics].
    [body] is the request body if [BodyParser] accepts it, [now] is
    [time.Now()] at the resolution the store keeps; the store is taken to
    answer every query. *)
Definition SubmitResponse (now : Time) (id : string)
    (body : option SubmitResponseRequest) (st : Store)
    : Z * Store * list HubCall :=
  match ObjectIDFromHex id with
  | None => (400, st, [])
  | Some objectID =>
      match body with
      | None => (400, st, [])
      | Some req =>
          match req_Responses req with
          | None => (400, st, [])
          | Some answers =>
              match List.find (published_with_id objectID) (forms st) with
              | None => (404, st, [])
              | Some form =>
                  match validateResponse answers (Fields form) with
                  | Some _ => (400, st, [])
                  | None =>
                      let response :=
                        {| FormID := objectID; Responses := answers;
                           CreatedAt := now |} in
                      (201,
                       {| forms := forms st;
                          responses := responses st ++ [response] |},
                       [CallBroadcastToForm id "response_submitted";
                        CallBroadcastToForm objectID "analytics_updated"])
                  end
              end
          end
      end
  end.

(** A request to [SubmitResponse]: the clock, the path parameter and the
    body. *)
Record Submission : Type := mkSubmission {
  sub_now : Time;
  sub_id : string;
  sub_body : option SubmitResponseRequest
}.

(** The store after the requests [subs], the first of the list first. *)
Definition submit_all (subs : list Submission) (st : Store) : Store :=
  fold_left
    (fun st s => (SubmitResponse (sub_now s) (sub_id s) (sub_body s) st).1.2)
    subs st.

(** [SetSort(bson.D{{"created_at", -1}})]: newest first. The store leaves
    the order of responses of equal time open; here they keep the order in
    which they were inserted. *)
Fixpoint insert_newest (r : @FormResponse F) (sorted : list (@FormResponse F))
    : list (@FormResponse F) :=
  match sorted with
  | [] => [r]
  | h :: rest =>
      if CreatedAt h <=? CreatedAt r then r :: h :: rest
      else h :: insert_newest r rest
  end.

Definition sort_newest_first (l : list (@FormResponse F))
    : list (@FormResponse F) :=
  fold_right insert_newest [] l.

(** The JSON answer of [GetResponses]. *)
Record ResponsesPage : Type := mkResponsesPage {
  page_responses : list (@FormResponse F);
  pg_page : Z;
  pg_limit : Z;
  pg_total : Z;
  pg_totalPages : Z
}.

(** [GetResponses]; [page] and [limit] are the integers that
    [strconv.Atoi] returns for the two query parameters (0 when the text is
    no number). The store rejects a negative [skip]. *)
Definition GetResponses (id : string) (page limit : Z)
    (db : list (@FormResponse F)) : Z * option ResponsesPage :=
  match ObjectIDFromHex id with
  | None => (400, None)
  | Some objectID =>
      let page := if page <? 1 then 1 else page in
      let limit := if (limit <? 1) || (100 <? limit) then 50 else limit in
      let skip := int64 ((page - 1) * limit) in
      let total := CountDocuments db (of_form objectID) in
      if skip <? 0 then (500, None)
      else
        let found :=
          firstn (Z.to_nat limit)
            (skipn (Z.to_nat skip)
               (sort_newest_first (Find db (of_form objectID)))) in
        (200,
         Some {| page_responses := found;
                 pg_page := page; pg_limit := limit; pg_total := total;
                 pg_totalPages := Z.quot (int64 (total + limit - 1)) limit |})
  end.

(** The responses in an answer of [GetResponses]; none in an error. *)
Definition responses_of (answer : Z * option ResponsesPage)
    : list (@FormResponse F) :=
  match answer.2 with
  | Some p => page_responses p
  | None => []
  end.

(** Each response is newer than all those behind it. *)
Fixpoint newest_first (l : list (@FormResponse F)) : Prop :=
  match l with
  | [] => True
  | r :: rest =>
      Forall (fun r' => CreatedAt r' < CreatedAt r) rest /\ newest_first rest
  end.

(** [UpdateOne(ctx, bson.M{"_id": objectID}, bson.M{"$set": ...})]: the
    first form with the identifier is changed by [set]; there is no result
    when no form matches. *)
Fixpoint UpdateOne (objectID : ObjectID) (set : Form -> Form)
    (forms : list Form) : option (list Form) :=
  match forms with
  | [] => None
  | f :: rest =>
      if has_id objectID f then Some (set f :: rest)
      else option_map (cons f) (UpdateOne objectID set rest)
  end.


(** [c.Query(key, defaultValue)] of fiber, given the value of the key in
    the query string, if it has one: an empty value counts as none. *)
Definition Query (value : option string) (defaultValue : string) : string :=
  match value with
  | Some v => if String.eqb v "" then defaultValue else v
  | None => defaultValue
  end.

(** [PublishForm]; [publish] is the value of the key [publish] in the query
    string, if it has one. *)
Definition PublishForm (now : Time) (id : string) (publish : option string)
    (st : Store) : Z * Store * list HubCall :=
  match ObjectIDFromHex id with
  | None => (400, st, [])
  | Some objectID =>
      match ParseBool (Query publish "true") with
      | None => (400, st, [])
      | Some publish =>
          let set f :=
            {| form_ID := form_ID f; Title := Title f;
               Description := Description f; Fields := Fields f;
               IsPublished := publish; ShareToken := ShareToken f;
               form_CreatedAt := form_CreatedAt f; form_UpdatedAt := now |} in
          match UpdateOne objectID set (forms st) with
          | None => (404, st, [])
          | Some forms' =>
              let action := if publish then "published" else "unpublished" in
              (200, {| forms := forms'; responses := responses st |},
               [CallBroadcastGeneral ("form_" +:+ action)])
          end
      end
  end.

(** [models.UpdateFormRequest] *)
Record UpdateFormRequest : Type := mkUpdateFormRequest {
  u_Title : string;
  u_Description : string;
  u_Fields : option (list FormFieldV);
  u_IsPublished : option bool
}.

(** [UpdateForm]; [valid] tells whether [validate.Struct(req)] accepts the
    request. *)
Definition UpdateForm (now : Time) (id : string)
    (body : option UpdateFormRequest) (valid : bool) (st : Store)
    : Z * Store * list HubCall :=
  match ObjectIDFromHex id with
  | None => (400, st, [])
  | Some objectID =>
      match body with
      | None => (400, st, [])
      | Some req =>
          if negb valid then (400, st, [])
          else
            let set f :=
              {| form_ID := form_ID f;
                 Title := if String.eqb (u_Title req) "" then Title f
                          else u_Title req;
                 Description := if String.eqb (u_Description req) ""
                                then Description f else u_Description req;
                 Fields := default (Fields f) (u_Fields req);
                 IsPublished := default (IsPublished f) (u_IsPublished req);
                 ShareToken := ShareToken f;
                 form_CreatedAt := form_CreatedAt f; form_UpdatedAt := now |} in
            match UpdateOne objectID set (forms st) with
            | None => (404, st, [])
            | Some forms' =>
                (200, {| forms := forms'; responses := responses st |},
                 [CallBroadcastGeneral "form_updated"])
            end
      end
  end.


End Handlers.

(** *** Concrete data for the examples *)

Definition example_id : string := "65a1b2c3d4e5f6a7b8c9d0e1".

(** The same identifier as a client may write it. *)
Definition example_id_upper : string := "65A1B2C3D4E5F6A7B8C9D0E1".

(** A published form with one required rating field. *)
Definition example_form : @Form Q :=
  {| form_ID := example_id; Title := "Survey"; Description := "";
     Fields :=
       [{| base := rating_field;
           Validation :=
             {| v_Required := true; MinLength := 0; MaxLength := 0;
                Pattern := ""; Min := 0%Q; Max := 0%Q |} |}];
     IsPublished := true; ShareToken := "0123456789abcdef";
     form_CreatedAt := 0; form_UpdatedAt := 0 |}.

Definition example_store : @Store Q :=
  {| forms := [example_form]; responses := [] |}.

(** A body that rates [x]. *)
Definition example_request (x : Q) : @SubmitResponseRequest Q :=
  {| req_Responses := Some {["q1" := VDouble x]} |}.

(** Three stored responses to the form, at the instants 5, 6 and 7. *)
Definition example_responses : list (@FormResponse Q) :=
  [{| FormID := example_id; Responses := {["q1" := VDouble 4%Q]};
      CreatedAt := 5 |};
   {| FormID := example_id; Responses := {["q1" := VDouble 2%Q]};
      CreatedAt := 6 |};
   {| FormID := example_id; Responses := {["q1" := VDouble 5%Q]};
      CreatedAt := 7 |}].

(** A hub with one registered client, subscribed to the form. *)
Definition example_hub : Hub.State :=
  {| Hub.heap :=
       <[1%positive := {| Hub.Send := Hub.make_chan 256;
                          Hub.FormID := example_id |}]> ∅;
     Hub.Clients := <[1%positive := true]> ∅ |}.

End Controllers.

(** ** Invariants of the frontend client *)

Module WebSocketClientInvariants.
Import WebSocketClient.

(** What no event changes or breaks: the two constants, the link between
    the ping timer and the connection flag, and the delay of every
    reconnection scheduled so far. *)
Definition steady (w : WSClient) : Prop :=
  reconnectInterval w = 5000 /\
  pingInterval w = isConnected w /\
  forall delay, In (SetTimeoutConnect delay) (effects w) -> delay = 5000.

End WebSocketClientInvariants.

(** ** Vocabulary of the statements about the rating distribution *)

Module RatingTerms.
Import Analytics.

Section Terms.

Context {F : Type} {Float64_F : Float64 F}.

(** The key under which the loop over [ratings] counts a rating, if it
    counts it. *)
Definition bucket_of (rating : @Value F) : option Z :=
  match rating with
  | VInt32 r => Some r
  | VDouble r => Some (f_to_int r)
  | _ => None
  end.

(** The number of ratings counted under the key [k]. *)
Definition counted_under (k : Z) (ratings : list (@Value F)) : Z :=
  Z.of_nat
    (length (List.filter (fun v => bool_decide (bucket_of v = Some k)) ratings)).

(** The rating is counted under one of the keys 1 to 5. *)
Definition in_scale (rating : @Value F) : bool :=
  match bucket_of rating with
  | Some k => (1 <=? k) && (k <=? 5)
  | None => false
  end.

End Terms.

End RatingTerms.

(** ** The completion rate on binary64, checked for small numbers *)

Module CompletionCheck.
Import Analytics.





End CompletionCheck.

(** ** Tactics *)

(** Evaluates the opposites of numerals, in the goal and the hypotheses. *)
Ltac eval_opp :=
  repeat match goal with
  | |- context [Z.opp ?e] =>
      let v := eval vm_compute in (Z.opp e) in change (Z.opp e) with v
  | H : context [Z.opp ?e] |- _ =>
      let v := eval vm_compute in (Z.opp e) in change (Z.opp e) with v in H
  end.

(** A rule of a conjunction of rules whose premises contradict the case
    at hand; the rest of such a conjunction; and an equivalence whose left
    side holds and whose right side is such a conjunction. *)
Ltac other_rule :=
  intros; simplify_eq; try done; by intuition congruence.

Ltac rest_rules :=
  repeat (split; [first [done|other_rule]|]); first [done|other_rule].

Ltac other_rules := split; [intros _|done]; rest_rules.

(** * Properties of the hub *)

Module HubSpec.
Import Hub.

Lemma state_eq (σ σ' : State) :
  heap σ = heap σ' -> Clients σ = Clients σ' -> σ = σ'.
Proof. destruct σ, σ'; simpl; intros -> ->; reflexivity. Qed.

Lemma same_at_refl c σ : same_at c σ σ.
Proof. split; reflexivity. Qed.

Lemma same_at_trans c σ1 σ2 σ3 :
  same_at c σ1 σ2 -> same_at c σ2 σ3 -> same_at c σ1 σ3.
Proof. intros [H1 H2] [H3 H4]; split; congruence. Qed.

Lemma chan_try_send_open m ch :
  closed ch = false ->
  chan_try_send m ch =
    Ok (if chan_full ch then (ch, false)
        else ({| buf := (buf ch ++ [m])%list; cap := cap ch; closed := false |}, true)).
Proof. intros H. unfold chan_try_send. rewrite H. destruct (chan_full ch); reflexivity. Qed.

(** The shared statement of the two loops, on an allocated client whose
    channel is open. *)
Lemma send_or_evict_open m c σ cl :
  heap σ !! c = Some cl -> closed (Send cl) = false ->
  send_or_evict m c σ =
    Ok (if chan_full (Send cl)
        then registry_delete c (set_client c (evicted cl) σ)
        else set_client c (delivered m cl) σ).
Proof.
  intros Hc Hopen. unfold send_or_evict, deref. rewrite Hc. simpl.
  rewrite (chan_try_send_open _ _ Hopen).
  destruct (chan_full (Send cl)); simpl; [|reflexivity].
  unfold close_Send, deref. rewrite Hc. simpl.
  unfold chan_close. rewrite Hopen. reflexivity.
Qed.

Lemma fanout_open sel m c σ cl :
  heap σ !! c = Some cl -> closed (Send cl) = false ->
  exists σ', fanout sel m c σ = Ok σ' /\
    heap σ' = <[c := (fanout_client sel m cl).1]> (heap σ) /\
    Clients σ' =
      (if (fanout_client sel m cl).2 then Clients σ else delete c (Clients σ)).
Proof.
  intros Hc Hopen. unfold fanout, deref, fanout_client. rewrite Hc. simpl.
  destruct (sel cl).
  - rewrite (send_or_evict_open _ _ _ _ Hc Hopen).
    destruct (chan_full (Send cl)); eexists; (split; [reflexivity|]); split; reflexivity.
  - exists σ. split; [reflexivity|]. split; [|reflexivity].
    simpl. symmetry. apply insert_id. exact Hc.
Qed.

Lemma fanout_client_keeps_open sel m cl :
  closed (Send cl) = false -> (fanout_client sel m cl).2 = true ->
  closed (Send (fanout_client sel m cl).1) = false.
Proof.
  unfold fanout_client. intros Hopen.
  destruct (sel cl); [destruct (chan_full (Send cl))|]; simpl; congruence.
Qed.

(** A whole fan-out loop, client by client. *)
Lemma fanout_range sel m order : forall σ,
  NoDup order -> registered_open σ ->
  exists σ', range_Clients (fanout sel m) order σ = Ok σ' /\
    registered_open σ' /\
    (forall c, c ∉ order -> same_at c σ σ') /\
    (forall c, Clients σ !! c = None -> same_at c σ σ') /\
    (forall c b cl, c ∈ order -> Clients σ !! c = Some b ->
       heap σ !! c = Some cl ->
       heap σ' !! c = Some (fanout_client sel m cl).1 /\
       Clients σ' !! c = (if (fanout_client sel m cl).2 then Some b else None)).
Proof.
  induction order as [|k rest IH]; intros σ Hnd Hwf.
  - exists σ. split; [reflexivity|]. split; [done|].
    split; [intros; apply same_at_refl|]. split; [intros; apply same_at_refl|].
    intros c b cl Hin. by apply elem_of_nil in Hin.
  - apply NoDup_cons in Hnd as [Hk Hnd]. simpl.
    destruct (decide (is_Some (Clients σ !! k))) as [[b Hb]|Hnone].
    + destruct (Hwf k b Hb) as (cl & Hcl & Hopen).
      destruct (fanout_open sel m k σ cl Hcl Hopen) as (σ1 & -> & Hh1 & Hc1).
      simpl.
      assert (Hother : forall c, c ≠ k -> same_at c σ σ1).
      { intros c Hne. split.
        - rewrite Hh1. by rewrite lookup_insert_ne.
        - rewrite Hc1. destruct (fanout_client sel m cl).2; [done|].
          by rewrite lookup_delete_ne. }
      assert (Hwf1 : registered_open σ1).
      { intros c b' Hc. destruct (decide (c = k)) as [->|Hne].
        - exists (fanout_client sel m cl).1. split.
          + rewrite Hh1. apply lookup_insert_eq.
          + apply fanout_client_keeps_open; [done|].
            rewrite Hc1 in Hc. destruct (fanout_client sel m cl).2; [done|].
            by rewrite lookup_delete_eq in Hc.
        - destruct (Hother c Hne) as [E1 E2]. rewrite E2 in Hc.
          destruct (Hwf c b' Hc) as (cl' & ? & ?). exists cl'. by rewrite E1. }
      destruct (IH σ1 Hnd Hwf1) as (σ' & Hrun & Hwf' & Hout & Hnone & Hin).
      exists σ'. split; [done|]. split; [done|]. split; [|split].
      * intros c Hc. apply not_elem_of_cons in Hc as [Hne Hc].
        eapply same_at_trans; [by apply Hother|by apply Hout].
      * intros c Hc. assert (c ≠ k) by congruence.
        destruct (Hother c ltac:(done)) as [E1 E2].
        eapply same_at_trans; [by apply Hother|]. apply Hnone. by rewrite E2.
      * intros c b' cl' Hc Hb' Hcl'. apply elem_of_cons in Hc as [->|Hc].
        -- destruct (Hout k Hk) as [E1 E2]. rewrite E1, E2, Hh1, Hc1.
           assert (cl' = cl) as -> by congruence.
           assert (b' = b) as -> by congruence.
           rewrite lookup_insert_eq. split; [done|].
           destruct (fanout_client sel m cl).2; [done|]. apply lookup_delete_eq.
        -- assert (c ≠ k) as Hne by (intros ->; done).
           destruct (Hother c Hne) as [E1 E2].
           apply Hin; [done|by rewrite E2|by rewrite E1].
    + simpl. destruct (IH σ Hnd Hwf) as (σ' & Hrun & Hwf' & Hout & Hnone' & Hin).
      exists σ'. split; [done|]. split; [done|]. split; [|split].
      * intros c Hc. apply not_elem_of_cons in Hc as [Hne Hc]. by apply Hout.
      * done.
      * intros c b' cl' Hc Hb' Hcl'. apply elem_of_cons in Hc as [->|Hc].
        -- exfalso. apply Hnone. by exists b'.
        -- by apply Hin.
Qed.

Lemma range_Clients_ext body1 body2 order :
  (forall c σ, body1 c σ = body2 c σ) ->
  forall σ, range_Clients body1 order σ = range_Clients body2 order σ.
Proof.
  intros Hext. induction order as [|k rest IH]; intros σ; simpl; [reflexivity|].
  rewrite Hext.
  destruct (if decide (is_Some (Clients σ !! k)) then body2 k σ else Ok σ);
    simpl; [apply IH|reflexivity].
Qed.

Lemma send_or_evict_fanout m c σ :
  send_or_evict m c σ = fanout (fun _ => true) m c σ.
Proof. unfold fanout, send_or_evict, deref. destruct (heap σ !! c); reflexivity. Qed.

Lemma registered_openb_sound σ : registered_openb σ = true -> registered_open σ.
Proof.
  unfold registered_openb. intros H. apply bool_decide_eq_true in H.
  intros c b Hc. specialize (H c b Hc). simpl in H.
  destruct (heap σ !! c) as [cl|]; [|done]. exists cl. split; [done|].
  by apply negb_true_iff.
Qed.

Lemma iteration_orderb_sound order σ :
  iteration_orderb order σ = true -> iteration_order order σ.
Proof.
  unfold iteration_orderb. intros H. apply andb_true_iff in H as [H1 H2].
  apply bool_decide_eq_true in H1, H2. split; [done|].
  intros c. rewrite <- elem_of_dom, <- H2. by rewrite elem_of_list_to_set.
Qed.

(** What [Run]'s broadcast branch and [BroadcastToForm] have in common. *)
Lemma fanout_registered sel m order σ :
  registered_open σ -> iteration_order order σ ->
  exists σ', range_Clients (fanout sel m) order σ = Ok σ' /\
    registered_open σ' /\
    (forall c, Clients σ !! c = None -> same_at c σ σ') /\
    (forall c b cl, Clients σ !! c = Some b -> heap σ !! c = Some cl ->
       heap σ' !! c = Some (fanout_client sel m cl).1 /\
       Clients σ' !! c = (if (fanout_client sel m cl).2 then Some b else None)).
Proof.
  intros Hwf [Hnd Hkeys].
  destruct (fanout_range sel m order σ Hnd Hwf) as (σ' & Hrun & Hwf' & _ & Hnone & Hin).
  exists σ'. split; [done|]. split; [done|]. split; [done|].
  intros c b cl Hb Hcl. apply (Hin c b cl); [|done|done].
  apply Hkeys. by exists b.
Qed.

Lemma registered_open_example : registered_open example_state.
Proof. apply registered_openb_sound. vm_compute. reflexivity. Qed.

Lemma iteration_order_example :
  iteration_order [3; 1; 4; 2]%positive example_state.
Proof. apply iteration_orderb_sound. vm_compute. reflexivity. Qed.

Lemma BroadcastToForm_fanout json_Marshal order formID messageType data jsonData σ :
  json_Marshal {| msg_Type := messageType; msg_FormID := formID;
                  msg_Data := data; msg_EventID := "" |} = Some jsonData ->
  BroadcastToForm json_Marshal order formID messageType data σ =
    range_Clients (fanout (selects_form formID) jsonData) order σ.
Proof. intros H. unfold BroadcastToForm. rewrite H. reflexivity. Qed.

Lemma buf_app_neq (l : list bytes) (m : bytes) : l <> (l ++ [m])%list.
Proof.
  intros H. apply (f_equal length) in H. rewrite length_app in H.
  simpl in H. lia.
Qed.

(** A fan-out that runs alone, by [Run] as well as by [BroadcastToForm]:
    every target client whose queue is full has its queue closed and is
    removed from the registry by the end of the call, the call completes,
    and every target client whose queue has room has the event appended to
    its queue and stays registered, whatever the iteration order and
    however many other targets were evicted. *)
Lemma fanout_alone_evicts_and_serves
    (json_Marshal : Message -> option bytes) (order : list addr)
    (message : bytes) (formID messageType : string) (data : Data)
    (jsonData : bytes) (σ : State) :
  registered_open σ ->
  iteration_order order σ ->
  json_Marshal {| msg_Type := messageType; msg_FormID := formID;
                  msg_Data := data; msg_EventID := "" |} = Some jsonData ->
  (exists σ', Run_step order (ReqBroadcast message) σ = Ok σ' /\
     forall c b cl, Clients σ !! c = Some b -> heap σ !! c = Some cl ->
       if chan_full (Send cl)
       then Clients σ' !! c = None /\ heap σ' !! c = Some (evicted cl)
       else Clients σ' !! c = Some b /\ heap σ' !! c = Some (delivered message cl))
  /\
  (exists σ', BroadcastToForm json_Marshal order formID messageType data σ = Ok σ' /\
     forall c b cl, Clients σ !! c = Some b -> heap σ !! c = Some cl ->
       selects_form formID cl = true ->
       if chan_full (Send cl)
       then Clients σ' !! c = None /\ heap σ' !! c = Some (evicted cl)
       else Clients σ' !! c = Some b /\ heap σ' !! c = Some (delivered jsonData cl)).
Proof.
  intros Hwf Hord Hm. split.
  - destruct (fanout_registered (fun _ => true) message order σ Hwf Hord)
      as (σ' & Hrun & _ & _ & Hin).
    exists σ'. split.
    + simpl. unfold Run_broadcast.
      rewrite (range_Clients_ext _ _ order (send_or_evict_fanout message)).
      exact Hrun.
    + intros c b cl Hb Hcl. destruct (Hin c b cl Hb Hcl) as [E1 E2].
      unfold fanout_client in E1, E2.
      destruct (chan_full (Send cl)); simpl in *; done.
  - destruct (fanout_registered (selects_form formID) jsonData order σ Hwf Hord)
      as (σ' & Hrun & _ & _ & Hin).
    exists σ'. split.
    + by rewrite (BroadcastToForm_fanout _ _ _ _ _ _ _ Hm).
    + intros c b cl Hb Hcl Hsel. destruct (Hin c b cl Hb Hcl) as [E1 E2].
      unfold fanout_client in E1, E2. rewrite Hsel in E1, E2.
      destruct (chan_full (Send cl)); simpl in *; done.
Qed.

(** C1, as the code has it. A broadcast to a form appends the event to the
    queue of exactly those registered clients whose topic is that form or
    is empty (no subscription) and whose queue has room; every client with
    another, non-empty topic is left as it was. *)
Theorem broadcast_to_form_recipients
    (json_Marshal : Message -> option bytes) (order : list addr)
    (formID messageType : string) (data : Data) (jsonData : bytes) (σ : State) :
  registered_open σ ->
  iteration_order order σ ->
  json_Marshal {| msg_Type := messageType; msg_FormID := formID;
                  msg_Data := data; msg_EventID := "" |} = Some jsonData ->
  exists σ', BroadcastToForm json_Marshal order formID messageType data σ = Ok σ' /\
    (forall c, received σ σ' jsonData c <->
       exists b cl, Clients σ !! c = Some b /\ heap σ !! c = Some cl /\
         (FormID cl = "" \/ FormID cl = formID) /\ chan_full (Send cl) = false) /\
    (forall c cl, heap σ !! c = Some cl -> FormID cl <> "" -> FormID cl <> formID ->
       same_at c σ σ').
Proof.
  intros Hwf Hord Hm.
  destruct (fanout_registered (selects_form formID) jsonData order σ Hwf Hord)
    as (σ' & Hrun & _ & Hnone & Hin).
  exists σ'. split; [by rewrite (BroadcastToForm_fanout _ _ _ _ _ _ _ Hm)|].
  assert (Hsel : forall cl, selects_form formID cl = true <->
                   (FormID cl = "" \/ FormID cl = formID)).
  { intros cl. unfold selects_form. rewrite orb_true_iff, !String.eqb_eq. tauto. }
  split.
  - intros c. split.
    + intros (cl & cl' & Hcl & Hcl' & Hbuf).
      destruct (Clients σ !! c) as [b|] eqn:Hb.
      * destruct (Hin c b cl Hb Hcl) as [E1 _].
        rewrite Hcl' in E1. injection E1 as ->.
        unfold fanout_client in Hbuf.
        destruct (selects_form formID cl) eqn:Hs; simpl in Hbuf;
          [|by apply buf_app_neq in Hbuf].
        destruct (chan_full (Send cl)) eqn:Hfull; simpl in Hbuf;
          [by apply buf_app_neq in Hbuf|].
        exists b, cl. repeat split; try done. by apply Hsel.
      * destruct (Hnone c Hb) as [E1 _]. rewrite Hcl, Hcl' in E1.
        injection E1 as ->. by apply buf_app_neq in Hbuf.
    + intros (b & cl & Hb & Hcl & Htopic & Hroom).
      destruct (Hin c b cl Hb Hcl) as [E1 _].
      unfold fanout_client in E1.
      rewrite (proj2 (Hsel cl) Htopic), Hroom in E1. simpl in E1.
      exists cl, (delivered jsonData cl). repeat split; done.
  - intros c cl Hcl Hne1 Hne2.
    destruct (Clients σ !! c) as [b|] eqn:Hb; [|by apply Hnone].
    destruct (Hin c b cl Hb Hcl) as [E1 E2].
    unfold fanout_client in E1, E2.
    destruct (selects_form formID cl) eqn:Hs.
    + apply Hsel in Hs. tauto.
    + simpl in *. split; congruence.
Qed.

Lemma broadcast_to_form_recipients_witness :
  exists σ',
    BroadcastToForm example_Marshal [3; 1; 4; 2]%positive "A" "response_submitted"
      DNil example_state = Ok σ' /\
    received example_state σ' (list_byte_of_string "response_submitted:A") 4%positive /\
    same_at 3%positive example_state σ'.
Proof.
  destruct (broadcast_to_form_recipients example_Marshal [3; 1; 4; 2]%positive
              "A" "response_submitted" DNil
              (list_byte_of_string "response_submitted:A") example_state
              registered_open_example iteration_order_example eq_refl)
    as (σ' & Hrun & Hrecv & Hother).
  exists σ'. split; [exact Hrun|]. split.
  - apply Hrecv. exists true. eexists.
    split; [reflexivity|]. split; [reflexivity|]. split; [by left|reflexivity].
  - eapply Hother; [reflexivity|done|done].
Defined.

(** C1, as the claim states it, fails: a registered client that never
    subscribed (its topic is empty) is no subscriber of form A, and yet a
    broadcast to form A is queued for it. *)
Lemma broadcast_to_form_reaches_unsubscribed :
  ~ (forall (json_Marshal : Message -> option bytes) (order : list addr)
       (formID messageType : string) (data : Data) (jsonData : bytes) (σ : State),
       registered_open σ -> iteration_order order σ -> formID <> "" ->
       json_Marshal {| msg_Type := messageType; msg_FormID := formID;
                       msg_Data := data; msg_EventID := "" |} = Some jsonData ->
       exists σ',
         BroadcastToForm json_Marshal order formID messageType data σ = Ok σ' /\
         forall c, received σ σ' jsonData c <-> subscribed_to formID c σ).
Proof.
  intros H.
  destruct (H example_Marshal [3; 1; 4; 2]%positive "A" "response_submitted" DNil
              (list_byte_of_string "response_submitted:A") example_state
              registered_open_example iteration_order_example
              ltac:(discriminate) eq_refl) as (σ' & Hrun & Hiff).
  destruct (fanout_registered (selects_form "A")
              (list_byte_of_string "response_submitted:A") [3; 1; 4; 2]%positive
              example_state registered_open_example iteration_order_example)
    as (σ2 & Hrun2 & _ & _ & Hin).
  pose proof (BroadcastToForm_fanout example_Marshal [3; 1; 4; 2]%positive "A"
                "response_submitted" DNil
                (list_byte_of_string "response_submitted:A") example_state
                eq_refl) as E.
  rewrite E in Hrun.
  assert (σ2 = σ') as -> by congruence.
  destruct (Hin 4%positive true _ eq_refl eq_refl) as [Hcl' _].
  assert (Hr : received example_state σ'
                 (list_byte_of_string "response_submitted:A") 4%positive).
  { eexists _, _. split; [reflexivity|]. split; [exact Hcl'|reflexivity]. }
  apply Hiff in Hr. destruct Hr as (b & cl & _ & Hcl & Htopic).
  vm_compute in Hcl. injection Hcl as <-. discriminate Htopic.
Qed.

(** [registered_open] is kept by a turn of [Run] that runs alone, given
    that a client is registered with an open channel, as [HandleWebSocket]
    does. *)
Lemma Run_step_registered_open order req σ :
  registered_open σ ->
  (forall m, req = ReqBroadcast m -> iteration_order order σ) ->
  (forall c, req = ReqRegister c ->
     exists cl, heap σ !! c = Some cl /\ closed (Send cl) = false) ->
  exists σ', Run_step order req σ = Ok σ' /\ registered_open σ'.
Proof.
  intros Hwf Hord Hreg. destruct req as [c|c|m]; simpl.
  - eexists. split; [reflexivity|]. intros c' b Hb. simpl in *.
    destruct (decide (c' = c)) as [->|Hne].
    + by apply Hreg.
    + rewrite lookup_insert_ne in Hb by done. by apply (Hwf c' b).
  - unfold Run_unregister. destruct (Clients σ !! c) as [b|] eqn:Hb.
    + destruct (Hwf c b Hb) as (cl & Hcl & Hopen).
      unfold close_Send, deref. simpl. rewrite Hcl. simpl.
      unfold chan_close. rewrite Hopen. simpl.
      eexists. split; [reflexivity|]. intros c' b' Hb'. simpl in *.
      destruct (decide (c' = c)) as [->|Hne].
      * by rewrite lookup_delete_eq in Hb'.
      * rewrite lookup_delete_ne in Hb' by done.
        rewrite lookup_insert_ne by done. by apply (Hwf c' b').
    + by exists σ.
  - destruct (fanout_registered (fun _ => true) m order σ Hwf (Hord m eq_refl))
      as (σ' & Hrun & Hwf' & _).
    exists σ'. split; [|done]. unfold Run_broadcast.
    by rewrite (range_Clients_ext _ _ order (send_or_evict_fanout m)).
Qed.

(** A change of one client that leaves its channel open or as it was keeps
    [registered_open]. *)
Lemma set_client_registered_open c cl' σ :
  registered_open σ ->
  (forall cl, heap σ !! c = Some cl -> closed (Send cl) = false ->
     closed (Send cl') = false) ->
  (heap σ !! c = None -> closed (Send cl') = false) ->
  registered_open (set_client c cl' σ).
Proof.
  intros Hwf Hsome Hnone c' b Hb. simpl in *.
  destruct (Hwf c' b Hb) as (cl & Hcl & Hopen).
  destruct (decide (c' = c)) as [->|Hne].
  - exists cl'. rewrite lookup_insert_eq. split; [done|]. by apply (Hsome cl).
  - exists cl. by rewrite lookup_insert_ne.
Qed.

Lemma HandleWebSocket_registered_open json_Marshal c ts σ σ' :
  registered_open σ -> heap σ !! c = None ->
  HandleWebSocket json_Marshal c ts σ = Ok σ' -> registered_open σ'.
Proof.
  intros Hwf Hfresh. unfold HandleWebSocket. simpl.
  set (σ2 := registry_insert c (set_client c _ σ)).
  assert (Hwf2 : registered_open σ2).
  { intros c' b Hb. subst σ2. simpl in *.
    destruct (decide (c' = c)) as [->|Hne].
    - eexists. rewrite lookup_insert_eq. by split.
    - rewrite lookup_insert_ne in Hb by done.
      rewrite lookup_insert_ne by done. by apply (Hwf c' b). }
  destruct (json_Marshal _) as [b|]; [|by intros [= <-]].
  unfold deref. subst σ2. simpl. rewrite lookup_insert_eq. simpl.
  unfold chan_try_send. simpl. intros [= <-].
  apply set_client_registered_open; [done| |]; simpl; intros; done.
Qed.

Lemma readPump_dispatch_registered_open json_Marshal c msg σ σ' :
  registered_open σ ->
  readPump_dispatch json_Marshal c msg σ = Ok σ' -> registered_open σ'.
Proof.
  intros Hwf. unfold readPump_dispatch.
  destruct (String.eqb (msg_Type msg) "subscribe_form").
  - destruct (msg_Data msg); try (by intros [= <-]).
    unfold deref. destruct (heap σ !! c) as [cl|] eqn:Hcl; [|done].
    simpl. intros [= <-].
    apply set_client_registered_open; [done| |congruence].
    intros cl0 Hcl0 Hopen. simpl. congruence.
  - destruct (String.eqb (msg_Type msg) "ping"); [|by intros [= <-]].
    destruct (json_Marshal _) as [b|]; [|by intros [= <-]].
    unfold deref. destruct (heap σ !! c) as [cl|] eqn:Hcl; [|done].
    simpl. unfold chan_try_send.
    destruct (closed (Send cl)) eqn:Hopen; [done|].
    destruct (chan_full (Send cl)); simpl; intros [= <-];
      (apply set_client_registered_open; [done| |congruence]);
      intros cl0 Hcl0 Hopen0; simpl; congruence.
Qed.

Lemma writePump_recv_registered_open c σ :
  registered_open σ -> registered_open (writePump_recv c σ).
Proof.
  intros Hwf. unfold writePump_recv.
  destruct (heap σ !! c) as [cl|] eqn:Hcl; [|done].
  destruct (buf (Send cl)); [done|].
  apply set_client_registered_open; [done| |congruence].
  intros cl0 Hcl0 Hopen. simpl. congruence.
Qed.

(** An unregister request that [Run] handles alone: the client is removed
    from the registry and, when it was registered, its queue is closed;
    when it was not registered nothing changes. A second request for the
    same client succeeds and changes nothing, and no other client or
    registry entry is touched. *)
Lemma unregister_alone_idempotent (order1 order2 : list addr) (c : addr) (σ : State) :
  registered_open σ ->
  exists σ1,
    Run_step order1 (ReqUnregister c) σ = Ok σ1 /\
    Clients σ1 !! c = None /\
    (forall b cl, Clients σ !! c = Some b -> heap σ !! c = Some cl ->
       heap σ1 !! c = Some (evicted cl)) /\
    (Clients σ !! c = None -> σ1 = σ) /\
    Run_step order2 (ReqUnregister c) σ1 = Ok σ1 /\
    (forall c', c' <> c -> same_at c' σ σ1).
Proof.
  intros Hwf. simpl. unfold Run_unregister.
  destruct (Clients σ !! c) as [b|] eqn:Hb.
  - destruct (Hwf c b Hb) as (cl & Hcl & Hopen).
    unfold close_Send, deref. simpl. rewrite Hcl. simpl.
    unfold chan_close. rewrite Hopen. simpl.
    eexists. split; [reflexivity|]. simpl.
    split; [apply lookup_delete_eq|]. split.
    { intros b' cl' _ Hcl'. rewrite lookup_insert_eq.
      assert (cl' = cl) as -> by congruence. reflexivity. }
    split; [done|]. split.
    { by rewrite lookup_delete_eq. }
    intros c' Hne. split; simpl.
    + by rewrite lookup_insert_ne.
    + by rewrite lookup_delete_ne.
  - exists σ. split; [reflexivity|]. split; [done|]. split; [congruence|].
    split; [done|]. split; [by rewrite Hb|]. intros; apply same_at_refl.
Qed.

(** C10. A [ping] handled for a client whose queue is open and full leaves
    the whole state as it was: the pong is dropped, the queue is not
    closed and the client stays registered. More generally, whenever the
    handling of a [ping] returns, the registry is the same and no channel
    has changed from open to closed. *)
Theorem ping_overflow_drops_pong
    (json_Marshal : Message -> option bytes) (c : addr) (msg : Message)
    (σ : State) :
  msg_Type msg = "ping" ->
  (forall cl, heap σ !! c = Some cl -> closed (Send cl) = false ->
     chan_full (Send cl) = true ->
     readPump_dispatch json_Marshal c msg σ = Ok σ) /\
  (forall σ', readPump_dispatch json_Marshal c msg σ = Ok σ' ->
     Clients σ' = Clients σ /\
     forall c' cl', heap σ' !! c' = Some cl' ->
       exists cl, heap σ !! c' = Some cl /\ closed (Send cl') = closed (Send cl)).
Proof.
  intros Hping. unfold readPump_dispatch. rewrite Hping. simpl.
  destruct (json_Marshal _) as [b|].
  - split.
    + intros cl Hcl Hopen Hfull. unfold deref. rewrite Hcl. simpl.
      unfold chan_try_send. rewrite Hopen, Hfull. simpl.
      apply f_equal, state_eq; [|reflexivity]. simpl.
      apply insert_id. rewrite Hcl. by destruct cl.
    + intros σ'. unfold deref. destruct (heap σ !! c) as [cl|] eqn:Hcl; [|done].
      simpl. unfold chan_try_send.
      destruct (closed (Send cl)) eqn:Hopen; [done|].
      destruct (chan_full (Send cl)); simpl; intros [= <-]; (split; [reflexivity|]);
        intros c' cl'; simpl;
        (destruct (decide (c' = c)) as [->|Hne];
         [rewrite lookup_insert_eq; intros [= <-]; exists cl; by split
         |rewrite lookup_insert_ne by done; intros Hc'; by exists cl']).
  - split; [done|]. intros σ' [= <-]. split; [done|].
    intros c' cl' Hc'. by exists cl'.
Qed.

Lemma ping_overflow_drops_pong_witness :
  readPump_dispatch example_Marshal 2%positive
    {| msg_Type := "ping"; msg_FormID := ""; msg_Data := DNil; msg_EventID := "" |}
    example_state = Ok example_state.
Proof.
  refine (proj1 (ping_overflow_drops_pong example_Marshal 2%positive
                   {| msg_Type := "ping"; msg_FormID := ""; msg_Data := DNil;
                      msg_EventID := "" |} example_state eq_refl) _ _ _ _).
  - reflexivity.
  - reflexivity.
  - reflexivity.
Defined.

(** The statement-level programs run alone are the functions above. *)
Lemma run_alone_andThen : forall p q σ,
  run_alone (andThen p q) σ = (σ' ← run_alone p σ; run_alone q σ').
Proof.
  fix IH 1. intros [|stmt] q σ; simpl; [reflexivity|].
  destruct (stmt σ) as [[σ' rest]|msg]; [apply IH|reflexivity].
Qed.

Lemma run_alone_unregister_prog c σ :
  run_alone (unregister_prog c) σ = Run_unregister c σ.
Proof.
  unfold Run_unregister. simpl. destruct (Clients σ !! c); simpl; [|reflexivity].
  destruct (close_Send c (registry_delete c σ)); reflexivity.
Qed.

Lemma run_alone_broadcast_body_prog formID jsonData c σ :
  run_alone (broadcast_body_prog formID jsonData c) σ =
  BroadcastToForm_body formID jsonData c σ.
Proof.
  unfold BroadcastToForm_body, send_or_evict. simpl.
  destruct (deref c σ) as [cl|msg] eqn:Hd; simpl; [|reflexivity].
  destruct (String.eqb (FormID cl) "" || String.eqb (FormID cl) formID)%bool;
    simpl; [|reflexivity].
  destruct (chan_try_send jsonData (Send cl)) as [[ch [|]]|msg]; simpl;
    try reflexivity.
  destruct (close_Send c σ); reflexivity.
Qed.

Lemma run_alone_BroadcastToForm_prog order formID jsonData : forall σ,
  run_alone (BroadcastToForm_prog order formID jsonData) σ =
  range_Clients (BroadcastToForm_body formID jsonData) order σ.
Proof.
  unfold BroadcastToForm_prog.
  induction order as [|c rest IH]; intros σ; [reflexivity|].
  cbn [range_prog run_alone range_Clients].
  destruct (decide (is_Some (Clients σ !! c))); cbv beta iota.
  - rewrite run_alone_andThen, run_alone_broadcast_body_prog.
    destruct (BroadcastToForm_body formID jsonData c σ); simpl;
      [apply IH|reflexivity].
  - apply IH.
Qed.

(** C2, on the code. A fan-out that runs alone evicts the clients whose
    queue is full and serves the others
    ([fanout_alone_evicts_and_serves]). But [BroadcastToForm] runs on the
    goroutine of each request handler, and two of them may overlap. Take a
    registered client whose queue is full and which both broadcasts select,
    and let it be the first that they reach. One after the other, the two
    broadcasts succeed. If both take the [default] branch before either
    closes the channel, the second [close] panics; and a fan-out, of
    [BroadcastToForm] or of [Run], that reaches the client between the
    [close] and the [delete] of the first panics in its [select]. The panic
    ends the loop before it reaches the clients that come after. *)
Theorem overlapping_fanouts_panic (c : addr) (b : bool) (cl : Client)
    (rest : list addr) (formID formID' : string) (jsonData jsonData' : bytes)
    (σ : State) :
  registered_open σ ->
  NoDup (c :: rest) ->
  Clients σ !! c = Some b ->
  heap σ !! c = Some cl ->
  selects_form formID cl = true ->
  selects_form formID' cl = true ->
  chan_full (Send cl) = true ->
  let first := BroadcastToForm_prog (c :: rest) formID jsonData in
  let second := BroadcastToForm_prog (c :: rest) formID' jsonData' in
  is_Ok (σ1 ← run_alone first σ; run_alone second σ1) = true /\
  (forall sched,
     interleave ([true; true; false; false; true; false] ++ sched)
       first second σ = Panic "close of closed channel") /\
  (forall sched,
     interleave ([true; true; true; false; false] ++ sched)
       first second σ = Panic "send on closed channel") /\
  exists todo,
    run_steps 3 first σ = Ok (set_client c (evicted cl) σ, todo) /\
    Clients (set_client c (evicted cl) σ) !! c = Some b /\
    run_alone second (set_client c (evicted cl) σ) =
      Panic "send on closed channel" /\
    forall message,
      Run_step (c :: rest) (ReqBroadcast message) (set_client c (evicted cl) σ) =
        Panic "send on closed channel".
Proof.
  intros Hwf Hnd Hb Hcl Hsel Hsel' Hfull first second.
  destruct (Hwf c b Hb) as (cl0 & Hcl0 & Hopen).
  assert (cl0 = cl) as -> by congruence.
  assert (Hreg : forall σ0 : State, Clients σ0 = Clients σ ->
            exists H, decide (is_Some (Clients σ0 !! c)) = left H).
  { intros σ0 ->. destruct (decide (is_Some (Clients σ !! c))) as [H|Hn];
      [by exists H|exfalso; apply Hn; by exists b]. }
  assert (Hevicted : heap (set_client c (evicted cl) σ) !! c = Some (evicted cl)).
  { simpl. apply lookup_insert_eq. }
  split; [|split; [|split]].
  - unfold first, second. rewrite run_alone_BroadcastToForm_prog.
    destruct (fanout_range (selects_form formID) jsonData (c :: rest) σ Hnd Hwf)
      as (σ1 & Hrun & Hwf1 & _).
    change (BroadcastToForm_body formID jsonData)
      with (fanout (selects_form formID) jsonData).
    rewrite Hrun. cbv beta iota delta [mbind Outcome_bind].
    rewrite run_alone_BroadcastToForm_prog.
    destruct (fanout_range (selects_form formID') jsonData' (c :: rest) σ1 Hnd
                Hwf1) as (σ2 & Hrun2 & _).
    change (BroadcastToForm_body formID' jsonData')
      with (fanout (selects_form formID') jsonData').
    by rewrite Hrun2.
  - intros sched. unfold first, second, selects_form in *.
    cbn [app interleave BroadcastToForm_prog range_prog].
    destruct (Hreg σ eq_refl) as [H ->].
    cbn [andThen broadcast_body_prog interleave].
    unfold deref at 1. rewrite Hcl. cbn [mbind Outcome_bind].
    rewrite Hsel. unfold chan_try_send at 1. rewrite Hopen, Hfull.
    cbn [mbind Outcome_bind andThen interleave].
    destruct (Hreg σ eq_refl) as [H' ->].
    cbn [andThen broadcast_body_prog interleave].
    unfold deref at 1. rewrite Hcl. cbn [mbind Outcome_bind].
    rewrite Hsel'. unfold chan_try_send at 1. rewrite Hopen, Hfull.
    cbn [mbind Outcome_bind andThen interleave].
    unfold close_Send at 1, deref at 1. rewrite Hcl. cbn [mbind Outcome_bind].
    unfold chan_close at 1. rewrite Hopen.
    cbn [mbind Outcome_bind andThen interleave].
    unfold close_Send at 1, deref at 1.
    cbn [set_client heap]. rewrite lookup_insert_eq. reflexivity.
  - intros sched. unfold first, second, selects_form in *.
    cbn [app interleave BroadcastToForm_prog range_prog].
    destruct (Hreg σ eq_refl) as [H ->].
    cbn [andThen broadcast_body_prog interleave].
    unfold deref at 1. rewrite Hcl. cbn [mbind Outcome_bind].
    rewrite Hsel. unfold chan_try_send at 1. rewrite Hopen, Hfull.
    cbn [mbind Outcome_bind andThen interleave].
    unfold close_Send at 1, deref at 1. rewrite Hcl. cbn [mbind Outcome_bind].
    unfold chan_close at 1. rewrite Hopen.
    cbn [mbind Outcome_bind andThen interleave].
    destruct (Hreg (set_client c
                      (set_Send {| buf := buf (Send cl); cap := cap (Send cl);
                                   closed := true |} cl) σ) eq_refl) as [H' ->].
    cbn [andThen broadcast_body_prog interleave].
    unfold deref at 1. cbn [set_client heap]. rewrite lookup_insert_eq.
    cbn [mbind Outcome_bind set_Send FormID Send]. rewrite Hsel'.
    reflexivity.
  - unfold first, selects_form in *.
    cbn [run_steps BroadcastToForm_prog range_prog].
    destruct (Hreg σ eq_refl) as [H ->].
    cbn [andThen broadcast_body_prog run_steps].
    unfold deref at 1. rewrite Hcl. cbn [mbind Outcome_bind].
    rewrite Hsel. unfold chan_try_send at 1. rewrite Hopen, Hfull.
    cbn [mbind Outcome_bind andThen run_steps].
    unfold close_Send at 1, deref at 1. rewrite Hcl. cbn [mbind Outcome_bind].
    unfold chan_close at 1. rewrite Hopen.
    cbn [mbind Outcome_bind andThen run_steps].
    eexists. split; [reflexivity|]. split; [exact Hb|].
    fold (evicted cl). split.
    + unfold second. rewrite run_alone_BroadcastToForm_prog.
      cbn [range_Clients].
      destruct (Hreg (set_client c (evicted cl) σ) eq_refl) as [H' ->].
      unfold BroadcastToForm_body, deref. rewrite Hevicted.
      cbn [mbind Outcome_bind evicted set_Send FormID Send]. rewrite Hsel'.
      unfold send_or_evict, deref. rewrite Hevicted. reflexivity.
    + intros message. cbn [Run_step]. unfold Run_broadcast.
      cbn [range_Clients].
      destruct (Hreg (set_client c (evicted cl) σ) eq_refl) as [H' ->].
      unfold send_or_evict, deref. rewrite Hevicted. reflexivity.
Qed.

Lemma overlapping_fanouts_panic_witness :
  interleave [true; true; false; false; true; false]
    (BroadcastToForm_prog [1%positive] "A" (list_byte_of_string "first"))
    (BroadcastToForm_prog [1%positive] "A" (list_byte_of_string "second"))
    slow_consumer_state = Panic "close of closed channel".
Proof.
  refine (proj1 (proj2 (overlapping_fanouts_panic 1%positive true _ [] "A" "A"
            (list_byte_of_string "first") (list_byte_of_string "second")
            slow_consumer_state _ _ eq_refl eq_refl eq_refl eq_refl eq_refl))
            []).
  - apply registered_openb_sound. vm_compute. reflexivity.
  - apply NoDup_singleton.
Defined.

(** C6, on the code. What an unregister request does depends on the client
    alone, and no other client or registry entry is touched: when the
    client is not registered nothing changes; when it is registered with an
    open queue it is removed and the queue is closed, and a second request
    changes nothing; when it is registered and its queue is closed, the
    [close] panics. The last case is what [BroadcastToForm] leaves between
    its [close] and its [delete] when it evicts the client: an unregister
    request that [Run] handles then errors, while the same request handled
    before the eviction does not. *)
Theorem unregister_during_eviction_panics (order : list addr) (c : addr)
    (σ : State) :
  (Clients σ !! c = None -> Run_step order (ReqUnregister c) σ = Ok σ) /\
  (forall b cl, Clients σ !! c = Some b -> heap σ !! c = Some cl ->
     Run_step order (ReqUnregister c) σ =
       if closed (Send cl) then Panic "close of closed channel"
       else Ok (set_client c (evicted cl) (registry_delete c σ))) /\
  (forall σ', Run_step order (ReqUnregister c) σ = Ok σ' ->
     Run_step order (ReqUnregister c) σ' = Ok σ' /\
     forall c', c' <> c -> same_at c' σ σ') /\
  (forall b cl rest formID jsonData,
     Clients σ !! c = Some b -> heap σ !! c = Some cl ->
     closed (Send cl) = false ->
     selects_form formID cl = true -> chan_full (Send cl) = true ->
     exists todo,
       run_steps 3 (BroadcastToForm_prog (c :: rest) formID jsonData) σ =
         Ok (set_client c (evicted cl) σ, todo) /\
       Run_step order (ReqUnregister c) (set_client c (evicted cl) σ) =
         Panic "close of closed channel").
Proof.
  assert (Hcase : forall (σ0 : State) b cl,
    Clients σ0 !! c = Some b -> heap σ0 !! c = Some cl ->
    Run_step order (ReqUnregister c) σ0 =
      if closed (Send cl) then Panic "close of closed channel"
      else Ok (set_client c (evicted cl) (registry_delete c σ0))).
  { intros σ0 b cl Hb Hcl. cbn [Run_step]. unfold Run_unregister. rewrite Hb.
    unfold close_Send, deref. cbn [registry_delete heap]. rewrite Hcl.
    cbn [mbind Outcome_bind]. unfold chan_close.
    by destruct (closed (Send cl)). }
  split; [|split; [|split]].
  - intros Hb. cbn [Run_step]. unfold Run_unregister. by rewrite Hb.
  - apply Hcase.
  - intros σ'. cbn [Run_step]. unfold Run_unregister.
    destruct (Clients σ !! c) as [b|] eqn:Hb.
    + unfold close_Send, deref. cbn [registry_delete heap].
      destruct (heap σ !! c) as [cl|] eqn:Hcl; [|done].
      cbn [mbind Outcome_bind]. unfold chan_close.
      destruct (closed (Send cl)); [done|]. cbn [mbind Outcome_bind].
      intros [= <-]. cbn [set_client registry_delete Clients heap].
      rewrite lookup_delete_eq.
      split; [done|]. intros c' Hne. split; simpl.
      * by rewrite lookup_insert_ne.
      * by rewrite lookup_delete_ne.
    + intros [= <-]. rewrite Hb. split; [done|]. intros; apply same_at_refl.
  - intros b cl rest formID jsonData Hb Hcl Hopen Hsel Hfull.
    unfold selects_form in Hsel.
    cbn [run_steps BroadcastToForm_prog range_prog].
    destruct (decide (is_Some (Clients σ !! c))) as [_|Hn];
      [|exfalso; apply Hn; by exists b].
    cbn [andThen broadcast_body_prog run_steps].
    unfold deref at 1. rewrite Hcl. cbn [mbind Outcome_bind].
    rewrite Hsel. unfold chan_try_send at 1. rewrite Hopen, Hfull.
    cbn [mbind Outcome_bind andThen run_steps].
    unfold close_Send at 1, deref at 1. rewrite Hcl. cbn [mbind Outcome_bind].
    unfold chan_close at 1. rewrite Hopen.
    cbn [mbind Outcome_bind andThen run_steps].
    eexists. split; [reflexivity|]. fold (evicted cl).
    rewrite (Hcase (set_client c (evicted cl) σ) b (evicted cl));
      [done|done|apply lookup_insert_eq].
Qed.

Lemma unregister_during_eviction_panics_witness :
  Run_step [] (ReqUnregister 1%positive)
    (set_client 1%positive
       (evicted {| Send := {| buf := replicate 256 (list_byte_of_string "queued");
                              cap := 256; closed := false |};
                   FormID := "A" |})
       slow_consumer_state) = Panic "close of closed channel".
Proof.
  destruct (proj2 (proj2 (proj2 (unregister_during_eviction_panics []
              1%positive slow_consumer_state))) true
              {| Send := {| buf := replicate 256 (list_byte_of_string "queued");
                            cap := 256; closed := false |};
                 FormID := "A" |} [] "A" [] eq_refl eq_refl eq_refl eq_refl
              eq_refl) as (todo & _ & Hpanic).
  exact Hpanic.
Defined.

(** C9, on the code. [BroadcastToForm] reads and changes the registry on
    the goroutine of its caller, not on that of [Run]. Take a registered
    client whose queue is full and whose topic the broadcast selects, and
    let it be the first the broadcast reaches. An unregister request for it
    handled by [Run] and the [BroadcastToForm] both succeed when one runs
    after the other, in either order; but if [Run] handles the request
    between the [close] and the [delete] of [BroadcastToForm], the channel
    is closed twice and the program panics. *)
Theorem broadcast_to_form_bypasses_run (c : addr) (b : bool) (cl : Client)
    (rest : list addr) (formID : string) (jsonData : bytes) (σ : State) :
  registered_open σ ->
  NoDup (c :: rest) ->
  Clients σ !! c = Some b ->
  heap σ !! c = Some cl ->
  selects_form formID cl = true ->
  chan_full (Send cl) = true ->
  is_Ok (σ1 ← run_alone (unregister_prog c) σ;
         run_alone (BroadcastToForm_prog (c :: rest) formID jsonData) σ1) = true /\
  is_Ok (σ1 ← run_alone (BroadcastToForm_prog (c :: rest) formID jsonData) σ;
         run_alone (unregister_prog c) σ1) = true /\
  forall sched,
    interleave ([false; false; false; true; true; true] ++ sched)
      (unregister_prog c) (BroadcastToForm_prog (c :: rest) formID jsonData) σ =
    Panic "close of closed channel".
Proof.
  intros Hwf Hnd Hb Hcl Hsel Hfull.
  destruct (Hwf c b Hb) as (cl0 & Hcl0 & Hopen).
  assert (cl0 = cl) as -> by congruence.
  split; [|split].
  - rewrite run_alone_unregister_prog.
    destruct (Run_step_registered_open [] (ReqUnregister c) σ Hwf)
      as (σ1 & Hrun & Hwf1); [done|done|].
    simpl in Hrun. rewrite Hrun. cbv beta iota delta [mbind Outcome_bind].
    rewrite run_alone_BroadcastToForm_prog.
    destruct (fanout_range (selects_form formID) jsonData (c :: rest) σ1 Hnd Hwf1)
      as (σ2 & Hrun2 & _).
    change (BroadcastToForm_body formID jsonData)
      with (fanout (selects_form formID) jsonData).
    by rewrite Hrun2.
  - rewrite run_alone_BroadcastToForm_prog.
    destruct (fanout_range (selects_form formID) jsonData (c :: rest) σ Hnd Hwf)
      as (σ1 & Hrun & Hwf1 & _).
    change (BroadcastToForm_body formID jsonData)
      with (fanout (selects_form formID) jsonData).
    rewrite Hrun. cbv beta iota delta [mbind Outcome_bind].
    rewrite run_alone_unregister_prog.
    destruct (Run_step_registered_open [] (ReqUnregister c) σ1 Hwf1)
      as (σ2 & Hrun2 & _); [done|done|].
    simpl in Hrun2. by rewrite Hrun2.
  - intros sched. unfold selects_form in Hsel.
    cbn [app interleave BroadcastToForm_prog range_prog].
    destruct (decide (is_Some (Clients σ !! c))) as [_|Hn];
      [|exfalso; apply Hn; by exists b].
    cbn [andThen broadcast_body_prog interleave].
    unfold deref at 1. rewrite Hcl. cbn [mbind Outcome_bind].
    rewrite Hsel. unfold chan_try_send. rewrite Hopen, Hfull.
    cbn [mbind Outcome_bind andThen interleave].
    unfold close_Send at 1, deref at 1. rewrite Hcl. cbn [mbind Outcome_bind].
    unfold chan_close at 1. rewrite Hopen.
    cbn [mbind Outcome_bind andThen interleave unregister_prog set_client Clients].
    rewrite Hb. cbn [interleave].
    unfold close_Send, deref.
    cbn [registry_delete set_client heap]. rewrite lookup_insert_eq.
    reflexivity.
Qed.

Lemma broadcast_to_form_bypasses_run_witness :
  interleave [false; false; false; true; true; true]
    (unregister_prog 1) (BroadcastToForm_prog [1%positive] "A" [])
    slow_consumer_state = Panic "close of closed channel".
Proof.
  refine (proj2 (proj2 (broadcast_to_form_bypasses_run 1%positive true _ []
            "A" [] slow_consumer_state _ _ eq_refl eq_refl eq_refl eq_refl)) []).
  - apply registered_openb_sound. vm_compute. reflexivity.
  - apply NoDup_singleton.
Defined.

End HubSpec.

(** * Properties of the browser client *)

Module WebSocketClientSpec.
Import WebSocketClient.

Lemma step_bounded e w : bounded w -> bounded (step e w).
Proof.
  unfold bounded. intros [Hmax Hcnt].
  destruct e as [throws| |throws|current| |current code]; simpl.
  - unfold connect. destruct (socket w) as [[]|]; destruct throws; simpl; lia.
  - lia.
  - unfold connect. destruct (socket w) as [[]|]; destruct throws; simpl; lia.
  - destruct current; simpl; lia.
  - lia.
  - unfold onclose, handleReconnect.
    destruct (code =? 1000); [destruct current; simpl; lia|].
    destruct current; simpl;
      destruct (reconnectAttempts w >=? maxReconnectAttempts w) eqn:E; simpl; lia.
Qed.

Lemma run_bounded evs : forall w, bounded w -> bounded (run evs w).
Proof.
  induction evs as [|e evs IH]; intros w Hw; simpl; [done|].
  apply IH. by apply step_bounded.
Qed.

Lemma run_app evs1 evs2 w : run (evs1 ++ evs2) w = run evs2 (run evs1 w).
Proof. unfold run. apply fold_left_app. Qed.

(** Outside of a successful open, the counter and the number of scheduled
    reconnections move together. *)
Lemma step_scheduled e w :
  is_open_event e = false ->
  Z.of_nat (scheduled (step e w)) - reconnectAttempts (step e w) =
  Z.of_nat (scheduled w) - reconnectAttempts w.
Proof.
  unfold scheduled. destruct e as [throws| |throws|current| |current code];
    simpl; try discriminate; intros _.
  - unfold connect. destruct (socket w) as [[]|]; destruct throws; reflexivity.
  - destruct (socket w); reflexivity.
  - unfold connect. destruct (socket w) as [[]|]; destruct throws; reflexivity.
  - reflexivity.
  - unfold onclose, handleReconnect.
    destruct (code =? 1000); [destruct current; reflexivity|].
    destruct current; simpl;
      destruct (reconnectAttempts w >=? maxReconnectAttempts w); simpl; lia.
Qed.

Lemma run_scheduled evs : forall w,
  forallb (fun e => negb (is_open_event e)) evs = true ->
  Z.of_nat (scheduled (run evs w)) - reconnectAttempts (run evs w) =
  Z.of_nat (scheduled w) - reconnectAttempts w.
Proof.
  induction evs as [|e evs IH]; intros w Hno; simpl in *; [reflexivity|].
  apply andb_true_iff in Hno as [He Hno]. apply negb_true_iff in He.
  rewrite (IH _ Hno). by apply step_scheduled.
Qed.

(** C8. After any sequence of calls, timer and socket events on a new
    client: the maximum is 5 and the counter lies between 0 and it; when
    the counter equals the maximum, a close event schedules no
    reconnection and leaves the counter alone; a successful open resets
    the counter to 0; and as long as no open succeeds, the reconnections
    scheduled from then on number at most the maximum minus the counter. *)
Theorem reconnect_bounded_retry (evs : list Event) :
  let w := run evs wsClient in
  maxReconnectAttempts w = 5 /\
  0 <= reconnectAttempts w <= maxReconnectAttempts w /\
  (reconnectAttempts w = maxReconnectAttempts w ->
     forall current code,
       effects (step (SocketCloseEvent current code) w) =
         ((if code =? 1000 then [Emit "disconnected"]
           else [Emit "max_reconnect_attempts_reached"; Emit "disconnected"])
          ++ effects w)%list /\
       reconnectAttempts (step (SocketCloseEvent current code) w) =
         reconnectAttempts w) /\
  (forall current, reconnectAttempts (step (SocketOpen current) w) = 0) /\
  (forall evs', forallb (fun e => negb (is_open_event e)) evs' = true ->
     Z.of_nat (scheduled (run evs' w)) - Z.of_nat (scheduled w) <=
       maxReconnectAttempts w - reconnectAttempts w).
Proof.
  intros w.
  assert (Hb : bounded w).
  { apply run_bounded. unfold bounded. simpl. lia. }
  destruct Hb as [Hmax Hcnt].
  split; [done|]. split; [lia|]. split; [|split].
  - intros Heq current code. simpl. unfold onclose, handleReconnect.
    destruct (code =? 1000); [destruct current; by simpl|].
    destruct current; simpl; rewrite Heq, Z.geb_leb, Z.leb_refl; by simpl.
  - intros current. reflexivity.
  - intros evs' Hno. pose proof (run_scheduled evs' w Hno) as Hs.
    assert (Hb' : bounded (run evs' w)).
    { apply run_bounded. by split. }
    destruct Hb' as [_ Hcnt']. lia.
Qed.

Lemma reconnect_bounded_retry_witness :
  let w := run (repeat (SocketCloseEvent true 1006) 7) wsClient in
  reconnectAttempts w = 5 /\ scheduled w = 5%nat /\
  scheduled (step (SocketCloseEvent true 1006) w) = 5%nat.
Proof.
  intros w.
  destruct (reconnect_bounded_retry (repeat (SocketCloseEvent true 1006) 7))
    as (_ & _ & Hmax & _ & _).
  destruct (Hmax eq_refl true 1006) as [Heff _].
  split; [reflexivity|]. split; [reflexivity|].
  unfold scheduled. fold w in Heff. rewrite Heff. reflexivity.
Defined.

End WebSocketClientSpec.

(** * Properties of the aggregator *)

Module AnalyticsSpec.
Import Analytics CompletionCheck.

Section Counting.

Context {F : Type} {Float64_F : Float64 F}.

Implicit Types (db : list (@FormResponse F)) (r : @FormResponse F).

Lemma CountDocuments_cons db r flt :
  CountDocuments (r :: db) flt =
  (if flt r then 1 else 0) + CountDocuments db flt.
Proof.
  unfold CountDocuments. simpl. destruct (flt r); simpl length; lia.
Qed.

Lemma CountDocuments_nonneg db flt : 0 <= CountDocuments db flt.
Proof. unfold CountDocuments. lia. Qed.

(** A filter that also asks for the form finds nothing where the form has
    no response. *)
Lemma filter_of_form_nil db formID (q : FormResponse -> bool) :
  List.filter (of_form formID) db = [] ->
  List.filter (fun r => of_form formID r && q r) db = [].
Proof.
  induction db as [|r db IH]; simpl; [done|].
  destruct (of_form formID r) eqn:E; [discriminate|]. simpl. exact IH.
Qed.

Lemma of_form_between_nil db formID a b :
  List.filter (of_form formID) db = [] ->
  CountDocuments db (of_form_between formID a b) = 0.
Proof.
  intros H. unfold CountDocuments, of_form_between.
  rewrite (List.filter_ext _ (fun r => of_form formID r &&
             ((a <=? CreatedAt r) && (CreatedAt r <? b)))).
  - by rewrite (filter_of_form_nil _ _ _ H).
  - intros r. by rewrite andb_assoc.
Qed.

Lemma of_form_answered_nil db formID fieldID :
  List.filter (of_form formID) db = [] ->
  List.filter (of_form_answered formID fieldID) db = [].
Proof. intros H. unfold of_form_answered. by apply filter_of_form_nil. Qed.

(** Two adjacent intervals of instants count as their union. *)
Lemma CountDocuments_adjacent db formID a b c :
  a <= b -> b <= c ->
  CountDocuments db (of_form_between formID a b) +
  CountDocuments db (of_form_between formID b c) =
  CountDocuments db (of_form_between formID a c).
Proof.
  intros Hab Hbc. induction db as [|r db IH].
  - reflexivity.
  - rewrite !CountDocuments_cons. rewrite <- IH.
    unfold of_form_between. destruct (of_form formID r); simpl; [|lia].
    destruct (Z.leb_spec a (CreatedAt r)), (Z.leb_spec b (CreatedAt r)),
      (Z.ltb_spec (CreatedAt r) b), (Z.ltb_spec (CreatedAt r) c); simpl; lia.
Qed.

(** With no response for the form, the analytics of every field are the
    defaults. *)
Lemma field_analytics_empty db formID field :
  List.filter (of_form formID) db = [] ->
  calculateEnhancedFieldAnalytics db formID field 0 =
    Ok {| field_id := ID field; field_label := Label field;
          field_type := Type_ field;
          response_rate := f_of_Z 0; skip_rate := f_of_Z 100;
          unique_responses := 0; common_responses := [];
          average_rating := None |}.
Proof.
  intros H. unfold calculateEnhancedFieldAnalytics, aggregate_top, answers.
  rewrite (of_form_answered_nil _ _ _ H). simpl.
  destruct (String.eqb (Type_ field) FieldTypeMultipleChoice
            || String.eqb (Type_ field) FieldTypeCheckbox); [reflexivity|].
  destruct (String.eqb (Type_ field) FieldTypeRating); [reflexivity|].
  destruct (String.eqb (Type_ field) FieldTypeText
            || String.eqb (Type_ field) FieldTypeTextarea
            || String.eqb (Type_ field) FieldTypeEmail); reflexivity.
Qed.

Lemma fields_loop_empty db formID fields :
  List.filter (of_form formID) db = [] ->
  fields_loop db formID fields 0 =
    Ok (map (fun field =>
               {| field_id := ID field; field_label := Label field;
                  field_type := Type_ field;
                  response_rate := f_of_Z 0; skip_rate := f_of_Z 100;
                  unique_responses := 0; common_responses := [];
                  average_rating := None |}) fields).
Proof.
  intros H. induction fields as [|field rest IH]; simpl; [reflexivity|].
  rewrite (field_analytics_empty _ _ _ H). simpl. rewrite IH. reflexivity.
Qed.

Lemma CountDocuments_empty_interval db formID a b :
  b <= a -> CountDocuments db (of_form_between formID a b) = 0.
Proof.
  intros Hba. induction db as [|r db IH]; [reflexivity|].
  rewrite CountDocuments_cons, IH. unfold of_form_between.
  destruct (of_form formID r); simpl; [|lia].
  destruct (Z.leb_spec a (CreatedAt r)), (Z.ltb_spec (CreatedAt r) b);
    simpl; lia.
Qed.

Lemma sum_counts_app l1 l2 :
  sum_counts (l1 ++ l2) = sum_counts l1 + sum_counts l2.
Proof.
  unfold sum_counts. induction l1 as [|e l1 IH]; simpl; [reflexivity|].
  rewrite IH. lia.
Qed.

(** Consecutive days of 24 hours add up to one interval. *)
Lemma sum_counts_days db formID first n :
  sum_counts (map (day_entry db formID first) (seq 0 n)) =
  CountDocuments db (of_form_between formID first (first + Z.of_nat n * day)).
Proof.
  induction n as [|n IH].
  - simpl. symmetry. apply CountDocuments_empty_interval. lia.
  - rewrite seq_S, map_app, sum_counts_app, IH. simpl map.
    unfold sum_counts at 1. simpl fold_right. rewrite Z.add_0_r.
    replace (first + Z.of_nat n * day + day)
      with (first + Z.of_nat (S n) * day) by lia.
    apply CountDocuments_adjacent; unfold day; lia.
Qed.

(** Where days last 24 hours the trend is the list of the seven days from
    the start of the day six days ago. *)
Lemma calculateResponseTrends_days loc now db formID :
  whole_days loc now ->
  calculateResponseTrends loc now db formID =
  map (day_entry db formID (startOfDay loc (addDays loc (-6) now))) (seq 0 7).
Proof.
  intros Hw.
  pose proof (Hw 0 ltac:(lia)) as H0. pose proof (Hw 1 ltac:(lia)) as H1.
  pose proof (Hw 2 ltac:(lia)) as H2. pose proof (Hw 3 ltac:(lia)) as H3.
  pose proof (Hw 4 ltac:(lia)) as H4. pose proof (Hw 5 ltac:(lia)) as H5.
  unfold calculateResponseTrends, day_entry. simpl map.
  eval_opp.
  set (first := startOfDay loc (addDays loc (-6) now)) in *.
  replace (startOfDay loc (addDays loc (-5) now)) with (first + 1 * day) by lia.
  replace (startOfDay loc (addDays loc (-4) now)) with (first + 2 * day) by lia.
  replace (startOfDay loc (addDays loc (-3) now)) with (first + 3 * day) by lia.
  replace (startOfDay loc (addDays loc (-2) now)) with (first + 4 * day) by lia.
  replace (startOfDay loc (addDays loc (-1) now)) with (first + 5 * day) by lia.
  replace (startOfDay loc (addDays loc 0 now)) with (first + 6 * day) by lia.
  replace first with (first + 0 * day) at 1 2 3 by lia.
  reflexivity.
Qed.

(** The first component of the loop of [calculateCompletionMetrics] is the
    number of complete responses. *)
Lemma completion_loop_fst fields db :
  (completion_loop fields db).1 = count_complete fields db.
Proof.
  unfold completion_loop.
  enough (Hgen : forall acc : Z * F,
    (fold_left
       (fun acc r =>
          (if isComplete fields r then acc.1 + 1 else acc.1,
           f_add acc.2
             (f_mul (f_of_Z (Z.of_nat (size (Responses r)))) (f_of_Z 10))))
       db acc).1 = acc.1 + count_complete fields db).
  { rewrite Hgen. simpl. lia. }
  induction db as [|r db IH]; intros acc.
  - unfold count_complete. simpl. lia.
  - simpl fold_left. rewrite IH. unfold count_complete. simpl.
    destruct (isComplete fields r); simpl length; lia.
Qed.


Lemma count_complete_bounds fields db :
  0 <= count_complete fields db <= Z.of_nat (length db).
Proof.
  unfold count_complete. split; [lia|].
  apply inj_le. apply List.filter_length_le.
Qed.


Lemma completion_rate_eq db formID fields :
  (calculateCompletionMetrics db formID fields).1 =
  let responses := Find db (of_form formID) in
  if (length responses =? 0)%nat then f_of_Z 0
  else f_mul (f_div (f_of_Z (count_complete fields responses))
                    (f_of_Z (Z.of_nat (length responses))))
             (f_of_Z 100).
Proof.
  unfold calculateCompletionMetrics. simpl.
  destruct (length (Find db (of_form formID)) =? 0)%nat; [reflexivity|].
  rewrite <- completion_loop_fst.
  destruct (completion_loop fields (Find db (of_form formID))). reflexivity.
Qed.

End Counting.

Lemma inject_Z_pos (b : Z) : 0 < b -> (0 < inject_Z b)%Q.
Proof. intros H. unfold Qlt. simpl. lia. Qed.

Lemma Q_ratio_le (a b c d : Z) :
  0 < b -> 0 < d -> a * d <= c * b ->
  (inject_Z a / inject_Z b * inject_Z 100 <=
   inject_Z c / inject_Z d * inject_Z 100)%Q.
Proof.
  intros Hb Hd H.
  apply Qmult_le_compat_r; [|discriminate].
  pose proof (inject_Z_pos b Hb) as Hb'. pose proof (inject_Z_pos d Hd) as Hd'.
  apply Qle_shift_div_l; [exact Hd'|].
  setoid_replace (inject_Z a / inject_Z b * inject_Z d)%Q
    with ((inject_Z a * inject_Z d) / inject_Z b)%Q using relation Qeq.
  - apply Qle_shift_div_r; [exact Hb'|].
    rewrite <- !inject_Z_mult. rewrite <- Zle_Qle. exact H.
  - field. intros E. rewrite E in Hb'. discriminate.
Qed.

Lemma Q_ratio_nonneg (a b : Z) :
  0 <= a -> 0 < b ->
  (inject_Z 0 <= inject_Z a / inject_Z b * inject_Z 100)%Q.
Proof.
  intros Ha Hb. pose proof (inject_Z_pos b Hb) as Hb'.
  apply Qmult_le_0_compat; [|discriminate].
  apply Qle_shift_div_l; [exact Hb'|]. rewrite Qmult_0_l.
  unfold Qle. simpl. lia.
Qed.

Lemma fixedZone_whole_days offset now : whole_days (fixedZone offset) now.
Proof.
  intros i Hi. simpl.
  replace (now + - (i + 1) * day + offset)
    with (now + offset + (- (i + 1)) * day) by ring.
  replace (now + - i * day + offset) with (now + offset + (- i) * day) by ring.
  rewrite !Z.div_add by (unfold day; lia). ring.
Qed.

(** C3, as the code has it. With no response for the form the computation
    returns a result: the total, the completion rate and the average
    completion time are 0, the trend has seven entries of count 0, and
    every field has response rate 0, skip rate 100 and no common
    responses. *)
Theorem empty_response_set_defaults {F : Type} {Float64_F : Float64 F}
    (loc : Location) (now now' : Time) (db : list (@FormResponse F))
    (formID : ObjectID) (fields : list FormField) :
  List.filter (of_form formID) db = [] ->
  exists a,
    calculateAnalytics loc now now' db formID fields = Ok a /\
    total_responses (FieldAnalytics_ a) = 0 /\
    completion_rate (FieldAnalytics_ a) = f_of_Z 0 /\
    average_completion_time (FieldAnalytics_ a) = f_of_Z 0 /\
    length (response_trends (FieldAnalytics_ a)) = 7%nat /\
    Forall (fun e => count e = 0) (response_trends (FieldAnalytics_ a)) /\
    field_analytics (FieldAnalytics_ a) =
      map (fun field =>
             {| field_id := ID field; field_label := Label field;
                field_type := Type_ field;
                response_rate := f_of_Z 0; skip_rate := f_of_Z 100;
                unique_responses := 0; common_responses := [];
                average_rating := None |}) fields.
Proof.
  intros H. unfold calculateAnalytics, calculateCompletionMetrics, Find.
  assert (Htotal : CountDocuments db (of_form formID) = 0).
  { unfold CountDocuments. by rewrite H. }
  rewrite Htotal, H. simpl length. simpl Nat.eqb. cbv iota.
  rewrite (fields_loop_empty _ _ _ H). simpl.
  eexists. split; [reflexivity|]. simpl.
  split; [reflexivity|]. split; [reflexivity|]. split; [reflexivity|].
  split; [reflexivity|]. split; [|reflexivity].
  unfold calculateResponseTrends. simpl.
  repeat (apply Forall_cons; split; [simpl; by apply of_form_between_nil|]).
  constructor.
Qed.

Lemma empty_response_set_defaults_witness :
  exists a,
    calculateAnalytics (F := float) UTC example_now example_now [] "f1"
      [rating_field] = Ok a /\
    completion_rate (FieldAnalytics_ a) = 0%float /\
    map skip_rate (field_analytics (FieldAnalytics_ a)) = [100%float].
Proof.
  destruct (empty_response_set_defaults (F := float) UTC example_now example_now
              [] "f1" [rating_field] eq_refl)
    as (a & Hrun & _ & Hrate & _ & _ & _ & Hfields).
  exists a. split; [exact Hrun|]. split; [exact Hrate|].
  rewrite Hfields. reflexivity.
Defined.

(** C3, as the claim states it, fails on the skip rate: with no response
    the skip rate of a field is 100, not 0. *)
Lemma empty_response_set_skip_rate :
  ~ (forall (loc : Location) (now now' : Time) (db : list (@FormResponse float))
       (formID : ObjectID) (fields : list FormField),
       List.filter (of_form formID) db = [] ->
       exists a,
         calculateAnalytics loc now now' db formID fields = Ok a /\
         total_responses (FieldAnalytics_ a) = 0 /\
         completion_rate (FieldAnalytics_ a) = 0%float /\
         average_completion_time (FieldAnalytics_ a) = 0%float /\
         length (response_trends (FieldAnalytics_ a)) = 7%nat /\
         Forall (fun e => count e = 0) (response_trends (FieldAnalytics_ a)) /\
         Forall (fun fa => response_rate fa = 0%float /\ skip_rate fa = 0%float)
           (field_analytics (FieldAnalytics_ a))).
Proof.
  intros H.
  destruct (H UTC example_now example_now [] "f1" [rating_field] eq_refl)
    as (a & Hrun & _ & _ & _ & _ & _ & Hrates).
  vm_compute in Hrun. injection Hrun as <-. simpl in Hrates.
  apply Forall_cons in Hrates as [[_ Hskip] _].
  discriminate Hskip.
Qed.

(** C4. The trend has exactly seven entries; the entry at position [k] is
    for the day of the instant [6 - k] days before now, so the entries run
    from six days ago to today, and it counts the responses of the form
    created from the start of that day up to, and not including, 24 hours
    later. Where the days of the window last 24 hours, each entry starts
    one day after the one before it, and the counts add up to the number
    of responses of the form created in the seven days that begin with the
    first entry. *)
Theorem trends_cover_seven_days {F : Type} (loc : Location) (now : Time)
    (db : list (@FormResponse F)) (formID : ObjectID) :
  let dayStart (k : nat) := startOfDay loc (addDays loc (Z.of_nat k - 6) now) in
  let trends := calculateResponseTrends loc now db formID in
  length trends = 7%nat /\
  (forall k, (k < 7)%nat ->
     trends !! k =
       Some {| date := dayStart k;
               count := CountDocuments db
                          (of_form_between formID (dayStart k) (dayStart k + day)) |}) /\
  (whole_days loc now ->
     (forall k, (k < 7)%nat -> dayStart k = dayStart 0%nat + Z.of_nat k * day) /\
     sum_counts trends =
       CountDocuments db
         (of_form_between formID (dayStart 0%nat) (dayStart 0%nat + 7 * day))).
Proof.
  intros dayStart trends. split; [reflexivity|]. split.
  - intros k Hk. subst trends dayStart. unfold calculateResponseTrends.
    do 7 (destruct k as [|k]; [reflexivity|]). lia.
  - intros Hw. subst trends dayStart. cbv beta.
    change (Z.of_nat 0 - 6) with (-6).
    rewrite (calculateResponseTrends_days _ _ _ _ Hw).
    split; [|apply (sum_counts_days db formID _ 7)].
    intros k Hk.
    pose proof (Hw 0 ltac:(lia)) as H0. pose proof (Hw 1 ltac:(lia)) as H1.
    pose proof (Hw 2 ltac:(lia)) as H2. pose proof (Hw 3 ltac:(lia)) as H3.
    pose proof (Hw 4 ltac:(lia)) as H4. pose proof (Hw 5 ltac:(lia)) as H5.
    eval_opp.
    do 7 (destruct k as [|k];
          [match goal with
           | |- context [addDays loc ?e now] =>
               let v := eval vm_compute in e in change e with v
           end; lia|]).
    lia.
Qed.

Lemma trends_cover_seven_days_witness :
  sum_counts (calculateResponseTrends UTC example_now ratings_5531 "f1") = 4 /\
  map count (calculateResponseTrends UTC example_now ratings_5531 "f1") =
    [0; 0; 0; 0; 1; 2; 1].
Proof.
  destruct (trends_cover_seven_days UTC example_now ratings_5531 "f1")
    as (_ & _ & Hdays).
  destruct (Hdays (fixedZone_whole_days 0 example_now)) as [_ Hsum].
  split; [|reflexivity].
  rewrite Hsum. reflexivity.
Defined.

(** C4, as stated, fails where the offset of the server's location
    changes inside the window. In New York on 3 November 2026 at 12:00 UTC,
    the entry for 1 November ends at 04:00 UTC on the 2nd, 24 hours after
    its start, and the entry for 2 November starts at 05:00 UTC: a response
    of 04:30 UTC, 23:30 on the 1st there, lies in the window and is counted
    by no entry. *)
Lemma trends_miss_response_at_offset_change :
  map date (calculateResponseTrends newYork_2026 1793707200000
              [rated_Q 5 1793593800000] "f1") =
    [1793160000000; 1793246400000; 1793332800000; 1793419200000;
     1793505600000; 1793595600000; 1793682000000] /\
  1793160000000 <= CreatedAt (rated_Q 5 1793593800000) < 1793707200000 /\
  of_form "f1" (rated_Q 5 1793593800000) = true /\
  sum_counts (calculateResponseTrends newYork_2026 1793707200000
                [rated_Q 5 1793593800000] "f1") = 0.
Proof. vm_compute. repeat split; congruence. Qed.

(** C5. For a form with one required rating field and the ratings 5, 5, 3
    and 1, the aggregator reports response rate 100, average rating 3.5
    and the common responses (1, once, 25), (3, once, 25) and (5, twice,
    50): the ratings 2 and 4, which nobody gave, have no entry, and the
    percentages are taken over the four answers. *)
Theorem rating_scenario (loc : Location) (now now' : Time) :
  exists a,
    calculateAnalytics loc now now' ratings_5531 "f1" [rating_field] = Ok a /\
    total_responses (FieldAnalytics_ a) = 4 /\
    field_analytics (FieldAnalytics_ a) =
      [{| field_id := "q1"; field_label := "Rating"; field_type := "rating";
          response_rate := 100%float; skip_rate := 0%float;
          unique_responses := 0;
          common_responses :=
            [{| value := VInt 1; cr_count := 1; percentage := 25%float |};
             {| value := VInt 3; cr_count := 1; percentage := 25%float |};
             {| value := VInt 5; cr_count := 2; percentage := 50%float |}];
          average_rating := Some 3.5%float |}].
Proof.
  unfold calculateAnalytics.
  destruct (calculateCompletionMetrics ratings_5531 "f1" [rating_field])
    as [completionRate avgTime].
  assert (Hfields :
    fields_loop ratings_5531 "f1" [rating_field]
      (CountDocuments ratings_5531 (of_form "f1")) =
    Ok [{| field_id := "q1"; field_label := "Rating"; field_type := "rating";
           response_rate := 100%float; skip_rate := 0%float;
           unique_responses := 0;
           common_responses :=
             [{| value := VInt 1; cr_count := 1; percentage := 25%float |};
              {| value := VInt 3; cr_count := 1; percentage := 25%float |};
              {| value := VInt 5; cr_count := 2; percentage := 50%float |}];
           average_rating := Some 3.5%float |}]).
  { vm_compute. reflexivity. }
  rewrite Hfields. simpl. eexists. split; [reflexivity|]. simpl.
  split; reflexivity.
Qed.












End AnalyticsSpec.

(** * Further properties of the hub *)

Module HubMore.
Import Hub HubSpec.

(** X1. The whole of a general broadcast: [BroadcastGeneral] hands the
    serialised message to [Run], whose fan-out appends it to the queue of
    exactly the registered clients that have room, whatever their topic. *)
Theorem broadcast_general_recipients
    (json_Marshal : Message -> option bytes) (order : list addr)
    (messageType : string) (data : Data) (req : Request) (σ : State) :
  registered_open σ ->
  iteration_order order σ ->
  BroadcastGeneral json_Marshal messageType data = Some req ->
  exists jsonData σ',
    json_Marshal {| msg_Type := messageType; msg_FormID := "";
                    msg_Data := data; msg_EventID := "" |} = Some jsonData /\
    req = ReqBroadcast jsonData /\
    Run_step order req σ = Ok σ' /\
    forall c, received σ σ' jsonData c <->
      exists b cl, Clients σ !! c = Some b /\ heap σ !! c = Some cl /\
        chan_full (Send cl) = false.
Proof.
  intros Hwf Hord Hreq. unfold BroadcastGeneral in Hreq.
  destruct (json_Marshal _) as [jsonData|] eqn:Hm; [|discriminate].
  injection Hreq as <-. exists jsonData.
  destruct (fanout_registered (fun _ => true) jsonData order σ Hwf Hord)
    as (σ' & Hrun & _ & Hnone & Hin).
  exists σ'. split; [reflexivity|]. split; [reflexivity|]. split.
  { simpl. unfold Run_broadcast.
    by rewrite (range_Clients_ext _ _ order (send_or_evict_fanout jsonData)). }
  intros c. split.
  - intros (cl & cl' & Hcl & Hcl' & Hbuf).
    destruct (Clients σ !! c) as [b|] eqn:Hb.
    + destruct (Hin c b cl Hb Hcl) as [E1 _].
      rewrite Hcl' in E1. injection E1 as ->.
      unfold fanout_client in Hbuf.
      destruct (chan_full (Send cl)) eqn:Hfull; simpl in Hbuf;
        [by apply buf_app_neq in Hbuf|].
      by exists b, cl.
    + destruct (Hnone c Hb) as [E1 _]. rewrite Hcl, Hcl' in E1.
      injection E1 as ->. by apply buf_app_neq in Hbuf.
  - intros (b & cl & Hb & Hcl & Hroom).
    destruct (Hin c b cl Hb Hcl) as [E1 _].
    unfold fanout_client in E1. rewrite Hroom in E1. simpl in E1.
    exists cl, (delivered jsonData cl). repeat split; done.
Qed.

Lemma broadcast_general_recipients_witness :
  exists σ',
    Run_step [3; 1; 4; 2]%positive
      (ReqBroadcast (list_byte_of_string "form_created:")) example_state = Ok σ' /\
    received example_state σ' (list_byte_of_string "form_created:") 3%positive.
Proof.
  destruct (broadcast_general_recipients example_Marshal [3; 1; 4; 2]%positive
              "form_created" DNil _ example_state
              registered_open_example iteration_order_example eq_refl)
    as (jsonData & σ' & Hm & _ & Hrun & Hrecv).
  injection Hm as <-.
  exists σ'. split; [exact Hrun|].
  apply Hrecv. exists true. eexists. split; [reflexivity|]. split; reflexivity.
Defined.

(** What a broadcast to a form does to one registered client. *)
Lemma BroadcastToForm_one_client json_Marshal order formID messageType data
    jsonData σ :
  registered_open σ -> iteration_order order σ ->
  json_Marshal {| msg_Type := messageType; msg_FormID := formID;
                  msg_Data := data; msg_EventID := "" |} = Some jsonData ->
  exists σ', BroadcastToForm json_Marshal order formID messageType data σ = Ok σ' /\
    registered_open σ' /\
    forall c b cl, Clients σ !! c = Some b -> heap σ !! c = Some cl ->
      heap σ' !! c = Some (fanout_client (selects_form formID) jsonData cl).1 /\
      Clients σ' !! c =
        (if (fanout_client (selects_form formID) jsonData cl).2
         then Some b else None) /\
      (received σ σ' jsonData c <->
         selects_form formID cl = true /\ chan_full (Send cl) = false).
Proof.
  intros Hwf Hord Hm.
  destruct (fanout_registered (selects_form formID) jsonData order σ Hwf Hord)
    as (σ' & Hrun & Hwf' & _ & Hin).
  exists σ'. split; [by rewrite (BroadcastToForm_fanout _ _ _ _ _ _ _ Hm)|].
  split; [done|]. intros c b cl Hb Hcl.
  destruct (Hin c b cl Hb Hcl) as [E1 E2]. split; [done|]. split; [done|].
  unfold received. split.
  - intros (cl0 & cl' & Hcl0 & Hcl' & Hbuf).
    assert (cl0 = cl) as -> by congruence.
    rewrite Hcl' in E1. injection E1 as ->. unfold fanout_client in Hbuf.
    destruct (selects_form formID cl); simpl in Hbuf;
      [|by apply buf_app_neq in Hbuf].
    destruct (chan_full (Send cl)); simpl in Hbuf;
      [by apply buf_app_neq in Hbuf|done].
  - intros [Hsel Hroom]. unfold fanout_client in E1.
    rewrite Hsel, Hroom in E1. simpl in E1.
    exists cl, (delivered jsonData cl). repeat split; done.
Qed.

Lemma client_eta (cl : Client) :
  set_Send {| buf := buf (Send cl); cap := cap (Send cl);
              closed := closed (Send cl) |} cl = cl.
Proof. by destruct cl as [[] ?]. Qed.

(** X2. Successive broadcasts handled by [Run] reach the queue of a registered
    client in the order in which [Run] handles them, as long as the queue
    has room for them. *)
Theorem broadcasts_queue_in_order (ms : list bytes) :
  forall (orders : list (list addr)) (c : addr) (b : bool) (cl : Client)
         (σ : State),
  registered_open σ ->
  Clients σ !! c = Some b ->
  heap σ !! c = Some cl ->
  (length (buf (Send cl)) + length ms <= cap (Send cl))%nat ->
  length orders = length ms ->
  Forall (fun o => NoDup o /\ c ∈ o) orders ->
  exists σ',
    Run orders (map ReqBroadcast ms) σ = Ok σ' /\
    Clients σ' !! c = Some b /\
    heap σ' !! c =
      Some (set_Send {| buf := (buf (Send cl) ++ ms)%list; cap := cap (Send cl);
                        closed := false |} cl).
Proof.
  induction ms as [|m ms IH]; intros orders c b cl σ Hwf Hb Hcl Hroom Hlen Hord.
  - exists σ. split; [reflexivity|]. split; [done|].
    destruct (Hwf c b Hb) as (cl0 & Hcl0 & Hopen).
    assert (cl0 = cl) as -> by congruence.
    rewrite app_nil_r, <- Hopen, client_eta. done.
  - destruct orders as [|o orders]; [discriminate|].
    apply Forall_cons in Hord as [[Hnd Hin] Hord].
    simpl in Hlen, Hroom. simpl. unfold Run_broadcast.
    rewrite (range_Clients_ext _ _ o (send_or_evict_fanout m)).
    destruct (fanout_range (fun _ => true) m o σ Hnd Hwf)
      as (σ1 & Hrun & Hwf1 & _ & _ & Hall).
    rewrite Hrun. simpl.
    destruct (Hall c b cl Hin Hb Hcl) as [E1 E2].
    unfold fanout_client in E1, E2.
    assert (Hfull : chan_full (Send cl) = false).
    { unfold chan_full. apply Nat.leb_gt. lia. }
    rewrite Hfull in E1, E2. simpl in E1, E2.
    destruct (IH orders c b (delivered m cl) σ1 Hwf1 E2 E1) as (σ' & Hrun' & Hb' & Hcl').
    + simpl. rewrite length_app. simpl. lia.
    + lia.
    + done.
    + exists σ'. split; [done|]. split; [done|].
      rewrite Hcl'. simpl. by rewrite <- app_assoc.
Qed.

Lemma broadcasts_queue_in_order_witness :
  exists σ',
    Run [[3; 1; 4; 2]; [1; 2; 3; 4]]%positive
      (map ReqBroadcast [list_byte_of_string "a"; list_byte_of_string "b"])
      example_state = Ok σ' /\
    (buf ∘ Send) <$> heap σ' !! 3%positive =
      Some [list_byte_of_string "a"; list_byte_of_string "b"].
Proof.
  destruct (broadcasts_queue_in_order
              [list_byte_of_string "a"; list_byte_of_string "b"]
              [[3; 1; 4; 2]; [1; 2; 3; 4]]%positive 3%positive true _
              example_state registered_open_example eq_refl eq_refl)
    as (σ' & Hrun & _ & Hcl).
  - simpl. lia.
  - reflexivity.
  - repeat (apply Forall_cons; split);
      [split; apply (bool_decide_unpack _); vm_compute; exact I..|constructor].
  - exists σ'. split; [exact Hrun|]. rewrite Hcl. reflexivity.
Defined.

(** X3. An accepted connection is registered without a topic, with an open
    queue of capacity 256 that holds the greeting (if it serialises), no
    other client is touched, and from then on a broadcast to any form
    whatsoever is queued for it. *)
Theorem accepted_connection_hears_every_form
    (json_Marshal : Message -> option bytes) (c : addr) (ts : Z) (σ : State) :
  registered_open σ ->
  heap σ !! c = None ->
  exists σ1,
    HandleWebSocket json_Marshal c ts σ = Ok σ1 /\
    Clients σ1 !! c = Some true /\
    heap σ1 !! c =
      Some {| Send :=
                {| buf :=
                     match json_Marshal
                             {| msg_Type := "ws_greeting"; msg_FormID := "";
                                msg_Data := DMap [("message", DString "connected");
                                                  ("ts", DInt ts)];
                                msg_EventID := "" |} with
                     | Some b => [b]
                     | None => []
                     end;
                   cap := 256; closed := false |};
              FormID := "" |} /\
    (forall c', c' <> c -> same_at c' σ σ1) /\
    forall order formID messageType data jsonData,
      iteration_order order σ1 ->
      json_Marshal {| msg_Type := messageType; msg_FormID := formID;
                      msg_Data := data; msg_EventID := "" |} = Some jsonData ->
      exists σ2,
        BroadcastToForm json_Marshal order formID messageType data σ1 = Ok σ2 /\
        received σ1 σ2 jsonData c.
Proof.
  intros Hwf Hfresh.
  destruct (HandleWebSocket json_Marshal c ts σ) as [σ1|msg] eqn:Hrun.
  2: { exfalso. revert Hrun. unfold HandleWebSocket. simpl.
       destruct (json_Marshal _); [|done].
       unfold deref. simpl. rewrite lookup_insert_eq. done. }
  pose proof (HandleWebSocket_registered_open _ _ _ _ _ Hwf Hfresh Hrun) as Hwf1.
  exists σ1. split; [reflexivity|].
  assert (Hshape :
    Clients σ1 !! c = Some true /\
    heap σ1 !! c =
      Some {| Send :=
                {| buf :=
                     match json_Marshal
                             {| msg_Type := "ws_greeting"; msg_FormID := "";
                                msg_Data := DMap [("message", DString "connected");
                                                  ("ts", DInt ts)];
                                msg_EventID := "" |} with
                     | Some b => [b]
                     | None => []
                     end;
                   cap := 256; closed := false |};
              FormID := "" |} /\
    (forall c', c' <> c -> same_at c' σ σ1)).
  { revert Hrun. unfold HandleWebSocket. simpl.
    destruct (json_Marshal _) as [g|].
    - unfold deref. simpl. rewrite lookup_insert_eq. simpl. intros [= <-]. simpl.
      rewrite !lookup_insert_eq. split; [done|]. split; [done|].
      intros c' Hne. split; simpl; by rewrite ?lookup_insert_ne.
    - intros [= <-]. simpl. rewrite !lookup_insert_eq. split; [done|].
      split; [done|]. intros c' Hne. split; simpl; by rewrite lookup_insert_ne. }
  destruct Hshape as (Hb & Hcl & Hother).
  split; [done|]. split; [done|]. split; [done|].
  intros order formID messageType data jsonData Hord Hm.
  destruct (BroadcastToForm_one_client _ _ _ _ _ _ _ Hwf1 Hord Hm)
    as (σ2 & Hrun2 & _ & Hall).
  exists σ2. split; [done|].
  apply (Hall c true _ Hb Hcl). split; [reflexivity|].
  unfold chan_full. simpl. by destruct (json_Marshal _).
Qed.

Lemma accepted_connection_hears_every_form_witness :
  exists σ1 σ2,
    HandleWebSocket example_Marshal 5%positive 1762170000 example_state = Ok σ1 /\
    BroadcastToForm example_Marshal [5; 3; 1; 4; 2]%positive "B" "form_updated"
      DNil σ1 = Ok σ2 /\
    received σ1 σ2 (list_byte_of_string "form_updated:B") 5%positive.
Proof.
  destruct (accepted_connection_hears_every_form example_Marshal 5%positive
              1762170000 example_state registered_open_example eq_refl)
    as (σ1 & Hrun & _ & _ & _ & Hlater).
  exists σ1.
  destruct (Hlater [5; 3; 1; 4; 2]%positive "B" "form_updated" DNil
              (list_byte_of_string "form_updated:B")) as (σ2 & Hrun2 & Hrecv).
  - apply iteration_orderb_sound.
    pose proof Hrun as Hrun'. vm_compute in Hrun'. injection Hrun' as <-.
    vm_compute. reflexivity.
  - reflexivity.
  - exists σ2. split; [exact Hrun|]. split; [exact Hrun2|exact Hrecv].
Defined.

(** X4. A [subscribe_form] message with a string sets the topic of its client
    and of no other; a later broadcast to a form is queued for that client
    exactly if the topic is that form or the empty string and the queue has
    room. *)
Theorem subscription_routes_broadcasts
    (json_Marshal : Message -> option bytes) (c : addr) (b : bool)
    (cl : Client) (msg : Message) (topic : string) (σ : State) :
  registered_open σ ->
  Clients σ !! c = Some b ->
  heap σ !! c = Some cl ->
  msg_Type msg = "subscribe_form" ->
  msg_Data msg = DString topic ->
  exists σ1,
    readPump_dispatch json_Marshal c msg σ = Ok σ1 /\
    heap σ1 !! c = Some (set_FormID topic cl) /\
    Clients σ1 = Clients σ /\
    (forall c', c' <> c -> heap σ1 !! c' = heap σ !! c') /\
    forall order formID messageType data jsonData,
      iteration_order order σ1 ->
      json_Marshal {| msg_Type := messageType; msg_FormID := formID;
                      msg_Data := data; msg_EventID := "" |} = Some jsonData ->
      exists σ2,
        BroadcastToForm json_Marshal order formID messageType data σ1 = Ok σ2 /\
        (received σ1 σ2 jsonData c <->
           (topic = "" \/ topic = formID) /\ chan_full (Send cl) = false).
Proof.
  intros Hwf Hb Hcl Htype Hdata.
  assert (Hrun : readPump_dispatch json_Marshal c msg σ =
                 Ok (set_client c (set_FormID topic cl) σ)).
  { unfold readPump_dispatch. rewrite Htype, Hdata. simpl.
    unfold deref. by rewrite Hcl. }
  pose proof (readPump_dispatch_registered_open _ _ _ _ _ Hwf Hrun) as Hwf1.
  eexists. split; [exact Hrun|]. simpl.
  split; [apply lookup_insert_eq|]. split; [done|].
  split; [intros c' Hne; by rewrite lookup_insert_ne|].
  intros order formID messageType data jsonData Hord Hm.
  destruct (BroadcastToForm_one_client _ _ _ _ _ _ _ Hwf1 Hord Hm)
    as (σ2 & Hrun2 & _ & Hall).
  exists σ2. split; [done|].
  destruct (Hall c b (set_FormID topic cl) Hb (lookup_insert_eq _ _ _))
    as (_ & _ & Hiff).
  rewrite Hiff. unfold selects_form. simpl.
  rewrite orb_true_iff, !String.eqb_eq. tauto.
Qed.

Lemma subscription_routes_broadcasts_witness :
  exists σ1 σ2,
    readPump_dispatch example_Marshal 1%positive
      {| msg_Type := "subscribe_form"; msg_FormID := "";
         msg_Data := DString "B"; msg_EventID := "" |} example_state = Ok σ1 /\
    BroadcastToForm example_Marshal [3; 1; 4; 2]%positive "A" "form_updated"
      DNil σ1 = Ok σ2 /\
    ~ received σ1 σ2 (list_byte_of_string "form_updated:A") 1%positive.
Proof.
  destruct (subscription_routes_broadcasts example_Marshal 1%positive true _
              {| msg_Type := "subscribe_form"; msg_FormID := "";
                 msg_Data := DString "B"; msg_EventID := "" |} "B"
              example_state registered_open_example eq_refl eq_refl eq_refl
              eq_refl)
    as (σ1 & Hrun & _ & _ & _ & Hlater).
  exists σ1.
  destruct (Hlater [3; 1; 4; 2]%positive "A" "form_updated" DNil
              (list_byte_of_string "form_updated:A")) as (σ2 & Hrun2 & Hiff).
  - apply iteration_orderb_sound.
    pose proof Hrun as Hrun'. vm_compute in Hrun'. injection Hrun' as <-.
    vm_compute. reflexivity.
  - reflexivity.
  - exists σ2. split; [exact Hrun|]. split; [exact Hrun2|].
    intros Hr. apply Hiff in Hr as [[?|?] _]; discriminate.
Defined.

(** X5. One turn of the read loop changes nothing but its own client, of which
    it may change the topic or extend the queue by one pong; it never
    changes the registry, the capacity of the queue or whether it is
    closed. Frames that are not text, that do not decode, of an unknown
    type, or [subscribe_form] without a string, change nothing at all. *)
Theorem read_loop_touches_own_client_only
    (json_Marshal : Message -> option bytes)
    (json_Unmarshal : bytes -> option Message) (c : addr) (isText : bool)
    (payload : bytes) (σ σ' : State) :
  readPump_frame json_Marshal json_Unmarshal c isText payload σ = Ok σ' ->
  Clients σ' = Clients σ /\
  (forall c', c' <> c -> heap σ' !! c' = heap σ !! c') /\
  (heap σ !! c = None -> σ' = σ) /\
  (forall cl, heap σ !! c = Some cl ->
     exists cl', heap σ' !! c = Some cl' /\
       cap (Send cl') = cap (Send cl) /\
       closed (Send cl') = closed (Send cl) /\
       (buf (Send cl') = buf (Send cl) \/
        FormID cl' = FormID cl /\
        exists pong, buf (Send cl') = (buf (Send cl) ++ [pong])%list)) /\
  (isText = false \/ json_Unmarshal payload = None \/
   (exists msg, json_Unmarshal payload = Some msg /\
      (msg_Type msg <> "subscribe_form" /\ msg_Type msg <> "ping" \/
       msg_Type msg = "subscribe_form" /\ forall s, msg_Data msg <> DString s)) ->
   σ' = σ).
Proof.
  intros Hrun.
  assert (Hsame : forall cl, heap σ !! c = Some cl ->
            exists cl', heap σ !! c = Some cl' /\
              cap (Send cl') = cap (Send cl) /\
              closed (Send cl') = closed (Send cl) /\
              (buf (Send cl') = buf (Send cl) \/
               FormID cl' = FormID cl /\
               exists pong, buf (Send cl') = (buf (Send cl) ++ [pong])%list)).
  { intros cl Hcl. exists cl. repeat split; try done. by left. }
  unfold readPump_frame in Hrun.
  destruct isText;
    [|injection Hrun as <-; repeat split; try done; intros; by apply Hsame].
  destruct (json_Unmarshal payload) as [msg|] eqn:Hdec;
    [|injection Hrun as <-; repeat split; try done; intros; by apply Hsame].
  unfold readPump_dispatch in Hrun.
  destruct (String.eqb (msg_Type msg) "subscribe_form") eqn:Hsub.
  - apply String.eqb_eq in Hsub.
    destruct (msg_Data msg) as [|topic| |] eqn:Hdata;
      try (injection Hrun as <-; repeat split; try done; intros; by apply Hsame).
    unfold deref in Hrun. destruct (heap σ !! c) as [cl|] eqn:Hcl; [|done].
    simpl in Hrun. injection Hrun as <-. simpl.
    split; [done|]. split; [intros c' Hne; by rewrite lookup_insert_ne|].
    split; [done|]. split.
    + intros cl0 [= <-]. eexists. rewrite lookup_insert_eq.
      split; [done|]. simpl. repeat split; try done. by left.
    + intros [?|[?|(msg0 & Hmsg0 & [[Hn _]|[_ Hn]])]]; try done;
        injection Hmsg0 as <-; [done|]. by destruct (Hn topic).
  - apply String.eqb_neq in Hsub.
    destruct (String.eqb (msg_Type msg) "ping") eqn:Hping.
    + apply String.eqb_eq in Hping.
      destruct (json_Marshal _) as [pong|];
        [|injection Hrun as <-; repeat split; try done; intros; by apply Hsame].
      unfold deref in Hrun. destruct (heap σ !! c) as [cl|] eqn:Hcl; [|done].
      simpl in Hrun. unfold chan_try_send in Hrun.
      destruct (closed (Send cl)) eqn:Hopen; [done|].
      destruct (chan_full (Send cl)); simpl in Hrun; injection Hrun as <-; simpl.
      * split; [done|]. split; [intros c' Hne; by rewrite lookup_insert_ne|].
        split; [done|]. split.
        -- intros cl0 [= <-]. eexists. rewrite lookup_insert_eq.
           split; [done|]. simpl. repeat split; try done. by left.
        -- intros [?|[?|(msg0 & Hmsg0 & [[_ Hn]|[Hn _]])]]; try done;
             injection Hmsg0 as <-; congruence.
      * split; [done|]. split; [intros c' Hne; by rewrite lookup_insert_ne|].
        split; [done|]. split.
        -- intros cl0 [= <-]. eexists. rewrite lookup_insert_eq.
           split; [done|]. simpl. repeat split; try done.
           right. split; [done|]. by eexists.
        -- intros [?|[?|(msg0 & Hmsg0 & [[_ Hn]|[Hn _]])]]; try done;
             injection Hmsg0 as <-; congruence.
    + injection Hrun as <-. repeat split; try done; intros; by apply Hsame.
Qed.

Lemma read_loop_touches_own_client_only_witness :
  exists σ',
    readPump_frame example_Marshal
      (fun _ => Some {| msg_Type := "ping"; msg_FormID := ""; msg_Data := DNil;
                        msg_EventID := "" |})
      1%positive true [] example_state = Ok σ' /\
    Clients σ' = Clients example_state /\
    heap σ' !! 2%positive = heap example_state !! 2%positive.
Proof.
  eexists. split; [reflexivity|].
  destruct (read_loop_touches_own_client_only example_Marshal
              (fun _ => Some {| msg_Type := "ping"; msg_FormID := "";
                                msg_Data := DNil; msg_EventID := "" |})
              1%positive true [] example_state _ eq_refl)
    as (Hreg & Hother & _).
  split; [exact Hreg|]. apply Hother. discriminate.
Defined.

(** X6. A client evicted by a broadcast is gone from the registry, and the
    unregister request that its read loop sends when it exits later is
    handled without closing the channel a second time: it changes
    nothing. This holds for the broadcast of [Run] and, when the client is
    selected, for [BroadcastToForm]. *)
Theorem eviction_then_exit_is_clean
    (json_Marshal : Message -> option bytes) (order : list addr)
    (message : bytes) (formID messageType : string) (data : Data)
    (jsonData : bytes) (c : addr) (b : bool) (cl : Client) (σ : State) :
  registered_open σ ->
  iteration_order order σ ->
  Clients σ !! c = Some b ->
  heap σ !! c = Some cl ->
  chan_full (Send cl) = true ->
  json_Marshal {| msg_Type := messageType; msg_FormID := formID;
                  msg_Data := data; msg_EventID := "" |} = Some jsonData ->
  (exists σ1, Run_step order (ReqBroadcast message) σ = Ok σ1 /\
     Clients σ1 !! c = None /\ readPump_exit c σ1 = Ok σ1) /\
  (selects_form formID cl = true ->
   exists σ1, BroadcastToForm json_Marshal order formID messageType data σ = Ok σ1 /\
     Clients σ1 !! c = None /\ readPump_exit c σ1 = Ok σ1).
Proof.
  intros Hwf Hord Hb Hcl Hfull Hm. split.
  - destruct (fanout_registered (fun _ => true) message order σ Hwf Hord)
      as (σ1 & Hrun & _ & _ & Hin).
    exists σ1. split.
    { simpl. unfold Run_broadcast.
      by rewrite (range_Clients_ext _ _ order (send_or_evict_fanout message)). }
    destruct (Hin c b cl Hb Hcl) as [_ E2].
    unfold fanout_client in E2. rewrite Hfull in E2. simpl in E2.
    split; [done|]. unfold readPump_exit. simpl. unfold Run_unregister.
    by rewrite E2.
  - intros Hsel.
    destruct (BroadcastToForm_one_client _ _ _ _ _ _ _ Hwf Hord Hm)
      as (σ1 & Hrun & _ & Hall).
    exists σ1. split; [done|].
    destruct (Hall c b cl Hb Hcl) as (_ & E2 & _).
    unfold fanout_client in E2. rewrite Hsel, Hfull in E2. simpl in E2.
    split; [done|]. unfold readPump_exit. simpl. unfold Run_unregister.
    by rewrite E2.
Qed.

Lemma eviction_then_exit_is_clean_witness :
  exists σ1,
    Run_step [3; 1; 4; 2]%positive (ReqBroadcast []) example_state = Ok σ1 /\
    Clients σ1 !! 2%positive = None /\ readPump_exit 2%positive σ1 = Ok σ1.
Proof.
  exact (proj1 (eviction_then_exit_is_clean example_Marshal [3; 1; 4; 2]%positive
                  [] "A" "response_submitted" DNil
                  (list_byte_of_string "response_submitted:A") 2%positive true _
                  example_state registered_open_example iteration_order_example
                  eq_refl eq_refl eq_refl eq_refl)).
Defined.

(** X7. After a client has been evicted by a broadcast its read loop may still
    be running. A [ping] that it handles then, whose pong serialises, is
    sent on the closed channel: the handler panics. *)
Theorem ping_after_eviction_panics
    (json_Marshal : Message -> option bytes) (order : list addr)
    (message pong : bytes) (msg : Message)
    (c : addr) (b : bool) (cl : Client) (σ : State) :
  registered_open σ ->
  iteration_order order σ ->
  Clients σ !! c = Some b ->
  heap σ !! c = Some cl ->
  chan_full (Send cl) = true ->
  msg_Type msg = "ping" ->
  json_Marshal {| msg_Type := "pong"; msg_FormID := ""; msg_Data := DString "pong";
                  msg_EventID := "" |} = Some pong ->
  exists σ1,
    Run_step order (ReqBroadcast message) σ = Ok σ1 /\
    readPump_dispatch json_Marshal c msg σ1 = Panic "send on closed channel".
Proof.
  intros Hwf Hord Hb Hcl Hfull Hping Hpong.
  destruct (fanout_registered (fun _ => true) message order σ Hwf Hord)
    as (σ1 & Hrun & _ & _ & Hin).
  exists σ1. split.
  { simpl. unfold Run_broadcast.
    by rewrite (range_Clients_ext _ _ order (send_or_evict_fanout message)). }
  destruct (Hin c b cl Hb Hcl) as [E1 _].
  unfold fanout_client in E1. rewrite Hfull in E1. simpl in E1.
  unfold readPump_dispatch. rewrite Hping. simpl. rewrite Hpong.
  unfold deref. rewrite E1. reflexivity.
Qed.

Lemma ping_after_eviction_panics_witness :
  exists σ1,
    Run_step [3; 1; 4; 2]%positive (ReqBroadcast []) example_state = Ok σ1 /\
    readPump_dispatch example_Marshal 2%positive
      {| msg_Type := "ping"; msg_FormID := ""; msg_Data := DNil; msg_EventID := "" |}
      σ1 = Panic "send on closed channel".
Proof.
  exact (ping_after_eviction_panics example_Marshal [3; 1; 4; 2]%positive [] _
           {| msg_Type := "ping"; msg_FormID := ""; msg_Data := DNil;
              msg_EventID := "" |} 2%positive true _ example_state
           registered_open_example iteration_order_example
           eq_refl eq_refl eq_refl eq_refl eq_refl).
Defined.

End HubMore.

(** * Properties of the write loop *)

Module WritePumpSpec.
Import Hub WritePump.

(** X8. Once its channel is closed (by an eviction or an unregister), the
    write loop still writes every message left in the queue, in queue
    order, then the close frame, and returns with the connection closed:
    provided the writes succeed and the loop gets to receive often enough.
    Keepalive pings may come in between. *)
Theorem closed_queue_is_flushed (turns : list Turn) :
  forall (ch : Chan) (conn : Conn),
  closed ch = true ->
  forallb write_succeeds turns = true ->
  (length (buf ch) < length (List.filter from_send turns))%nat ->
  exists ch' conn',
    writePump turns ch conn = (ch', conn', false) /\
    buf ch' = [] /\
    conn_closed conn' = true /\
    List.filter not_ping (written conn') =
      (List.filter not_ping (written conn) ++ map TextMessage (buf ch)
       ++ [CloseMessage])%list.
Proof.
  induction turns as [|t turns IH]; intros ch conn Hclosed Hok Hturns.
  - simpl in Hturns. lia.
  - simpl in Hok. apply andb_true_iff in Hok as [Ht Hok].
    destruct t as [write_ok|write_ok]; simpl in Ht; subst write_ok; simpl.
    + destruct (buf ch) as [|message rest] eqn:Hbuf.
      * rewrite Hclosed. eexists _, _. split; [reflexivity|].
        split; [done|]. split; [done|]. simpl.
        by rewrite List.filter_app.
      * simpl in Hturns.
        destruct (IH {| buf := rest; cap := cap ch; closed := closed ch |}
                     (WriteMessage (TextMessage message) true conn))
          as (ch' & conn' & Hrun & Hempty & Hcc & Hw); [done|done|simpl; lia|].
        exists ch', conn'. split; [done|]. split; [done|]. split; [done|].
        rewrite Hw. simpl. rewrite List.filter_app. simpl.
        by rewrite <- app_assoc.
    + simpl in Hturns.
      destruct (IH ch (WriteMessage PingMessage true conn))
        as (ch' & conn' & Hrun & Hempty & Hcc & Hw); [done|done|done|].
      exists ch', conn'. split; [done|]. split; [done|]. split; [done|].
      rewrite Hw. simpl. rewrite List.filter_app. simpl.
      by rewrite app_nil_r.
Qed.

Lemma closed_queue_is_flushed_witness :
  writePump [FromSend true; FromTicker true; FromSend true; FromSend true]
    {| buf := [list_byte_of_string "a"; list_byte_of_string "b"]; cap := 256;
       closed := true |}
    {| written := []; conn_closed := false |} =
  ({| buf := []; cap := 256; closed := true |},
   {| written := [TextMessage (list_byte_of_string "a"); PingMessage;
                  TextMessage (list_byte_of_string "b"); CloseMessage];
      conn_closed := true |},
   false).
Proof.
  destruct (closed_queue_is_flushed
              [FromSend true; FromTicker true; FromSend true; FromSend true]
              {| buf := [list_byte_of_string "a"; list_byte_of_string "b"];
                 cap := 256; closed := true |}
              {| written := []; conn_closed := false |} eq_refl eq_refl)
    as (ch' & conn' & Hrun & _).
  - simpl. lia.
  - reflexivity.
Defined.

End WritePumpSpec.

(** * Properties of the request handlers *)

Module ControllersSpec.
Import Analytics Controllers.

Lemma countChar_nonneg (s : string) (c : Ascii.ascii) : 0 <= countChar s c.
Proof. induction s as [|a s IH]; simpl; [lia|]. destruct (Ascii.eqb a c); lia. Qed.

Lemma countChar_app (s t : string) (c : Ascii.ascii) :
  countChar (s +:+ t) c = countChar s c + countChar t c.
Proof.
  induction s as [|a s IH]; [done|].
  simpl. rewrite IH. destruct (Ascii.eqb a c); lia.
Qed.

Lemma countChar_split (s : string) (c : Ascii.ascii) :
  countChar s c = 1 ->
  exists l d, s = l +:+ String c d /\ countChar l c = 0 /\ countChar d c = 0.
Proof.
  induction s as [|a s IH]; simpl; [lia|].
  destruct (Ascii.eqb a c) eqn:E; intros H.
  - apply Ascii.eqb_eq in E as ->. exists EmptyString, s. simpl.
    repeat split. pose proof (countChar_nonneg s c). lia.
  - destruct IH as (l & d & -> & Hl & Hd); [lia|].
    exists (String a l), d. simpl. rewrite E, Hl. repeat split; lia.
Qed.

Lemma get_last_app (l t : string) :
  t <> "" ->
  String.get (String.length (l +:+ t) - 1) (l +:+ t) =
  String.get (String.length t - 1) t.
Proof.
  intros Ht. induction l as [|a l IH]; [done|].
  rewrite <- IH. change (String a l +:+ t) with (String a (l +:+ t)).
  cbn [String.length].
  destruct (String.length (l +:+ t)) as [|n] eqn:E.
  - destruct l; [by destruct t|discriminate].
  - simpl. by rewrite Nat.sub_0_r.
Qed.

Lemma get_last_other (t : string) (c : Ascii.ascii) :
  t <> "" -> countChar t c = 0 ->
  match String.get (String.length t - 1) t with
  | Some a => Ascii.eqb a c
  | None => false
  end = false.
Proof.
  induction t as [|a t IH]; [done|]. intros _ H. simpl in H.
  pose proof (countChar_nonneg t c).
  destruct (Ascii.eqb a c) eqn:E; [lia|].
  destruct t as [|b t]; [simpl; exact E|].
  change (String a (String b t)) with (String a "" +:+ String b t).
  rewrite (get_last_app (String a "") (String b t)) by done.
  apply IH; [done|lia].
Qed.

(** X9. [isValidEmail] accepts exactly the byte strings of more than 3 and
    fewer than 255 bytes that consist of a non-empty part without ['@'], one
    ['@'] and another non-empty part without ['@']. Nothing else is
    looked at: no dot is needed and blanks are accepted. *)
Theorem email_accepted_iff (email : string) :
  isValidEmail email = true <->
  (3 < String.length email < 255)%nat /\
  exists loc domain,
    email = loc +:+ String at_sign domain /\
    loc <> "" /\ domain <> "" /\
    countChar loc at_sign = 0 /\ countChar domain at_sign = 0.
Proof.
  unfold isValidEmail. rewrite !andb_true_iff, !negb_true_iff.
  rewrite Nat.ltb_lt, Nat.ltb_lt, Z.eqb_eq. split.
  - intros ((((Hlo & Hhi) & Hfirst) & Hlast) & Hcount).
    split; [lia|].
    destruct (countChar_split _ _ Hcount) as (l & d & -> & Hl & Hd).
    exists l, d. repeat split; try done.
    + intros ->. by vm_compute in Hfirst.
    + intros ->. rewrite get_last_app in Hlast by done.
      by vm_compute in Hlast.
  - intros (Hlen & l & d & -> & Hl & Hd & Hcl & Hcd).
    repeat split; try lia.
    + destruct l as [|a l]; [done|]. simpl.
      simpl in Hcl. destruct (Ascii.eqb a at_sign); [|done].
      pose proof (countChar_nonneg l at_sign). lia.
    + rewrite get_last_app by done.
      change (String at_sign d) with (String at_sign "" +:+ d).
      rewrite (get_last_app (String at_sign "") d) by done.
      by rewrite get_last_other.
    + rewrite countChar_app. cbn [countChar]. rewrite Ascii.eqb_refl. lia.
Qed.

Section HandlersSpec.

Context {F : Type} {Float64_F : Float64 F} {Float64Order_F : Float64Order F}.

Implicit Types (st : @Store F) (r : @FormResponse F) (fv : @FormFieldV F)
  (form : @Form F).

Lemma validate_field_completed (answers : gmap string Value) fv r :
  Responses r = answers ->
  validate_field answers fv = None ->
  Required (base fv) = true ->
  completed r (ID (base fv)) = true.
Proof.
  intros <- H Hreq. unfold validate_field in H. cbv zeta in H.
  rewrite Hreq in H. unfold completed.
  destruct (Responses r !! ID (base fv)) as [v|]; [|done].
  by destruct (nil_or_empty v).
Qed.

Lemma validateResponse_complete (answers : gmap string Value)
    (fields : list FormFieldV) r :
  Responses r = answers ->
  validateResponse answers fields = None ->
  isComplete (map base fields) r = true.
Proof.
  intros Hr. unfold isComplete, requiredFields.
  induction fields as [|fv fields IH]; [done|]. simpl. intros H.
  destruct (validate_field answers fv) eqn:Hfv; [done|].
  destruct (Required (base fv)) eqn:Hreq; [|by apply IH].
  simpl. rewrite (validate_field_completed answers fv r Hr Hfv Hreq).
  by apply IH.
Qed.

(** The two ways in which [SubmitResponse] ends. *)
Lemma SubmitResponse_cases (now : Time) (id : string)
    (body : option SubmitResponseRequest) st :
  (exists objectID form answers,
     ObjectIDFromHex id = Some objectID /\
     body = Some (mkSubmitResponseRequest (Some answers)) /\
     List.find (published_with_id objectID) (forms st) = Some form /\
     validateResponse answers (Fields form) = None /\
     SubmitResponse now id body st =
       (201,
        {| forms := forms st;
           responses :=
             (responses st ++
              [{| FormID := objectID; Responses := answers;
                  CreatedAt := now |}])%list |},
        [CallBroadcastToForm id "response_submitted";
         CallBroadcastToForm objectID "analytics_updated"])) \/
  (exists status, status <> 201 /\
     SubmitResponse now id body st = (status, st, [])).
Proof.
  unfold SubmitResponse.
  destruct (ObjectIDFromHex id) as [objectID|]; [|right; by exists 400].
  destruct body as [[[answers|]]|]; [|right; by exists 400..].
  cbn [req_Responses].
  destruct (List.find _ (forms st)) as [form|] eqn:Hfind; [|right; by exists 404].
  destruct (validateResponse answers (Fields form)) eqn:Hv; [right; by exists 400|].
  left. by exists objectID, form, answers.
Qed.

Lemma CountDocuments_snoc (db : list (@FormResponse F)) r flt :
  CountDocuments (db ++ [r]) flt =
  CountDocuments db flt + (if flt r then 1 else 0).
Proof.
  unfold CountDocuments. rewrite List.filter_app, length_app. simpl.
  destruct (flt r); simpl length; lia.
Qed.

(** X10. A submission is counted exactly when it is answered 201, once, and for
    the form that its path parameter names, in the total as well as in every
    window that reaches back from a time before its arrival; it never changes
    the forms. *)
Theorem submission_is_counted_once (now : Time) (id : string)
    (body : option SubmitResponseRequest) st (formID : ObjectID)
    (since : Time) :
  let result := SubmitResponse now id body st in
  let counted :=
    (result.1.1 =? 201) && bool_decide (ObjectIDFromHex id = Some formID) in
  forms result.1.2 = forms st /\
  CountDocuments (responses result.1.2) (of_form formID) =
    CountDocuments (responses st) (of_form formID) +
    (if counted then 1 else 0) /\
  CountDocuments (responses result.1.2) (of_form_since formID since) =
    CountDocuments (responses st) (of_form_since formID since) +
    (if counted && (since <=? now) then 1 else 0).
Proof.
  cbv zeta.
  destruct (SubmitResponse_cases now id body st)
    as [(objectID & form & answers & Hid & -> & Hfind & Hv & ->)
       |(status & Hs & ->)].
  - cbn [fst snd forms responses]. rewrite Hid.
    rewrite !CountDocuments_snoc. unfold of_form_since, of_form.
    cbn [FormID CreatedAt]. change (201 =? 201) with true. cbn [andb].
    split; [done|].
    destruct (String.eqb_spec objectID formID) as [->|Hne].
    + rewrite bool_decide_eq_true_2 by done. done.
    + rewrite bool_decide_eq_false_2 by congruence. done.
  - cbn [fst snd]. apply Z.eqb_neq in Hs. rewrite Hs. cbn [andb].
    repeat split; lia.
Qed.





(** X13. Whatever the requests, [UpdateForm] and [PublishForm] never change the
    identifier, the share token or the creation time of any form, nor the
    order of the forms, nor any stored response: a link that was shared
    stays valid through every edit. *)
Theorem edits_keep_identity (now : Time) (id : string)
    (body : option UpdateFormRequest) (valid : bool)
    (publish : option string) st :
  let identity (f : @Form F) := (form_ID f, ShareToken f, form_CreatedAt f) in
  let updated := (UpdateForm now id body valid st).1.2 in
  let published := (PublishForm now id publish st).1.2 in
  (map identity (forms updated) = map identity (forms st) /\
   responses updated = responses st) /\
  (map identity (forms published) = map identity (forms st) /\
   responses published = responses st).
Proof.
  cbv zeta.
  assert (Hgen : forall objectID (set : @Form F -> @Form F) fs fs',
    UpdateOne objectID set fs = Some fs' ->
    (forall f, (form_ID (set f), ShareToken (set f), form_CreatedAt (set f)) =
               (form_ID f, ShareToken f, form_CreatedAt f)) ->
    map (fun f => (form_ID f, ShareToken f, form_CreatedAt f)) fs' =
    map (fun f => (form_ID f, ShareToken f, form_CreatedAt f)) fs).
  { intros objectID set fs. induction fs as [|f fs IH]; [done|].
    intros fs' Hup Hset. simpl in Hup. destruct (has_id objectID f).
    - injection Hup as <-. simpl. by rewrite Hset.
    - destruct (UpdateOne objectID set fs) as [fs1|]; [|done].
      injection Hup as <-. simpl. by rewrite (IH fs1). }
  split.
  - unfold UpdateForm.
    destruct (ObjectIDFromHex id) as [objectID|]; [|done].
    destruct body as [req|]; [|done]. destruct valid; [|done]. cbn [negb].
    destruct (UpdateOne objectID _ (forms st)) as [fs'|] eqn:Hup; [|done].
    cbn [fst snd forms responses]. split; [|done].
    by apply (Hgen _ _ _ _ Hup).
  - unfold PublishForm.
    destruct (ObjectIDFromHex id) as [objectID|]; [|done].
    destruct (ParseBool _) as [p|]; [|done].
    destruct (UpdateOne objectID _ (forms st)) as [fs'|] eqn:Hup; [|done].
    cbn [fst snd forms responses]. split; [|done].
    by apply (Hgen _ _ _ _ Hup).
Qed.

Lemma submit_all_forms (subs : list Submission) st :
  forms (submit_all subs st) = forms st.
Proof.
  revert st. induction subs as [|s subs IH]; [done|]. intros st.
  unfold submit_all in *. cbn [fold_left]. rewrite IH.
  destruct (SubmitResponse_cases (sub_now s) (sub_id s) (sub_body s) st)
    as [(? & ? & ? & _ & _ & _ & _ & ->)|(? & _ & ->)]; done.
Qed.

(** Every response that [SubmitResponse] stores completes the required
    fields that its form has at that time. *)
Lemma submit_all_complete (subs : list Submission) st :
  (forall r, In r (responses st) ->
     exists form, In form (forms st) /\ form_ID form = FormID r /\
       isComplete (map base (Fields form)) r = true) ->
  forall r, In r (responses (submit_all subs st)) ->
    exists form, In form (forms st) /\ form_ID form = FormID r /\
      isComplete (map base (Fields form)) r = true.
Proof.
  revert st. induction subs as [|s subs IH]; [done|]. intros st Hst.
  unfold submit_all in *. cbn [fold_left].
  destruct (SubmitResponse_cases (sub_now s) (sub_id s) (sub_body s) st)
    as [(objectID & form & answers & _ & _ & Hfind & Hv & ->)|(? & _ & ->)];
    cbn [fst snd]; [|by apply IH].
  intros r Hr. apply find_some in Hfind as [Hform Hpub].
  apply andb_true_iff in Hpub as [Hfid _]. apply String.eqb_eq in Hfid.
  eapply (IH {| forms := forms st |}); [|exact Hr]. cbn [forms responses].
  intros r' Hr'. apply in_app_or in Hr' as [Hr'|[<-|[]]]; [by apply Hst|].
  exists form. split; [done|]. split; [done|].
  by apply (validateResponse_complete answers).
Qed.

Lemma form_ID_unique (fs : list (@Form F)) (f g : @Form F) :
  List.NoDup (map form_ID fs) -> In f fs -> In g fs ->
  form_ID f = form_ID g -> f = g.
Proof.
  induction fs as [|h fs IH]; [done|]. simpl.
  intros Hnd. inversion Hnd as [|? ? Hnin Hnd']; subst.
  intros [->|Hf] [->|Hg] E; [done| | |by apply IH].
  - destruct Hnin. rewrite E. by apply in_map.
  - destruct Hnin. rewrite <- E. by apply in_map.
Qed.

Lemma count_complete_all (fields : list FormField)
    (db : list (@FormResponse F)) :
  (forall r, In r db -> isComplete fields r = true) ->
  count_complete fields db = Z.of_nat (length db).
Proof.
  unfold count_complete. induction db as [|r db IH]; [done|]. intros H.
  simpl. rewrite (H r) by (by left). simpl length.
  rewrite !Nat2Z.inj_succ, IH; [done|]. intros r' Hr'. apply H. by right.
Qed.

Lemma int64_small (z : Z) : - 2 ^ 63 <= z < 2 ^ 63 -> int64 z = z.
Proof. intros H. unfold int64. rewrite Z.mod_small; lia. Qed.

Lemma chunks_concat {A : Type} (l : list A) (size n : nat) :
  (0 < size)%nat -> (length l <= n * size)%nat ->
  concat (map (fun k => firstn size (skipn (k * size) l)) (seq 0 n)) = l.
Proof.
  intros Hs. revert l. induction n as [|n IH]; intros l Hlen.
  - destruct l; [done|simpl in Hlen; lia].
  - rewrite <- cons_seq, <- seq_shift, map_cons, map_map. cbn [concat].
    rewrite (map_ext _ (fun k => firstn size (skipn (k * size) (skipn size l)))).
    + rewrite IH by (rewrite length_skipn; lia). simpl. apply firstn_skipn.
    + intros k. rewrite skipn_skipn. do 2 f_equal. lia.
Qed.

Lemma insert_newest_Permutation r (l : list (@FormResponse F)) :
  Permutation (insert_newest r l) (r :: l).
Proof.
  induction l as [|h l IH]; [done|]. simpl.
  destruct (CreatedAt h <=? CreatedAt r); [done|].
  rewrite IH. apply perm_swap.
Qed.

Lemma sort_newest_first_Permutation (l : list (@FormResponse F)) :
  Permutation (sort_newest_first l) l.
Proof.
  induction l as [|r l IH]; [done|]. simpl.
  rewrite insert_newest_Permutation. by constructor.
Qed.

Lemma insert_newest_sorted r (l : list (@FormResponse F)) :
  Forall (fun r' => CreatedAt r' <> CreatedAt r) l ->
  newest_first l -> newest_first (insert_newest r l).
Proof.
  induction l as [|h l IH]; [done|]. intros Hne [Hh Hl].
  inversion Hne as [|? ? Hhr Hne']; subst. simpl.
  destruct (Z.leb_spec (CreatedAt h) (CreatedAt r)).
  - simpl. repeat split; try done. constructor; [lia|].
    eapply Forall_impl; [exact Hh|]. simpl. intros; lia.
  - simpl. split; [|by apply IH].
    rewrite insert_newest_Permutation. constructor; [lia|done].
Qed.

Lemma sort_newest_first_sorted (l : list (@FormResponse F)) :
  List.NoDup (map CreatedAt l) -> newest_first (sort_newest_first l).
Proof.
  induction l as [|r l IH]; [done|]. simpl. intros Hnd.
  inversion Hnd as [|? ? Hnin Hnd']; subst.
  apply insert_newest_sorted; [|by apply IH].
  rewrite sort_newest_first_Permutation. apply List.Forall_forall.
  intros r' Hr' E. apply Hnin. rewrite <- E. by apply in_map.
Qed.

(** The answer to a request for the page [k]. *)
Lemma GetResponses_page (id : string) (objectID : ObjectID) (k limit : Z)
    (db : list (@FormResponse F)) :
  ObjectIDFromHex id = Some objectID ->
  Z.of_nat (length db) < 2 ^ 56 ->
  1 <= k < 2 ^ 56 ->
  let size := if (limit <? 1) || (100 <? limit) then 50 else limit in
  GetResponses id k limit db =
    (200,
     Some {| page_responses :=
               firstn (Z.to_nat size)
                 (skipn (Z.to_nat ((k - 1) * size))
                    (sort_newest_first (Find db (of_form objectID))));
             pg_page := k; pg_limit := size;
             pg_total := CountDocuments db (of_form objectID);
             pg_totalPages :=
               (CountDocuments db (of_form objectID) + size - 1) / size |}).
Proof.
  intros Hid Hdb Hk size. unfold GetResponses. rewrite Hid.
  destruct (Z.ltb_spec k 1); [lia|]. fold size.
  assert (Hsize : 1 <= size <= 100).
  { unfold size. destruct (Z.ltb_spec limit 1), (Z.ltb_spec 100 limit);
      simpl; lia. }
  assert (Htotal : 0 <= CountDocuments db (of_form objectID) < 2 ^ 56).
  { unfold CountDocuments. pose proof (List.filter_length_le (of_form objectID) db).
    lia. }
  rewrite !int64_small by nia.
  destruct (Z.ltb_spec ((k - 1) * size) 0); [nia|].
  rewrite Z.quot_div_nonneg by lia. done.
Qed.

(** X14. For a collection of fewer than 2^56 responses, the pages of
    [GetResponses] are a partition of the responses of the form, newest
    first: page 1 to the last page, each one non-empty and of at most
    [limit] responses (50 when the parameter is below 1 or above 100), hold
    every response exactly once, in the order of their creation times from
    the latest to the earliest, and the pages behind the last one and below
    page 2^56 are empty. The creation times are taken to be distinct, as
    the store leaves the order of equal ones open. Page numbers are not
    bounded by the handler and [skip] is a 64-bit product: two page numbers
    whose distance times the page size is a multiple of 2^64 are served the
    same responses, so that with a limit of 4 page 2^62 + 1 is page 1
    again. *)
Theorem pages_partition_the_responses (id : string) (objectID : ObjectID)
    (limit : Z) (db : list (@FormResponse F)) :
  ObjectIDFromHex id = Some objectID ->
  Z.of_nat (length db) < 2 ^ 56 ->
  List.NoDup (map CreatedAt (Find db (of_form objectID))) ->
  let size := if (limit <? 1) || (100 <? limit) then 50 else limit in
  let total := CountDocuments db (of_form objectID) in
  let totalPages := (total + size - 1) / size in
  let page (k : nat) := responses_of (GetResponses id (Z.of_nat k) limit db) in
  let all := concat (map page (seq 1 (Z.to_nat totalPages))) in
  (forall k, 1 <= k <= totalPages ->
     exists p, GetResponses id k limit db = (200, Some p) /\
       pg_total p = total /\ pg_totalPages p = totalPages /\
       page_responses p <> [] /\
       Z.of_nat (length (page_responses p)) <= size) /\
  Permutation all (Find db (of_form objectID)) /\
  newest_first all /\
  (forall k, totalPages < k < 2 ^ 56 ->
     responses_of (GetResponses id k limit db) = []) /\
  (forall k d, 1 <= k -> 1 <= k + d -> (d * size) mod 2 ^ 64 = 0 ->
     responses_of (GetResponses id (k + d) limit db) =
     responses_of (GetResponses id k limit db)).
Proof.
  intros Hid Hdb Hnd size total totalPages page all.
  assert (Hsize : 1 <= size <= 100).
  { unfold size. destruct (Z.ltb_spec limit 1), (Z.ltb_spec 100 limit);
      simpl; lia. }
  set (sorted := sort_newest_first (Find db (of_form objectID))).
  assert (Hlen : Z.of_nat (length sorted) = total).
  { unfold sorted, total, CountDocuments, Find.
    by rewrite (Permutation_length (sort_newest_first_Permutation _)). }
  assert (Htotal : 0 <= total < 2 ^ 56).
  { unfold total, CountDocuments.
    pose proof (List.filter_length_le (of_form objectID) db). lia. }
  assert (Hpages : 0 <= totalPages <= total).
  { unfold totalPages. split; [apply Z.div_pos; lia|].
    destruct (Z.eq_dec total 0) as [->|Hne].
    - rewrite Z.div_small; lia.
    - apply Z.div_le_upper_bound; nia. }
  assert (Hlo : forall k, 1 <= k <= totalPages -> (k - 1) * size < total).
  { intros k Hk. unfold totalPages in Hk.
    assert (k * size <= total + size - 1); [|lia].
    transitivity ((total + size - 1) / size * size); [nia|].
    rewrite Z.mul_comm. apply Z.mul_div_le. lia. }
  assert (Hhi : total <= totalPages * size).
  { unfold totalPages.
    pose proof (Z.div_mod (total + size - 1) size ltac:(lia)).
    pose proof (Z.mod_pos_bound (total + size - 1) size ltac:(lia)). nia. }
  assert (Hall : all = sorted).
  { unfold all, page.
    rewrite <- (chunks_concat sorted (Z.to_nat size) (Z.to_nat totalPages))
      at 1 by nia.
    rewrite <- seq_shift, map_map. f_equal. apply map_ext_in.
    intros k Hk. apply in_seq in Hk.
    rewrite (GetResponses_page id objectID (Z.of_nat (S k)) limit db Hid Hdb)
      by lia.
    unfold responses_of. cbn [snd page_responses]. fold size sorted.
    do 2 f_equal. nia. }
  split; [|split; [|split; [|split]]].
  - intros k Hk.
    rewrite (GetResponses_page id objectID k limit db Hid Hdb) by lia.
    eexists. split; [reflexivity|]. cbn [pg_total pg_totalPages page_responses].
    fold size sorted total totalPages. split; [done|]. split; [done|].
    specialize (Hlo k Hk). split.
    + intros E. apply (f_equal (@length _)) in E.
      rewrite length_firstn, length_skipn in E. simpl in E. lia.
    + rewrite length_firstn. lia.
  - rewrite Hall. apply sort_newest_first_Permutation.
  - rewrite Hall. by apply sort_newest_first_sorted.
  - intros k Hk.
    rewrite (GetResponses_page id objectID k limit db Hid Hdb) by lia.
    unfold responses_of. cbn [snd page_responses]. fold size sorted.
    rewrite skipn_all2; [by destruct (Z.to_nat size)|]. nia.
  - intros k d Hk Hkd Hd.
    unfold GetResponses. rewrite Hid. cbv zeta. fold size.
    destruct (Z.ltb_spec (k + d) 1) as [?|_]; [lia|].
    destruct (Z.ltb_spec k 1) as [?|_]; [lia|].
    assert (Hskip : int64 ((k + d - 1) * size) = int64 ((k - 1) * size)).
    { unfold int64. f_equal.
      apply Z.mod_divide in Hd as [q Hq]; [|lia].
      replace ((k + d - 1) * size + 2 ^ 63)
        with ((k - 1) * size + 2 ^ 63 + q * 2 ^ 64) by lia.
      apply Z_mod_plus_full. }
    rewrite Hskip.
    by destruct (int64 ((k - 1) * size) <? 0).
Qed.

End HandlersSpec.

(** What [validateResponse] asks of the answer to one field, in exact
    arithmetic. *)
Lemma validate_field_spec (answers : gmap string (@Value Q))
    (fv : @FormFieldV Q) :
  validate_field answers fv = None <->
  (Required (base fv) = true ->
     exists v, answers !! ID (base fv) = Some v /\
       v <> VNil /\ v <> VString "") /\
  (forall q, answers !! ID (base fv) = Some (VDouble q) ->
     Type_ (base fv) = FieldTypeRating -> (1 <= q <= 5)%Q) /\
  (forall q, answers !! ID (base fv) = Some (VDouble q) ->
     Type_ (base fv) = FieldTypeNumber ->
     (~ (Min (Validation fv) == 0)%Q -> (Min (Validation fv) <= q)%Q) /\
     (~ (Max (Validation fv) == 0)%Q -> (q <= Max (Validation fv))%Q)) /\
  (forall s, answers !! ID (base fv) = Some (VString s) ->
     Type_ (base fv) = FieldTypeText \/ Type_ (base fv) = FieldTypeTextarea ->
     (0 < MinLength (Validation fv) ->
        MinLength (Validation fv) <= Z.of_nat (String.length s)) /\
     (0 < MaxLength (Validation fv) ->
        Z.of_nat (String.length s) <= MaxLength (Validation fv))) /\
  (forall s, answers !! ID (base fv) = Some (VString s) ->
     Type_ (base fv) = FieldTypeEmail -> s <> "" -> isValidEmail s = true).
Proof.
  assert (Hlt : forall x y : Q, f_ltb x y = false <-> (y <= x)%Q).
  { intros x y. simpl. rewrite negb_false_iff. apply Qle_bool_iff. }
  assert (Hne : forall x : Q, negb (f_eqb x (f_of_Z 0)) = false <-> (x == 0)%Q).
  { intros x. simpl. rewrite negb_false_iff. apply Qeq_bool_iff. }
  unfold validate_field. cbv zeta.
  unfold FieldTypeEmail, FieldTypeNumber, FieldTypeText, FieldTypeTextarea,
    FieldTypeRating.
  destruct (answers !! ID (base fv)) as [v|] eqn:Hv.
  2: { destruct (Required (base fv)); simpl; split; try done.
       intros [H _]. by destruct (H eq_refl) as (v & ? & _). }
  assert (Hreq : (Required (base fv) && nil_or_empty v = false) <->
                 (Required (base fv) = true -> v <> VNil /\ v <> VString "")).
  { destruct (Required (base fv)); simpl; [|by split]. split.
    - intros H _. destruct v as [|s| | | | | |]; simpl in H; try done.
      apply String.eqb_neq in H. split; congruence.
    - intros H. destruct (H eq_refl) as [H1 H2].
      destruct v as [|s| | | | | |]; simpl; try done.
      apply String.eqb_neq. congruence. }
  destruct (Required (base fv) && nil_or_empty v) eqn:Hr.
  { split; [done|]. intros [H _].
    assert (true = false); [|done].
    apply Hreq. intros Hq. by destruct (H Hq) as (v' & [= <-] & ? & ?). }
  assert (Hreq' : Required (base fv) = true ->
            exists v0, Some v = Some v0 /\ v0 <> VNil /\ v0 <> VString "").
  { intros H. exists v. split; [done|]. by apply Hreq. }
  clear Hreq.
  destruct (String.eqb_spec (Type_ (base fv)) "email") as [Ht|Ht1].
  { rewrite Ht.
    destruct v as [|s| | | | | |]; try by other_rules.
    destruct (String.eqb_spec s "") as [->|Hs]; simpl; [by other_rules|].
    destruct (isValidEmail s) eqn:He; simpl; [by other_rules|].
    split; [done|]. intros (_ & _ & _ & _ & H).
    specialize (H s eq_refl eq_refl Hs). congruence. }
  destruct (String.eqb_spec (Type_ (base fv)) "number") as [Ht|Ht2].
  { rewrite Ht.
    destruct v as [|s| | |q| | |]; try by other_rules.
    destruct (negb (f_eqb (Min (Validation fv)) (f_of_Z 0))
              && f_ltb q (Min (Validation fv))) eqn:Hmin.
    { split; [done|]. intros (_ & _ & H & _).
      destruct (H q eq_refl eq_refl) as [Hlo _].
      apply andb_true_iff in Hmin as [Hm1 Hm2].
      assert (Hm : ~ (Min (Validation fv) == 0)%Q).
      { intros E. apply Hne in E. congruence. }
      specialize (Hlo Hm). apply Hlt in Hlo. congruence. }
    destruct (negb (f_eqb (Max (Validation fv)) (f_of_Z 0))
              && f_ltb (Max (Validation fv)) q) eqn:Hmax.
    { split; [done|]. intros (_ & _ & H & _).
      destruct (H q eq_refl eq_refl) as [_ Hhi].
      apply andb_true_iff in Hmax as [Hm1 Hm2].
      assert (Hm : ~ (Max (Validation fv) == 0)%Q).
      { intros E. apply Hne in E. congruence. }
      specialize (Hhi Hm). apply Hlt in Hhi. congruence. }
    split; [intros _|done].
    split; [done|]. split; [by other_rule|]. split; [|by rest_rules].
    intros q' ? _. simplify_eq. split; intros Hm; apply Hlt.
    - apply andb_false_iff in Hmin as [Hmin|Hmin]; [|done].
      apply Hne in Hmin. done.
    - apply andb_false_iff in Hmax as [Hmax|Hmax]; [|done].
      apply Hne in Hmax. done. }
  destruct (String.eqb_spec (Type_ (base fv)) "text") as [Ht|Ht3];
    [|destruct (String.eqb_spec (Type_ (base fv)) "textarea") as [Ht|Ht4]].
  1, 2: rewrite Ht; simpl;
    (destruct v as [|s| | | | | |]; try by other_rules);
    (destruct (Z.ltb_spec 0 (MinLength (Validation fv))) as [Hmin1|Hmin1],
       (Z.ltb_spec (Z.of_nat (String.length s)) (MinLength (Validation fv)))
       as [Hmin2|Hmin2];
     simpl;
     try (split; [done|]; intros (_ & _ & _ & Hrule & _);
          destruct (Hrule s eq_refl ltac:(auto)) as [Hlo _]; lia));
    (destruct (Z.ltb_spec 0 (MaxLength (Validation fv))) as [Hmax1|Hmax1],
       (Z.ltb_spec (MaxLength (Validation fv)) (Z.of_nat (String.length s)))
       as [Hmax2|Hmax2];
     simpl;
     try (split; [done|]; intros (_ & _ & _ & Hrule & _);
          destruct (Hrule s eq_refl ltac:(auto)) as [_ Hhi]; lia));
    (split; [intros _|done]; split; [done|]; split; [by other_rule|];
     split; [by other_rule|]; split; [|by other_rule];
     intros s' ? _; simplify_eq; lia).
  cbn [orb].
  destruct (String.eqb_spec (Type_ (base fv)) "rating") as [Ht|Ht5].
  { destruct v as [|s| | |q| | |]; try by other_rules.
    destruct (f_ltb q (f_of_Z 1)) eqn:H1; cbn [orb].
    { split; [done|]. intros (_ & Hrule & _).
      destruct (Hrule q eq_refl Ht) as [Hlo _].
      assert (f_ltb q (f_of_Z 1) = false) by (apply Hlt; exact Hlo).
      congruence. }
    destruct (f_ltb (f_of_Z 5) q) eqn:H5.
    { split; [done|]. intros (_ & Hrule & _).
      destruct (Hrule q eq_refl Ht) as [_ Hhi].
      assert (f_ltb (f_of_Z 5) q = false) by (apply Hlt; exact Hhi).
      congruence. }
    split; [intros _|done].
    split; [done|]. split; [|by rest_rules].
    intros q' ? _. simplify_eq. split; by apply Hlt. }
  destruct v; by other_rules.
Qed.

(** X15. In exact arithmetic, [validateResponse] accepts the answers exactly
    when, for every field of the form: a required field has an answer other
    than [nil] and the empty string; a number given to a rating field lies
    between 1 and 5; a number given to a number field respects each bound
    that is not 0; a string given to a text field respects each length
    bound that is above 0; and a non-empty string given to an email field
    passes [isValidEmail]. Answers of any other type, answers to other
    kinds of field, and keys that the form does not have are not
    checked. *)
Theorem accepted_answers_obey_rules (answers : gmap string (@Value Q))
    (fields : list (@FormFieldV Q)) :
  validateResponse answers fields = None <->
  Forall
    (fun fv =>
       (Required (base fv) = true ->
          exists v, answers !! ID (base fv) = Some v /\
            v <> VNil /\ v <> VString "") /\
       (forall q, answers !! ID (base fv) = Some (VDouble q) ->
          Type_ (base fv) = FieldTypeRating -> (1 <= q <= 5)%Q) /\
       (forall q, answers !! ID (base fv) = Some (VDouble q) ->
          Type_ (base fv) = FieldTypeNumber ->
          (~ (Min (Validation fv) == 0)%Q -> (Min (Validation fv) <= q)%Q) /\
          (~ (Max (Validation fv) == 0)%Q -> (q <= Max (Validation fv))%Q)) /\
       (forall s, answers !! ID (base fv) = Some (VString s) ->
          Type_ (base fv) = FieldTypeText \/
          Type_ (base fv) = FieldTypeTextarea ->
          (0 < MinLength (Validation fv) ->
             MinLength (Validation fv) <= Z.of_nat (String.length s)) /\
          (0 < MaxLength (Validation fv) ->
             Z.of_nat (String.length s) <= MaxLength (Validation fv))) /\
       (forall s, answers !! ID (base fv) = Some (VString s) ->
          Type_ (base fv) = FieldTypeEmail -> s <> "" ->
          isValidEmail s = true))
    fields.
Proof.
  induction fields as [|fv fields IH]; [split; [constructor|done]|].
  simpl. rewrite List.Forall_cons_iff, <- IH, <- validate_field_spec.
  destruct (validate_field answers fv); split; try done.
  - by intros [? _].
  - by intros [_ ?].
Qed.

Lemma example_store_NoDup : List.NoDup (map form_ID (forms example_store)).
Proof. repeat constructor. by intros []. Qed.

(** X16. As long as a form is not edited, the completion rate that the analytics
    report for it is 100 as soon as there is a response, and 0 before: the
    submissions that would lower it are the ones that validation turns
    away. Stated in exact arithmetic. *)
Theorem completion_rate_all_or_nothing (fs : list (@Form Q))
    (subs : list Submission) (form : @Form Q) :
  List.NoDup (map form_ID fs) ->
  In form fs ->
  let st := submit_all subs {| forms := fs; responses := [] |} in
  ((calculateCompletionMetrics (responses st) (form_ID form)
      (map base (Fields form))).1 ==
   if CountDocuments (responses st) (of_form (form_ID form)) =? 0
   then 0 else 100)%Q.
Proof.
  intros Hnd Hform st.
  rewrite AnalyticsSpec.completion_rate_eq. cbv zeta.
  unfold CountDocuments, Find.
  set (db := List.filter (of_form (form_ID form)) (responses st)).
  assert (Hall : forall r, In r db ->
            isComplete (map base (Fields form)) r = true).
  { intros r Hr. apply filter_In in Hr as [Hr Hof].
    apply String.eqb_eq in Hof.
    destruct (submit_all_complete subs {| forms := fs; responses := [] |}
                ltac:(done) r Hr) as (f & Hf & Hid & Hc).
    cbn [forms] in Hf.
    by rewrite (form_ID_unique fs form f Hnd Hform Hf) by congruence. }
  rewrite (count_complete_all _ _ Hall).
  destruct (length db) as [|n] eqn:E; [reflexivity|].
  change (Z.of_nat (S n) =? 0) with false. cbv iota.
  change (S n =? 0)%nat with false. cbv iota.
  unfold f_mul, f_div, f_of_Z, Float64_Q.
  assert (Hn : ~ (inject_Z (Z.of_nat (S n)) == 0)%Q).
  { unfold Qeq. simpl. lia. }
  field. exact Hn.
Qed.

Lemma completion_rate_all_or_nothing_witness :
  ((calculateCompletionMetrics
      (responses
         (submit_all
            [{| sub_now := 5; sub_id := example_id;
                sub_body := Some (example_request 4) |};
             {| sub_now := 6; sub_id := example_id;
                sub_body := Some {| req_Responses := Some ∅ |} |}]
            example_store))
      example_id [rating_field]).1 == 100)%Q.
Proof.
  exact (completion_rate_all_or_nothing [example_form]
           [{| sub_now := 5; sub_id := example_id;
               sub_body := Some (example_request 4) |};
            {| sub_now := 6; sub_id := example_id;
               sub_body := Some {| req_Responses := Some ∅ |} |}]
           example_form example_store_NoDup (or_introl eq_refl)).
Defined.

Lemma lower_hex_canonical (a : Ascii.ascii) :
  is_hex_digit a = true ->
  is_hex_digit (lower_hex a) = true /\ lower_hex (lower_hex a) = lower_hex a.
Proof. destruct a as [[] [] [] [] [] [] [] []]; vm_compute; by intros. Qed.

Lemma string_of_list_ascii_length (l : list Ascii.ascii) :
  String.length (string_of_list_ascii l) = length l.
Proof. induction l as [|a l IH]; [done|]. simpl. by rewrite IH. Qed.

Lemma list_ascii_of_string_length (s : string) :
  length (list_ascii_of_string s) = String.length s.
Proof. induction s as [|a s IH]; [done|]. simpl. by rewrite IH. Qed.

(** The identifier that [ObjectIDFromHex] returns is its own canonical
    form. *)
Lemma ObjectIDFromHex_canonical (id : string) (objectID : ObjectID) :
  ObjectIDFromHex id = Some objectID ->
  ObjectIDFromHex objectID = Some objectID.
Proof.
  unfold ObjectIDFromHex.
  destruct (_ && _) eqn:E; [|done]. intros [= <-].
  apply andb_true_iff in E as [Hlen Hhex].
  rewrite list_ascii_of_string_of_list_ascii, string_of_list_ascii_length,
    length_map, list_ascii_of_string_length, Hlen. simpl.
  assert (H : forallb is_hex_digit (map lower_hex (list_ascii_of_string id))
              = true /\
              map lower_hex (map lower_hex (list_ascii_of_string id)) =
              map lower_hex (list_ascii_of_string id)).
  { induction (list_ascii_of_string id) as [|a l IH]; [done|].
    simpl in Hhex. apply andb_true_iff in Hhex as [Ha Hl].
    destruct (lower_hex_canonical a Ha) as [H1 H2].
    destruct (IH Hl) as [H3 H4]. simpl. by rewrite H1, H2, H3, H4. }
  destruct H as [-> ->]. done.
Qed.

(** X17. The notification of a new response goes to the topic that is the path
    parameter as the client wrote it, while the later notification of new
    analytics goes to the identifier in its canonical lower case: a client
    on the hub gets the first one exactly when it has no topic or its topic
    is the path parameter letter for letter (and its queue has room), so a
    subscriber to the canonical identifier misses the responses that are
    submitted under another spelling of it. *)
Theorem notification_follows_path_parameter {F : Type}
    {Float64_F : Float64 F} {Float64Order_F : Float64Order F}
    (json_Marshal : Hub.Message -> option Hub.bytes) (order : list Hub.addr)
    (now : Time) (id : string) (body : option SubmitResponseRequest)
    (st : @Store F) (data : Hub.Data) (jsonData : Hub.bytes)
    (σ : Hub.State) (c : Hub.addr) (b : bool) (cl : Hub.Client) :
  (SubmitResponse now id body st).1.1 = 201 ->
  Hub.registered_open σ ->
  Hub.iteration_order order σ ->
  Hub.Clients σ !! c = Some b ->
  Hub.heap σ !! c = Some cl ->
  json_Marshal {| Hub.msg_Type := "response_submitted"; Hub.msg_FormID := id;
                  Hub.msg_Data := data; Hub.msg_EventID := "" |} =
    Some jsonData ->
  exists objectID σ',
    ObjectIDFromHex id = Some objectID /\
    ObjectIDFromHex objectID = Some objectID /\
    (SubmitResponse now id body st).2 =
      [CallBroadcastToForm id "response_submitted";
       CallBroadcastToForm objectID "analytics_updated"] /\
    Hub.BroadcastToForm json_Marshal order id "response_submitted" data σ =
      Ok σ' /\
    (Hub.received σ σ' jsonData c <->
       (Hub.FormID cl = "" \/ Hub.FormID cl = id) /\
       Hub.chan_full (Hub.Send cl) = false).
Proof.
  intros Hstatus Hwf Hord Hb Hcl Hm.
  destruct (SubmitResponse_cases now id body st)
    as [(objectID & form & answers & Hid & _ & _ & _ & Hrun)
       |(status & Hs & Hrun)]; rewrite Hrun in *; [|done].
  destruct (HubMore.BroadcastToForm_one_client json_Marshal order id
              "response_submitted" data jsonData σ Hwf Hord Hm)
    as (σ' & Hcast & _ & Hone).
  exists objectID, σ'. split; [done|].
  split; [by apply (ObjectIDFromHex_canonical id)|]. split; [done|].
  split; [done|].
  destruct (Hone c b cl Hb Hcl) as (_ & _ & ->).
  unfold Hub.selects_form. rewrite orb_true_iff, !String.eqb_eq. done.
Qed.

Lemma notification_follows_path_parameter_witness :
  exists σ',
    Hub.BroadcastToForm Hub.example_Marshal [1%positive] example_id_upper
      "response_submitted" Hub.DNil example_hub = Ok σ' /\
    ~ Hub.received example_hub σ'
        (list_byte_of_string
           "response_submitted:65A1B2C3D4E5F6A7B8C9D0E1") 1%positive.
Proof.
  destruct (notification_follows_path_parameter Hub.example_Marshal
              [1%positive] 5 example_id_upper (Some (example_request 4))
              example_store Hub.DNil
              (list_byte_of_string
                 "response_submitted:65A1B2C3D4E5F6A7B8C9D0E1")
              example_hub 1%positive true
              {| Hub.Send := Hub.make_chan 256; Hub.FormID := example_id |})
    as (objectID & σ' & _ & _ & _ & Hcast & Hiff).
  - reflexivity.
  - apply HubSpec.registered_openb_sound. vm_compute. reflexivity.
  - apply HubSpec.iteration_orderb_sound. vm_compute. reflexivity.
  - reflexivity.
  - reflexivity.
  - reflexivity.
  - exists σ'. split; [exact Hcast|].
    intros Hr. apply Hiff in Hr as [[?|?] _]; discriminate.
Defined.



Lemma pages_partition_the_responses_witness :
  (exists p : ResponsesPage,
     GetResponses example_id_upper 2 2 example_responses = (200, Some p) /\
     pg_total p = 3 /\ pg_totalPages p = 2 /\
     page_responses p <> [] /\ Z.of_nat (length (page_responses p)) <= 2) /\
  responses_of (GetResponses example_id_upper (1 + 2 ^ 62) 4 example_responses) =
    responses_of (GetResponses example_id_upper 1 4 example_responses).
Proof.
  split.
  - destruct (pages_partition_the_responses example_id_upper example_id 2
                example_responses) as [H _].
    + reflexivity.
    + by vm_compute.
    + vm_compute. repeat constructor; simpl; intuition discriminate.
    + apply (H 2). by vm_compute.
  - destruct (pages_partition_the_responses example_id_upper example_id 4
                example_responses) as (_ & _ & _ & _ & H).
    + reflexivity.
    + by vm_compute.
    + vm_compute. repeat constructor; simpl; intuition discriminate.
    + apply (H 1 (2 ^ 62)); by vm_compute.
Defined.

End ControllersSpec.

(** * Further properties of the aggregator *)

Module AnalyticsMore.
Import Analytics RatingTerms AnalyticsSpec.

Section Windows.

Context {F : Type} {Float64_F : Float64 F}.

Lemma CountDocuments_mono (db : list (@FormResponse F))
    (p q : FormResponse -> bool) :
  (forall r, p r = true -> q r = true) ->
  CountDocuments db p <= CountDocuments db q.
Proof.
  intros H. induction db as [|r db IH]; [done|].
  rewrite !CountDocuments_cons. specialize (H r).
  destruct (p r), (q r); first [lia|by specialize (H eq_refl)].
Qed.

Lemma fields_loop_Forall2 (db : list (@FormResponse F)) (formID : ObjectID)
    (fields : list FormField) (total : Z) (l : list FieldAnalytics) :
  fields_loop db formID fields total = Ok l ->
  Forall2 (fun field fa =>
             calculateEnhancedFieldAnalytics db formID field total = Ok fa)
          fields l.
Proof.
  revert l. induction fields as [|field fields IH]; simpl; intros l.
  - intros [= <-]. constructor.
  - destruct (calculateEnhancedFieldAnalytics db formID field total)
      as [fa|] eqn:E; [|done]. simpl.
    destruct (fields_loop db formID fields total) as [tl|]; [|done]. simpl.
    intros [= <-]. constructor; [done|by apply IH].
Qed.

(** The head of every result of [calculateEnhancedFieldAnalytics]. *)
Lemma calculateEnhancedFieldAnalytics_rates (db : list (@FormResponse F))
    (formID : ObjectID) (field : FormField) (total : Z) (fa : FieldAnalytics) :
  calculateEnhancedFieldAnalytics db formID field total = Ok fa ->
  field_id fa = ID field /\
  response_rate fa =
    (if 0 <? total
     then f_mul (f_div (f_of_Z (CountDocuments db
                                  (of_form_answered formID (ID field))))
                       (f_of_Z total)) (f_of_Z 100)
     else f_of_Z 0) /\
  skip_rate fa =
    (if 0 <? total then f_sub (f_of_Z 100) (response_rate fa)
     else f_of_Z 100).
Proof.
  unfold calculateEnhancedFieldAnalytics.
  repeat match goal with
         | |- context [if ?b then _ else _] =>
             lazymatch b with
             | (0 <? total) => fail
             | _ => destruct b
             end
         end;
    repeat match goal with
           | |- context [choice_responses ?a ?b] => destruct (choice_responses a b)
           | |- context [text_responses ?a ?b] => destruct (text_responses a b)
           | |- context [match answers ?a ?b ?c with _ => _ end] =>
               destruct (answers a b c)
           end;
    simpl; try done; intros [= <-]; simpl; by destruct (0 <? total).
Qed.

Lemma CountDocuments_app (db1 db2 : list (@FormResponse F))
    (flt : FormResponse -> bool) :
  CountDocuments (db1 ++ db2) flt = CountDocuments db1 flt + CountDocuments db2 flt.
Proof.
  unfold CountDocuments. rewrite List.filter_app, length_app. lia.
Qed.

(** The windows of one store state are nested. *)
Lemma CountDocuments_windows (now : Time) (formID : ObjectID)
    (db : list (@FormResponse F)) :
  0 <= CountDocuments db (of_form_since formID (now - day)) /\
  CountDocuments db (of_form_since formID (now - day)) <=
    CountDocuments db (of_form_since formID (now - 7 * day)) /\
  CountDocuments db (of_form_since formID (now - 7 * day)) <=
    CountDocuments db (of_form_since formID (now - 30 * day)) /\
  CountDocuments db (of_form_since formID (now - 30 * day)) <=
    CountDocuments db (of_form formID).
Proof.
  unfold day.
  repeat split; try apply CountDocuments_nonneg;
    apply CountDocuments_mono; intros r; unfold of_form_since;
    rewrite ?andb_true_iff, ?Z.leb_le; intros H; try tauto; split; try tauto; lia.
Qed.

(** X18. The four counts of [calculateAnalytics] are read by four queries,
    one after the other, with no transaction. When the store gains the
    responses [new1], [new2] and [new3] between them and loses none, the
    counts over the last day, the last 7 days and the last 30 days are
    nested, the count of the last 30 days is at most the total plus the
    responses of the form that arrived after the total was read, and the
    count of the last day is the one of the store that the total was read
    from plus the arrivals of the last day: it exceeds the total when all
    responses of the form are of the last day and one such response
    arrives. When nothing arrives all four counts are nested, they are the
    counts of the result, and the total in the summary is the same
    total. *)
Theorem window_counts_nested (now : Time) (formID : ObjectID)
    (db new1 new2 new3 : list (@FormResponse F)) :
  let '(total, count24h, countWeek, countMonth) :=
    count_windows now formID db (db ++ new1) ((db ++ new1) ++ new2)
      (((db ++ new1) ++ new2) ++ new3) in
  0 <= count24h <= countWeek /\
  countWeek <= countMonth /\
  countMonth <=
    total + CountDocuments ((new1 ++ new2) ++ new3) (of_form formID) /\
  count24h =
    CountDocuments db (of_form_since formID (now - day)) +
    CountDocuments new1 (of_form_since formID (now - day)) /\
  (new1 = [] -> new2 = [] -> new3 = [] ->
   countMonth <= total /\
   forall loc now' fields a,
     calculateAnalytics loc now now' db formID fields = Ok a ->
     TotalResponses a = total /\ ResponsesLast24h a = count24h /\
     ResponsesLastWeek a = countWeek /\ ResponsesLastMonth a = countMonth /\
     total_responses (FieldAnalytics_ a) = total).
Proof.
  unfold count_windows. cbv zeta beta iota.
  rewrite !CountDocuments_app.
  pose proof (CountDocuments_windows now formID db) as (? & ? & ? & ?).
  pose proof (CountDocuments_windows now formID new1) as (? & ? & ? & ?).
  pose proof (CountDocuments_windows now formID new2) as (? & ? & ? & ?).
  pose proof (CountDocuments_windows now formID new3) as (? & ? & ? & ?).
  pose proof (CountDocuments_nonneg new2 (of_form_since formID (now - 7 * day))).
  pose proof (CountDocuments_nonneg new3 (of_form_since formID (now - 30 * day))).
  split; [lia|]. split; [lia|]. split; [lia|]. split; [lia|].
  intros -> -> ->. change (CountDocuments [] ?p) with 0.
  split; [lia|].
  intros loc now' fields a. unfold calculateAnalytics.
  destruct (calculateCompletionMetrics db formID fields) as [rate time].
  destruct (fields_loop db formID fields _) as [l|]; [|done]. simpl.
  intros [= <-]. simpl. repeat split; lia.
Qed.

End Windows.

Lemma window_counts_nested_witness :
  count_windows example_now "f1" [rated 5 1762160000000]
    ([rated 5 1762160000000] ++ [rated 4 1762170000001])
    (([rated 5 1762160000000] ++ [rated 4 1762170000001]) ++ [])
    ((([rated 5 1762160000000] ++ [rated 4 1762170000001]) ++ []) ++ []) =
    (1, 2, 2, 2) /\
  2 <= 1 + CountDocuments (([rated 4 1762170000001] ++ []) ++ []) (of_form "f1").
Proof.
  split; [reflexivity|].
  exact (proj1 (proj2 (proj2
           (window_counts_nested example_now "f1" [rated 5 1762160000000]
              [rated 4 1762170000001] [] [])))).
Defined.

Section Ratings.

Context {F : Type} {Float64_F : Float64 F}.

Lemma counted_under_cons (k : Z) (v : @Value F) (ratings : list Value) :
  counted_under k (v :: ratings) =
  (if bool_decide (bucket_of v = Some k) then 1 else 0) +
  counted_under k ratings.
Proof.
  unfold counted_under. simpl.
  destruct (bool_decide (bucket_of v = Some k)); simpl length; lia.
Qed.

Lemma counted_under_nonneg (k : Z) (ratings : list (@Value F)) :
  0 <= counted_under k ratings.
Proof. unfold counted_under. lia. Qed.

(** The map that the loop over [ratings] builds holds, under each key, the
    number of ratings counted under it. *)
Lemma distribution_lookup (k : Z) (ratings : list (@Value F)) :
  default 0 (distribution ratings !! k) = counted_under k ratings.
Proof.
  unfold distribution.
  enough (Hgen : forall d : gmap Z Z,
    default 0
      (fold_left
         (fun d rating =>
            match rating with
            | VInt32 r => <[r := default 0 (d !! r) + 1]> d
            | VDouble r =>
                <[f_to_int r := default 0 (d !! f_to_int r) + 1]> d
            | _ => d
            end) ratings d !! k) =
    default 0 (d !! k) + counted_under k ratings).
  { rewrite Hgen. rewrite lookup_empty. simpl. lia. }
  induction ratings as [|v ratings IH]; intros d.
  - unfold counted_under. simpl. lia.
  - cbn [fold_left]. rewrite IH, counted_under_cons.
    destruct v as [|s|r|r|r| | |r]; simpl bucket_of;
      try (rewrite bool_decide_eq_false_2 by done; lia).
    + destruct (decide (r = k)) as [->|Hne].
      * rewrite lookup_insert_eq, bool_decide_eq_true_2 by done. simpl. lia.
      * rewrite lookup_insert_ne, bool_decide_eq_false_2 by congruence. lia.
    + destruct (decide (f_to_int r = k)) as [->|Hne].
      * rewrite lookup_insert_eq, bool_decide_eq_true_2 by done. simpl. lia.
      * rewrite lookup_insert_ne, bool_decide_eq_false_2 by congruence. lia.
Qed.

Lemma in_scale_counted (ratings : list (@Value F)) :
  counted_under 1 ratings + counted_under 2 ratings + counted_under 3 ratings +
  counted_under 4 ratings + counted_under 5 ratings =
  Z.of_nat (length (List.filter in_scale ratings)).
Proof.
  induction ratings as [|v ratings IH]; [done|].
  rewrite !counted_under_cons. simpl List.filter. unfold in_scale at 1.
  destruct (bucket_of v) as [k|].
  - repeat case_bool_decide; simplify_eq; simpl;
      try (simpl length; lia).
    destruct (Z.leb_spec 1 k), (Z.leb_spec k 5); simpl; try lia.
    assert (k = 1 \/ k = 2 \/ k = 3 \/ k = 4 \/ k = 5) by lia.
    intuition congruence.
  - rewrite !bool_decide_eq_false_2 by done. lia.
Qed.

(** X19. The rating distribution has an entry for each of the keys 1 to 5
    under which a rating is counted, in that order, with the number of the
    ratings counted under it; so its counts add up to the number of ratings
    whose integer part lies in 1 to 5. The other ratings (out of the scale,
    or not stored as a number) are in no entry, while every percentage is
    taken over all the ratings. *)
Theorem rating_distribution_counts (ratings : list (@Value F)) :
  rating_buckets ratings =
    flat_map
      (fun k =>
         if 0 <? counted_under k ratings
         then [{| value := VInt k; cr_count := counted_under k ratings;
                  percentage :=
                    f_mul (f_div (f_of_Z (counted_under k ratings))
                                 (f_of_Z (Z.of_nat (length ratings))))
                          (f_of_Z 100) |}]
         else [])
      [1; 2; 3; 4; 5] /\
  fold_right Z.add 0 (map cr_count (rating_buckets ratings)) =
    Z.of_nat (length (List.filter in_scale ratings)).
Proof.
  assert (Hbuckets : rating_buckets ratings =
    flat_map
      (fun k =>
         if 0 <? counted_under k ratings
         then [{| value := VInt k; cr_count := counted_under k ratings;
                  percentage :=
                    f_mul (f_div (f_of_Z (counted_under k ratings))
                                 (f_of_Z (Z.of_nat (length ratings))))
                          (f_of_Z 100) |}]
         else [])
      [1; 2; 3; 4; 5]).
  { unfold rating_buckets. apply flat_map_ext. intros k.
    by rewrite distribution_lookup. }
  split; [done|]. rewrite Hbuckets, <- in_scale_counted.
  pose proof (counted_under_nonneg 1 ratings).
  pose proof (counted_under_nonneg 2 ratings).
  pose proof (counted_under_nonneg 3 ratings).
  pose proof (counted_under_nonneg 4 ratings).
  pose proof (counted_under_nonneg 5 ratings).
  cbn [flat_map].
  destruct (Z.ltb_spec 0 (counted_under 1 ratings)),
           (Z.ltb_spec 0 (counted_under 2 ratings)),
           (Z.ltb_spec 0 (counted_under 3 ratings)),
           (Z.ltb_spec 0 (counted_under 4 ratings)),
           (Z.ltb_spec 0 (counted_under 5 ratings));
    cbn [app map fold_right cr_count]; lia.
Qed.

End Ratings.

Section Summaries.

Context {F : Type} {Float64_F : Float64 F}.

Lemma substring_length (n : nat) (s : string) :
  (n <= String.length s)%nat -> String.length (substring 0 n s) = n.
Proof.
  revert s. induction n as [|n IH]; intros s H.
  - by destruct s.
  - destruct s as [|a s]; simpl in *; [lia|]. rewrite IH; lia.
Qed.

Lemma append_length (s t : string) :
  String.length (s +:+ t) = (String.length s + String.length t)%nat.
Proof. induction s as [|a s IH]; [done|]. simpl. by rewrite IH. Qed.

Lemma truncate_length (s : string) : (String.length (truncate s) <= 50)%nat.
Proof.
  unfold truncate. destruct (Nat.ltb_spec 50 (String.length s)); [|done].
  rewrite append_length, substring_length by lia. simpl. lia.
Qed.

Lemma choice_responses_length (n : Z) (results : list (@Value F * Z))
    (l : list CommonResponse) :
  choice_responses n results = Ok l -> (length l <= length results)%nat.
Proof.
  revert l. induction results as [|[id k] results IH]; simpl; intros l.
  - intros [= <-]. done.
  - destruct id; try (intros H; specialize (IH _ H); lia);
      (destruct (assert_int32 k); [|done]); simpl;
      (destruct (choice_responses n results) as [tl|]; [|done]); simpl;
      intros [= <-]; specialize (IH _ eq_refl); simpl; lia.
Qed.

Lemma text_responses_spec (n : Z) (results : list (@Value F * Z))
    (l : list CommonResponse) :
  text_responses n results = Ok l ->
  (length l <= length results)%nat /\
  Forall (fun e => exists s, value e = VString s /\
                     (String.length s <= 50)%nat) l.
Proof.
  revert l. induction results as [|[id k] results IH]; simpl; intros l.
  - intros [= <-]. by split.
  - destruct id as [|s| | | | | |];
      try (intros H; destruct (IH _ H); split; [lia|done]);
      (destruct (assert_int32 k); [|done]); simpl;
      (destruct (text_responses n results) as [tl|]; [|done]); simpl;
      intros [= <-]; destruct (IH _ eq_refl) as [H1 H2];
      (split; [simpl; lia|]); constructor; try done; simpl;
      eexists; (split; [reflexivity|]); first [apply truncate_length|simpl; lia].
Qed.

(** X20. The summary of a field lists few answers. For a choice field there
    are at most 10 entries, and for a text or email field at most 5, each
    one a string of at most 50 bytes; and [unique_responses] is the number
    of groups after that limit, so it never exceeds 10 or 5, however many
    different answers there are. *)
Theorem summaries_are_capped (db : list (@FormResponse F)) (formID : ObjectID)
    (field : FormField) (total : Z) (fa : FieldAnalytics) :
  calculateEnhancedFieldAnalytics db formID field total = Ok fa ->
  (Type_ field = FieldTypeMultipleChoice \/ Type_ field = FieldTypeCheckbox ->
     0 <= unique_responses fa <= 10 /\
     Z.of_nat (length (common_responses fa)) <= unique_responses fa) /\
  (Type_ field = FieldTypeText \/ Type_ field = FieldTypeTextarea \/
   Type_ field = FieldTypeEmail ->
     0 <= unique_responses fa <= 5 /\
     Z.of_nat (length (common_responses fa)) <= unique_responses fa /\
     Forall (fun e => exists s, value e = VString s /\
                        (String.length s <= 50)%nat)
            (common_responses fa)).
Proof.
  unfold calculateEnhancedFieldAnalytics.
  unfold FieldTypeMultipleChoice, FieldTypeCheckbox, FieldTypeRating,
    FieldTypeText, FieldTypeTextarea, FieldTypeEmail.
  set (choiceResults := aggregate_top db formID (ID field) 10).
  set (textResults := aggregate_top db formID (ID field) 5).
  assert (Hc : (length choiceResults <= 10)%nat).
  { unfold choiceResults, aggregate_top. rewrite length_firstn. lia. }
  assert (Ht : (length textResults <= 5)%nat).
  { unfold textResults, aggregate_top. rewrite length_firstn. lia. }
  destruct (String.eqb_spec (Type_ field) "multiple_choice") as [E|E1];
    [|destruct (String.eqb_spec (Type_ field) "checkbox") as [E|E2]];
    cbn [orb].
  1, 2: destruct (choice_responses _ choiceResults) as [l|] eqn:Hl; [|done];
    simpl; intros [= <-]; simpl; apply choice_responses_length in Hl;
    (split; [intros _; lia|]); intros [?|[?|?]]; congruence.
  destruct (String.eqb_spec (Type_ field) "rating") as [E|E3].
  { destruct (answers db formID (ID field)); intros [= <-];
      (split; [intros [?|?]|intros [?|[?|?]]]; congruence). }
  destruct (String.eqb_spec (Type_ field) "text") as [E|E4];
    [|destruct (String.eqb_spec (Type_ field) "textarea") as [E|E5];
      [|destruct (String.eqb_spec (Type_ field) "email") as [E|E6]]];
    cbn [orb].
  1, 2, 3: destruct (text_responses _ textResults) as [l|] eqn:Hl; [|done];
    simpl; intros [= <-]; simpl; apply text_responses_spec in Hl as [Hl1 Hl2];
    (split; [intros [?|?]; congruence|]); intros _;
    (split; [lia|]); (split; [lia|done]).
  intros [= <-]. split; [intros [?|?]|intros [?|[?|?]]]; congruence.
Qed.

End Summaries.

Lemma summaries_are_capped_witness :
  match calculateEnhancedFieldAnalytics
          [commented "good" 1; commented "good" 2; commented "slow" 3]
          "f1" comment_field 3 with
  | Ok fa => 0 <= unique_responses fa <= 5 /\
             Z.of_nat (length (common_responses fa)) <= unique_responses fa
  | Panic _ => False
  end.
Proof.
  destruct (calculateEnhancedFieldAnalytics
              [commented "good" 1; commented "good" 2; commented "slow" 3]
              "f1" comment_field 3) as [fa|msg] eqn:E.
  - destruct (proj2 (summaries_are_capped _ _ _ _ fa E)) as (H1 & H2 & _);
      [by left|by split].
  - vm_compute in E. discriminate.
Defined.

Lemma Q_percent_bounds (c n : Z) :
  0 <= c <= n -> 0 < n ->
  (0 <= inject_Z c / inject_Z n * inject_Z 100 <= 100)%Q.
Proof.
  intros Hc Hn. split.
  - apply (Q_ratio_nonneg c n); lia.
  - assert (E : (inject_Z n / inject_Z n * inject_Z 100 == 100)%Q).
    { field. unfold Qeq. simpl. lia. }
    rewrite <- E. apply Q_ratio_le; nia.
Qed.

Lemma Q_percent_le_iff (c n : Z) :
  0 < n -> (inject_Z c / inject_Z n * inject_Z 100 <= 100)%Q <-> c <= n.
Proof.
  intros Hn. destruct n as [|p|p]; try lia.
  unfold Qle, Qdiv, Qmult, Qinv, inject_Z. simpl.
  rewrite ?Pos.mul_1_r, ?Pos.mul_1_l. lia.
Qed.

(** X21. In exact arithmetic. The completion rate, which is computed from
    the responses of one query, lies between 0 and 100. The rates of a
    field are computed from the count of the responses that answer the
    field and from the total that [calculateAnalytics] read before: they
    add up to 100, the response rate is not negative, and it is at most
    100 exactly when the total is not positive or the count does not
    exceed it. So it is for the total of the store that the count is
    taken from; when answers arrive between the two queries and the count
    exceeds a positive total, the response rate is above 100 and the skip
    rate negative. *)
Theorem rates_are_percentages (db : list (@FormResponse Q)) (formID : ObjectID)
    (fields : list FormField) :
  (0 <= (calculateCompletionMetrics db formID fields).1 <= 100)%Q /\
  forall (field : FormField) (total : Z) (fa : FieldAnalytics),
    calculateEnhancedFieldAnalytics db formID field total = Ok fa ->
    let answered := CountDocuments db (of_form_answered formID (ID field)) in
    (response_rate fa + skip_rate fa == 100)%Q /\
    (0 <= response_rate fa)%Q /\
    ((response_rate fa <= 100)%Q <-> total <= 0 \/ answered <= total) /\
    (total = CountDocuments db (of_form formID) ->
     (response_rate fa <= 100)%Q) /\
    (0 < total < answered ->
     (100 < response_rate fa)%Q /\ (skip_rate fa < 0)%Q).
Proof.
  split.
  - rewrite completion_rate_eq. cbv zeta.
    destruct (length (Find db (of_form formID))) as [|n] eqn:E; [done|].
    change (S n =? 0)%nat with false. cbv iota.
    apply Q_percent_bounds; [|lia].
    rewrite <- E. apply count_complete_bounds.
  - intros field total fa Hfa answered.
    destruct (calculateEnhancedFieldAnalytics_rates _ _ _ _ _ Hfa)
      as (_ & Hrr & Hsr).
    fold answered in Hrr.
    assert (Hans : 0 <= answered <= CountDocuments db (of_form formID)).
    { split; [apply CountDocuments_nonneg|].
      apply CountDocuments_mono. intros r. unfold of_form_answered.
      rewrite andb_true_iff. tauto. }
    assert (Hsum : (response_rate fa + skip_rate fa == 100)%Q).
    { rewrite Hsr. destruct (0 <? total); simpl; [ring|].
      rewrite Hrr. reflexivity. }
    assert (Hiff : (response_rate fa <= 100)%Q <->
                   total <= 0 \/ answered <= total).
    { rewrite Hrr. destruct (Z.ltb_spec 0 total) as [Hpos|Hneg].
      - rewrite (Q_percent_le_iff answered total Hpos). lia.
      - split; [lia|]. intros _. discriminate. }
    split; [exact Hsum|]. split; [|split; [exact Hiff|split]].
    + rewrite Hrr. destruct (Z.ltb_spec 0 total) as [Hpos|_]; [|discriminate].
      apply (Q_ratio_nonneg answered total); lia.
    + intros ->. apply Hiff. lia.
    + intros Hlt.
      assert (Hgt : (100 < response_rate fa)%Q).
      { apply Qnot_le_lt. rewrite Hiff. lia. }
      split; [exact Hgt|].
      apply Qplus_lt_l with (z := response_rate fa).
      rewrite (Qplus_comm (skip_rate fa)), Hsum, Qplus_0_l. exact Hgt.
Qed.

Lemma rates_are_percentages_witness :
  match calculateEnhancedFieldAnalytics
          [commented "good" 1762160000000; commented "slow" 1762170000001]
          "f1" comment_field 1 with
  | Ok fa => (response_rate fa == 200)%Q /\
             (100 < response_rate fa)%Q /\ (skip_rate fa < 0)%Q
  | Panic _ => False
  end.
Proof.
  destruct (calculateEnhancedFieldAnalytics
              [commented "good" 1762160000000; commented "slow" 1762170000001]
              "f1" comment_field 1) as [fa|msg] eqn:E.
  - split.
    + vm_compute in E. injection E as <-. reflexivity.
    + apply (proj2 (rates_are_percentages _ "f1" []) comment_field 1 fa E).
      by vm_compute.
  - vm_compute in E. discriminate.
Defined.

End AnalyticsMore.

(** * Further properties of the frontend client *)

Module WebSocketClientMore.
Import WebSocketClient WebSocketClientInvariants WebSocketClientSpec.

Lemma step_steady e w : steady w -> steady (step e w).
Proof.
  unfold steady. intros (Hint & Hping & Hdelay).
  assert (Hgoal : forall w', reconnectInterval w' = reconnectInterval w ->
            pingInterval w' = isConnected w' ->
            (forall d, In (SetTimeoutConnect d) (effects w') ->
               d = reconnectInterval w \/ In (SetTimeoutConnect d) (effects w)) ->
            reconnectInterval w' = 5000 /\ pingInterval w' = isConnected w' /\
            forall d, In (SetTimeoutConnect d) (effects w') -> d = 5000).
  { intros w' H1 H2 H3. split; [congruence|]. split; [done|].
    intros d Hd. destruct (H3 d Hd) as [->|Hd']; [done|by apply Hdelay]. }
  apply Hgoal; clear Hgoal;
    destruct e as [throws| |throws|current| |current code]; simpl;
    unfold connect, onclose, handleReconnect;
    repeat match goal with
           | |- context [match socket w with _ => _ end] =>
               destruct (socket w) as [[]|]
           | |- context [if ?b then _ else _] => destruct b
           end; simpl; try done;
    intros d H; repeat (destruct H as [H|H]; [by simplify_eq; auto|]); by auto.
Qed.

Lemma run_steady evs : forall w, steady w -> steady (run evs w).
Proof.
  induction evs as [|e evs IH]; intros w Hw; simpl; [done|].
  apply IH. by apply step_steady.
Qed.

Lemma wsClient_steady : steady wsClient.
Proof. repeat split. by intros d []. Qed.

Lemma wsClient_bounded : bounded wsClient.
Proof. unfold bounded. simpl. lia. Qed.

(** X22. After any sequence of calls, timer and socket events on a new client,
    the keepalive ping timer is set exactly when the client reports itself
    connected. *)
Theorem ping_timer_follows_connection (evs : list Event) :
  pingInterval (run evs wsClient) = isConnected (run evs wsClient).
Proof. apply (run_steady evs wsClient wsClient_steady). Qed.

(** X23. Every reconnection the client ever schedules is 5000 ms ahead: there
    is no back-off between the attempts. *)
Theorem reconnect_delay_is_constant (evs : list Event) (delay : Z) :
  In (SetTimeoutConnect delay) (effects (run evs wsClient)) -> delay = 5000.
Proof. apply (run_steady evs wsClient wsClient_steady). Qed.

Lemma reconnect_delay_is_constant_witness :
  In (SetTimeoutConnect 5000)
     (effects (run [CallConnect false; SocketCloseEvent true 1006] wsClient)) /\
  5000 = 5000.
Proof.
  assert (H : In (SetTimeoutConnect 5000)
                (effects (run [CallConnect false; SocketCloseEvent true 1006]
                            wsClient))) by (simpl; auto).
  split; [exact H|].
  exact (reconnect_delay_is_constant
           [CallConnect false; SocketCloseEvent true 1006] 5000 H).
Defined.

(** X24. [disconnect()] does not end the reconnecting. A reconnect timer that
    is pending when it is called still opens a new socket; and when the
    close event of the socket it closed carries a code other than 1000, a
    reconnection is scheduled as after a lost connection, unless the
    attempts are used up. *)
Theorem disconnect_does_not_stop_reconnecting (evs : list Event)
    (current : bool) (code : Z) :
  let w := run (evs ++ [CallDisconnect]) wsClient in
  code <> 1000 ->
  reconnectAttempts w < 5 ->
  socket w = None /\ isConnected w = false /\
  socket (step (TimerFires false) w) = Some CONNECTING /\
  effects (step (SocketCloseEvent current code) w) =
    SetTimeoutConnect 5000 :: Emit "disconnected" :: effects w /\
  socket (run [SocketCloseEvent current code; TimerFires false] w) =
    Some CONNECTING.
Proof.
  intros w Hcode Hattempts.
  pose proof (run_steady (evs ++ [CallDisconnect]) wsClient wsClient_steady)
    as (Hint & _). fold w in Hint.
  pose proof (run_bounded (evs ++ [CallDisconnect]) wsClient wsClient_bounded)
    as [Hmax _]. fold w in Hmax.
  assert (Hsock : socket w = None /\ isConnected w = false).
  { unfold w. rewrite run_app. done. }
  destruct Hsock as [Hsock Hconn].
  split; [done|]. split; [done|].
  apply Z.eqb_neq in Hcode.
  assert (Hge : (reconnectAttempts w >=? maxReconnectAttempts w) = false).
  { rewrite Hmax. destruct (Z.geb_spec (reconnectAttempts w) 5); [lia|done]. }
  assert (Hset : (if current then set_readyState CLOSED w else w) = w).
  { destruct current; [|done]. unfold set_readyState. rewrite Hsock.
    destruct w; simpl in *. by subst. }
  split; [|split].
  - simpl. unfold connect. by rewrite Hsock.
  - simpl. rewrite Hset. unfold onclose, handleReconnect. rewrite Hcode.
    cbn [reconnectAttempts maxReconnectAttempts]. rewrite Hge. simpl.
    by rewrite Hint.
  - simpl. rewrite Hset. unfold onclose, handleReconnect. rewrite Hcode.
    cbn [reconnectAttempts maxReconnectAttempts]. rewrite Hge.
    unfold connect. done.
Qed.

Lemma disconnect_does_not_stop_reconnecting_witness :
  socket (run [SocketCloseEvent false 1005; TimerFires false]
            (run ([CallConnect false; SocketOpen true] ++ [CallDisconnect])
               wsClient)) = Some CONNECTING.
Proof.
  apply (disconnect_does_not_stop_reconnecting
           [CallConnect false; SocketOpen true] false 1005);
    [discriminate|simpl; lia].
Defined.

End WebSocketClientMore.
